(** * canvassync.py: a shallow embedding of the reconciliation engine

    The functions of [canvassync.py] that decide which remote files are
    downloaded, updated, skipped or deleted: [getfile_insensitive],
    [add_before_ext], [download], [do_all_pages], [Course._parse_file] and
    [Course.onto_local]; and the ones that prepare them: the folder phase
    ([Course._parse_folder] with [os.makedirs]) and [Course._parse_moduleitem].

    Modelling choices.
    - A path is the list of its components.  [os.path.join(dir, name)] is
      [dir ++ [name]] for a [name] without ['/'] (a [file_name] never has
      one); a name with ['/'] in it is split into its components
      ([path_join], [join_file]).  A path string that ends in ['/'] is
      written with a last component [""] ([slashed]); [dest_path] is the
      path the system calls resolve it to.
    - The local disk is a list of (path, object) pairs in directory-listing
      order: [os.listdir] reads it in this order, a new file is appended.
      Names on the disk are never [""]; names that a display name or a
      formatted time would turn into the components [.] or [..] are
      outside the model.
    - Times are integers (seconds since the epoch, or any finer unit);
      [file_utc.timestamp()] is the entry's [modified_at].  The clock [now]
      is a field of the state; writes without [os.utime] stamp it.
    - Byte strings and file names are [string]s (lists of 8-bit [ascii]):
      a name is the bytes of its UTF-8 encoding.  [str.lower] is Unicode
      lower-casing, a parameter of the development (the class [Lower]): the
      properties hold for every lower-casing function.  The concrete
      examples use ASCII lower-casing ([ascii_lower]), which is what
      [str.lower] does on their ASCII names.
    - Network answers are given by the functions [get_content] (file
      content), [get_page] (listing pages) and [get_file] (the file record
      of a module item): the server is a parameter, and an answer is the
      last one after the redirects [requests] follows.  A request can also
      fail in [requests] ([Failed]: [requests.ConnectionError], [Timeout],
      ...), and a body streamed in chunks can fail part-way
      ([stream_error]).  These are [requests.RequestException]s, which are
      not the builtin [ConnectionError] that [except ConnectionError]
      catches.
    - Printed lines that depend on [args.verbosity] are not recorded; the
      unconditional ones ([print(err.args)] and the canvas-error warning)
      are. *)

From Stdlib Require Import ZArith Lia Bool Ascii.
From stdpp Require Import base list gmap sets strings pretty.

Open Scope Z_scope.

Abbreviation path := (list string).

Local Infix "+++" := String.append (at level 60, right associativity).

(** ** Strings *)

(** [str.lower] *)
Class Lower := mkLower { lower : string -> string }.

Definition lower_ascii (c : ascii) : ascii :=
  let n := nat_of_ascii c in
  if (65 <=? n)%nat && (n <=? 90)%nat then ascii_of_nat (n + 32) else c.

(** ASCII lower-casing: [str.lower] on names made of ASCII characters *)
Fixpoint lower_ascii_string (s : string) : string :=
  match s with
  | EmptyString => EmptyString
  | String c s' => String (lower_ascii c) (lower_ascii_string s')
  end.

Definition ascii_lower : Lower := mkLower lower_ascii_string.

(** [s.replace(a, b)] for one-character [a] and [b] *)
Fixpoint replace_char (a b : ascii) (s : string) : string :=
  match s with
  | EmptyString => EmptyString
  | String c s' => String (if Ascii.eqb c a then b else c) (replace_char a b s')
  end.

(** [s.startswith(p)] *)
Definition startswith (s p : string) : bool := String.prefix p s.

(** [s.endswith('/')] *)
Definition endswith_slash (s : string) : bool :=
  bool_decide (last (String.list_ascii_of_string s) = Some "/"%char).

(** [s.rfind(c)]: the index of the last occurrence of [c], or -1. *)
Fixpoint rfind_from (c : ascii) (s : string) (i : Z) (acc : Z) : Z :=
  match s with
  | EmptyString => acc
  | String c' s' => rfind_from c s' (i + 1) (if Ascii.eqb c' c then i else acc)
  end.

Definition rfind (s : string) (c : ascii) : Z := rfind_from c s 0 (-1).

(** [s[:pos]] and [s[pos:]] for [0 <= pos <= len(s)] *)
Definition str_take (pos : Z) (s : string) : string := String.substring 0 (Z.to_nat pos) s.
Definition str_drop (pos : Z) (s : string) : string :=
  String.substring (Z.to_nat pos) (String.length s - Z.to_nat pos) s.

(** [add_before_ext] *)
Definition add_before_ext (file_name end_ : string) : string :=
  let temp_name := file_name in
  let pos := rfind temp_name "." in
  if pos =? -1 then String.append temp_name end_
  else String.append (str_take pos temp_name)
         (String.append end_ (str_drop pos temp_name)).

Definition nl : string := String (ascii_of_nat 10) EmptyString.

(** [s.split(sep)] *)
Fixpoint split_on (sep : ascii) (s : string) : list string :=
  match s with
  | EmptyString => [EmptyString]
  | String ch s' =>
      if Ascii.eqb ch sep then EmptyString :: split_on sep s'
      else match split_on sep s' with
           | w :: ws => String ch w :: ws
           | [] => [String ch EmptyString]
           end
  end.

(** The components of a path name; empty ones are dropped, as the
    operating system reads ['a//b/'] as [a/b] ([.] and [..] are kept as
    names) *)
Definition components (s : string) : list string :=
  filter (fun w => negb (bool_decide (w = EmptyString))) (split_on "/" s).

(** ** The local disk *)

Record fobj := mkFobj { data : string; mtime : Z }.

Inductive obj := OFile (f : fobj) | ODir.

Definition disk := list (path * obj).

Definition disk_lookup (p : path) (d : disk) : option obj :=
  snd <$> List.find (fun '(q, _) => bool_decide (q = p)) d.

(** Writing a path replaces its object in place or appends a new entry. *)
Definition disk_write (p : path) (o : obj) (d : disk) : disk :=
  if List.existsb (fun '(q, _) => bool_decide (q = p)) d
  then List.map (fun '(q, o') => if bool_decide (q = p) then (q, o) else (q, o')) d
  else d ++ [(p, o)].

Definition disk_remove (p : path) (d : disk) : disk :=
  List.filter (fun '(q, _) => negb (bool_decide (q = p))) d.

(** A regular file at [p] *)
Definition isfileb (p : path) (d : disk) : bool :=
  match disk_lookup p d with Some (OFile _) => true | _ => false end.

(** [os.path.isdir]; the empty path is the file-system root. *)
Definition isdirb (p : path) (d : disk) : bool :=
  match p with
  | [] => true
  | _ => match disk_lookup p d with Some ODir => true | _ => false end
  end.

(** [os.path.split]: the directory part and the last component *)
Definition dirname (p : path) : path := removelast p.
Definition basename (p : path) : string := List.last p EmptyString.

(** A path written with a trailing ['/'] *)
Definition slashed (p : path) : bool :=
  match p with
  | [] => false
  | _ => bool_decide (basename p = "")
  end.

(** The path a system call resolves [p] to: without its trailing ['/'] *)
Definition dest_path (p : path) : path := if slashed p then dirname p else p.

(** the name of [q] inside directory [dir], when [q] is a direct child *)
Definition child_name (dir q : path) : option string :=
  match q with
  | [] => None
  | _ => if bool_decide (dirname q = dir) then Some (basename q) else None
  end.

(** [os.listdir]: files and subdirectories alike, in listing order;
    [None] when [dir] is no directory. *)
Definition listdir (dir : path) (d : disk) : option (list string) :=
  if isdirb dir d then Some (omap (fun '(q, _) => child_name dir q) d) else None.

(** ** Entries, answers and the per-course state *)

(** A file record as [_parse_file] reads it: [file['folder_id']],
    [file['url']], [file['display_name']] and the parsed [modified_at]. *)
Record entry := mkEntry {
  folder_id : Z;
  url : string;
  display_name : string;
  modified_at : Z
}.

(** What a request gives: an answer, or the [requests] exception (its
    class name) raised by [s.get] *)
Inductive reply (R : Type) := Answered (r : R) | Failed (kind : string).
Arguments Answered {R} r.
Arguments Failed {R} kind.

(** The answer of [s.get(url, stream=True)] for a content URL: its status,
    its body, and the [requests] exception reading the body in chunks
    raises, if any (after [content] has been read) *)
Record response := mkResponse {
  status_code : Z;
  content : string;
  stream_error : option string
}.

(** A printed line: a plain message, or [print(err.args)] *)
Inductive line := Msg (s : string) | Args (msg name : string).

(** The attributes of a [Course] that [_parse_file] and [onto_local] use,
    with the disk and the clock. [scratch] is the [NamedTemporaryFile] in
    use, which lives in the system temporary directory. *)
Record course := mkCourse {
  folder_dict : gmap Z path;
  file_set : gset path;
  skipped : nat;
  updated : nat;
  downloaded : nat;
  errors : nat;
  files : disk;
  scratch : option fobj;
  now : Z;
  out : list line
}.

Definition set_files (d : disk) (c : course) : course :=
  mkCourse (folder_dict c) (file_set c) (skipped c) (updated c) (downloaded c)
    (errors c) d (scratch c) (now c) (out c).
Definition set_scratch (t : option fobj) (c : course) : course :=
  mkCourse (folder_dict c) (file_set c) (skipped c) (updated c) (downloaded c)
    (errors c) (files c) t (now c) (out c).
Definition set_file_set (s : gset path) (c : course) : course :=
  mkCourse (folder_dict c) s (skipped c) (updated c) (downloaded c)
    (errors c) (files c) (scratch c) (now c) (out c).
Definition set_out (o : list line) (c : course) : course :=
  mkCourse (folder_dict c) (file_set c) (skipped c) (updated c) (downloaded c)
    (errors c) (files c) (scratch c) (now c) o.
Definition inc_skipped (c : course) : course :=
  mkCourse (folder_dict c) (file_set c) (S (skipped c)) (updated c) (downloaded c)
    (errors c) (files c) (scratch c) (now c) (out c).
Definition inc_updated (c : course) : course :=
  mkCourse (folder_dict c) (file_set c) (skipped c) (S (updated c)) (downloaded c)
    (errors c) (files c) (scratch c) (now c) (out c).
Definition inc_downloaded (c : course) : course :=
  mkCourse (folder_dict c) (file_set c) (skipped c) (updated c) (S (downloaded c))
    (errors c) (files c) (scratch c) (now c) (out c).
Definition inc_errors (c : course) : course :=
  mkCourse (folder_dict c) (file_set c) (skipped c) (updated c) (downloaded c)
    (S (errors c)) (files c) (scratch c) (now c) (out c).

(** ** A state and exception monad *)

(** The exceptions the modelled code can raise *)
Inductive exc :=
  | KeyError                      (* self.folder_dict[...] *)
  | FileNotFoundError             (* a missing path or parent directory *)
  | NotADirectoryError            (* a regular file used as a directory *)
  | IsADirectoryError             (* open(dest, 'w') on a directory *)
  | ConnectionError (msg name : string)  (* raised by download *)
  | HTTPError (status : Z)        (* response.raise_for_status() *)
  | RequestException (kind : string).  (* raised by requests or response.json() *)

Inductive result (A : Type) := Ok (a : A) | Raise (e : exc).
Arguments Ok {A} a.
Arguments Raise {A} e.

Definition M (A : Type) := course -> result (A * course).

Definition ret {A} (a : A) : M A := fun c => Ok (a, c).
Definition bind {A B} (m : M A) (k : A -> M B) : M B :=
  fun c => match m c with Ok (a, c') => k a c' | Raise e => Raise e end.
Definition raise {A} (e : exc) : M A := fun _ => Raise e.
Definition gets {A} (f : course -> A) : M A := fun c => Ok (f c, c).
Definition modify (f : course -> course) : M unit := fun c => Ok (tt, f c).

Declare Scope py_scope.
Notation "x <- m ;; k" := (bind m (fun x => k))
  (at level 100, m at next level, right associativity) : py_scope.
Notation "m ;; k" := (bind m (fun _ => k))
  (at level 100, right associativity) : py_scope.
Open Scope py_scope.

(** [try: m  except ConnectionError as err: ...]: [Some err.args] when
    [m] raised [ConnectionError]; other exceptions propagate. *)
Definition try_conn (m : M unit) : M (option (string * string)) :=
  fun c => match m c with
           | Ok (_, c') => Ok (None, c')
           | Raise (ConnectionError a b) => Ok (Some (a, b), c)
           | Raise e => Raise e
           end.

Definition print (l : line) : M unit := modify (fun c => set_out (out c ++ [l]) c).

(** ** File-system operations *)

(** The error of a system call that needs the directory [p]: walking its
    components from the root, the first one that is missing
    ([FileNotFoundError]) or a regular file ([NotADirectoryError]). *)
Fixpoint dir_error_from (pre rest : path) (d : disk) : exc :=
  match rest with
  | [] => FileNotFoundError
  | n :: rest' =>
      match disk_lookup (pre ++ [n]) d with
      | Some ODir => dir_error_from (pre ++ [n]) rest' d
      | Some (OFile _) => NotADirectoryError
      | None => FileNotFoundError
      end
  end.

Definition dir_error (p : path) (d : disk) : exc := dir_error_from [] p d.

(** [os.path.isfile]: a path written with a trailing ['/'] is never a
    regular file *)
Definition isfile (p : path) : M bool :=
  gets (fun c => negb (slashed p) && isfileb p (files c)).

(** [os.path.getmtime] *)
Definition getmtime (p : path) : M Z :=
  fun c => match disk_lookup p (files c) with
           | Some (OFile f) => Ok (mtime f, c)
           | _ => Raise FileNotFoundError
           end.

Definition os_listdir (dir : path) : M (list string) :=
  fun c => match listdir dir (files c) with
           | Some l => Ok (l, c)
           | None => Raise (dir_error dir (files c))
           end.

(** [getfile_insensitive] *)
Definition getfile_insensitive `{Lower} (p : path) : M (option path) :=
  let directory := dirname p in
  let filename := lower (basename p) in
  fs <- os_listdir directory ;;
  ret ((fun f => directory ++ [f]) <$> List.find (fun f => bool_decide (lower f = filename)) fs).

(** [isfile_insensitive] *)
Definition isfile_insensitive `{Lower} (p : path) : M bool :=
  r <- getfile_insensitive p ;; ret (bool_decide (r <> None)).

(** A place [download] writes to: a path of the course tree, or the
    temporary file. *)
Inductive dest := Local (p : path) | Scratch.

Definition get_dest (t : dest) : M (option fobj) :=
  gets (fun c => match t with
                 | Local p => match disk_lookup (dest_path p) (files c) with
                              | Some (OFile f) => Some f
                              | _ => None
                              end
                 | Scratch => scratch c
                 end).

(** The error [open(p, 'w')] raises, if any: the parent directory must
    exist; a path ending in ['/'] or naming a directory is refused. *)
Definition open_error (p : path) (d : disk) : option exc :=
  let q := dest_path p in
  if negb (isdirb (dirname q) d) then Some (dir_error (dirname q) d)
  else if slashed p then Some IsADirectoryError
  else match disk_lookup q d with
       | Some ODir => Some IsADirectoryError
       | _ => None
       end.

(** [open(dest, 'w')] followed by writes: the file holds [s], stamped now *)
Definition write_dest (t : dest) (s : string) : M unit :=
  fun c => match t with
           | Local p =>
               match open_error p (files c) with
               | Some x => Raise x
               | None => Ok (tt, set_files (disk_write (dest_path p) (OFile (mkFobj s (now c))) (files c)) c)
               end
           | Scratch => Ok (tt, set_scratch (Some (mkFobj s (now c))) c)
           end.

(** [os.utime(dest, (t, t))] on the file just written *)
Definition utime (t : dest) (tm : Z) : M unit :=
  fun c => match t with
           | Local p =>
               match disk_lookup (dest_path p) (files c) with
               | Some (OFile f) =>
                   Ok (tt, set_files (disk_write (dest_path p) (OFile (mkFobj (data f) tm)) (files c)) c)
               | _ => Raise FileNotFoundError
               end
           | Scratch =>
               match scratch c with
               | Some f => Ok (tt, set_scratch (Some (mkFobj (data f) tm)) c)
               | None => Raise FileNotFoundError
               end
           end.

(** [Path(dest).touch()]: refreshes the mtime of an existing path, or
    creates an empty file in an existing directory *)
Definition touch (t : dest) : M unit :=
  fun c => match t with
           | Local p =>
               let q := dest_path p in
               match disk_lookup q (files c) with
               | Some (OFile f) =>
                   Ok (tt, set_files (disk_write q (OFile (mkFobj (data f) (now c))) (files c)) c)
               | Some ODir => Ok (tt, c)
               | None =>
                   if isdirb (dirname q) (files c)
                   then Ok (tt, set_files (disk_write q (OFile (mkFobj "" (now c))) (files c)) c)
                   else Raise (dir_error (dirname q) (files c))
               end
           | Scratch =>
               match scratch c with
               | Some f => Ok (tt, set_scratch (Some (mkFobj (data f) (now c))) c)
               | None => Ok (tt, set_scratch (Some (mkFobj "" (now c))) c)
               end
           end.

(** [filecmp.cmp(f1, f2)] with its default [shallow=True]: two regular files
    with equal [os.stat] signatures (size and mtime) are equal without
    reading them; files of different sizes differ; otherwise the bytes are
    compared. *)
Definition filecmp (a b : fobj) : bool :=
  if (String.length (data a) =? String.length (data b))%nat && (mtime a =? mtime b)
  then true
  else if negb (String.length (data a) =? String.length (data b))%nat then false
  else bool_decide (data a = data b).

(** [filecmp.cmp(file_path, temp_file_path)] *)
Definition filecmp_cmp (p : path) : M bool :=
  fun c => match disk_lookup p (files c), scratch c with
           | Some (OFile a), Some b => Ok (filecmp a b, c)
           | _, _ => Raise FileNotFoundError
           end.

(** [os.remove(p)] *)
Definition os_remove (p : path) : M unit :=
  fun c => match disk_lookup p (files c) with
           | Some (OFile _) => Ok (tt, set_files (disk_remove p (files c)) c)
           | _ => Raise FileNotFoundError
           end.

(** [shutil.copy2(temp_file_path, p)]: bytes and mtime of the scratch file *)
Definition copy2_scratch (p : path) : M unit :=
  fun c => match scratch c with
           | Some f => Ok (tt, set_files (disk_write p (OFile f) (files c)) c)
           | None => Raise FileNotFoundError
           end.

(** [tempfile.NamedTemporaryFile(delete=False)]: a fresh empty file *)
Definition named_temporary_file : M unit :=
  modify (fun c => set_scratch (Some (mkFobj "" (now c))) c).

(** [os.remove(temp_file_path)] *)
Definition remove_scratch : M unit := modify (set_scratch None).

Definition add_to_file_set (p : path) : M unit :=
  modify (fun c => set_file_set ({[p]} ∪ file_set c) c).

(** [self.folder_dict[k]] *)
Definition folder_lookup (k : Z) : M path :=
  fun c => match folder_dict c !! k with
           | Some l => Ok (l, c)
           | None => Raise KeyError
           end.

(** [os.path.join(dir, name)]: an absolute [name] replaces [dir] *)
Definition path_join (dir : path) (name : string) : path :=
  if startswith name "/" then components name else dir ++ components name.

(** [os.path.join(file_location, file_name)] for any [file_name]: its
    components, and a trailing ['/'] ([""]) when it ends in one or is
    empty *)
Definition join_file (dir : path) (name : string) : path :=
  path_join dir name ++ (if endswith_slash ("/" +++ name) then [""] else []).

Section Engine.

Context `{Lower}.

(** [file_utc.astimezone(local_timezone).strftime(time_fmt)]: the
    formatting configured in settings.yaml *)
Variable fmt : Z -> string.
(** [s.get(url, headers=request_headers, stream=True)] *)
Variable get_content : string -> reply response.

(** The text of a [.url] internet shortcut *)
Definition shortcut (u : string) : string :=
  "[InternetShortcut]" +++ nl +++ "URL=" +++ String.substring 4 (String.length u - 4) u +++ nl.

(** [download(file, dest, request_headers)] *)
Definition download (file : entry) (t : dest) : M unit :=
  if bool_decide (url file = "") then
    print (Msg ("Warning: " +++ display_name file +++ " ignored due to canvas error"))
  else if startswith (url file) "URL:" then
    write_dest t (shortcut (url file))
  else if startswith (url file) "SubHeader:" then
    touch t
  else
    match get_content (url file) with
    | Failed k => raise (RequestException k)
    | Answered r =>
        if status_code r =? 200 then
          write_dest t (content r) ;;
          match stream_error r with
          | Some k => raise (RequestException k)
          | None => utime t (modified_at file)
          end
        else raise (ConnectionError "Non-200 status code" (display_name file))
    end.

(** [Course._parse_file].  The first three branches end in [None] where
    the source returns from the [except ConnectionError] handler, and in
    [Some file_path] where it falls through to [self.file_set.add].
    [file_name] has no ['/'], so the first join is one component ([""]
    stands for the trailing ['/'] of an empty name); the case-collision
    name may have some from [time_fmt]. *)
Definition parse_file (file : entry) : M unit :=
  file_location <- folder_lookup (folder_id file) ;;
  let file_url := url file in
  let file_name := replace_char "/" "-" (display_name file) in
  let file_path := file_location ++ [file_name] in
  let file_utc := modified_at file in
  exact <- isfile file_path ;;
  coll <- (if exact then ret false else isfile_insensitive file_path) ;;
  added <- (
    if negb exact && coll then
      let file_name := add_before_ext file_name (" c" +++ fmt file_utc) in
      let file_path := join_file file_location file_name in
      err <- try_conn (download file (Local file_path)) ;;
      match err with
      | Some (a, b) => print (Args a b) ;; modify inc_errors ;; ret None
      | None => modify inc_downloaded ;; ret (Some file_path)
      end
    else
      newer <- (if exact then (m <- getmtime file_path ;; ret (m <? file_utc))
                else ret false) ;;
      if newer then
        named_temporary_file ;;
        err <- try_conn (download file Scratch) ;;
        match err with
        | Some (a, b) => print (Args a b) ;; modify inc_errors ;; ret None
        | None =>
            same <- filecmp_cmp file_path ;;
            (if negb same then
               modify inc_updated ;; os_remove file_path ;; copy2_scratch file_path
             else modify inc_skipped) ;;
            remove_scratch ;;
            ret (Some file_path)
        end
      else if negb exact && negb (bool_decide (file_url = "")) then
        err <- try_conn (download file (Local file_path)) ;;
        match err with
        | Some (a, b) => print (Args a b) ;; modify inc_errors ;; ret None
        | None => modify inc_downloaded ;; ret (Some file_path)
        end
      else
        modify inc_skipped ;; ret (Some file_path)) ;;
  match added with
  | Some p => add_to_file_set p
  | None => ret tt
  end.

(** The file phase of [sync_local]: [_parse_file] on every file record of
    the listing, in order. *)
Fixpoint run_files (es : list entry) : M unit :=
  match es with
  | [] => ret tt
  | e :: es' => parse_file e ;; run_files es'
  end.

End Engine.

(** ** Paginated listings: [do_all_pages] *)

(** One answer of [s.get(req_url, headers=headers)] on a listing URL: its
    status, the URL of its [rel="next"] link if any, and its body as a
    JSON array ([None] when [response.json()] fails to decode it). *)
Record page (A : Type) := mkPage {
  page_status : Z;
  page_next : option string;
  page_json : option (list A)
}.
Arguments mkPage {A}.
Arguments page_status {A}.
Arguments page_next {A}.
Arguments page_json {A}.

(** [response.raise_for_status()] raises exactly on 4xx and 5xx codes. *)
Definition raises_for_status (status : Z) : bool := (400 <=? status) && (status <? 600).

(** [for thing in response.json(): method_to_run(thing)] *)
Fixpoint for_each {A} (method_to_run : A -> M unit) (things : list A) : M unit :=
  match things with
  | [] => ret tt
  | t :: ts => method_to_run t ;; for_each method_to_run ts
  end.

Section Pages.

Context {A : Type}.
Variable get_page : string -> reply (page A).

(** [do_all_pages(req_url, headers, method_to_run)].  The [while] loop is
    unbounded; [fuel] counts the iterations this run may take, and [None]
    means it needed more. *)
Fixpoint do_all_pages (fuel : nat) (req_url : string) (method_to_run : A -> M unit)
    (c : course) : option (result (unit * course)) :=
  match fuel with
  | O => None
  | S fuel' =>
      if bool_decide (req_url = "") then Some (Ok (tt, c))
      else
        match get_page req_url with
        | Failed k => Some (Raise (RequestException k))
        | Answered response =>
            if raises_for_status (page_status response) then
              Some (Raise (HTTPError (page_status response)))
            else
              let req_url' := default "" (page_next response) in
              match page_json response with
              | None => Some (Raise (RequestException "JSONDecodeError"))
              | Some things =>
                  match for_each method_to_run things c with
                  | Ok (_, c') => do_all_pages fuel' req_url' method_to_run c'
                  | Raise e => Some (Raise e)
                  end
              end
        end
  end.

End Pages.

(** ** Pruning: [Course.onto_local] *)

(** The directory tree under the course directory, as [os.walk] sees it *)
#[warnings="-register-all"]
Inductive node := FileN (name : string) | DirN (name : string) (children : list node).

(** [folder_dict.values()] *)
Definition folder_values (fd : gmap Z path) : list path := (map_to_list fd).*2.

(** [".old" in os.path.normpath(root).split(os.path.sep)] *)
Definition in_old (root : path) : bool := bool_decide (".old" ∈ root).

(** [onto_local] on the directory [root] whose entries are [cs]: the
    entries that remain.  [os.walk] is top-down: at [root] it removes the
    files not in [file_set] and the subdirectories (other than [.old]) not
    among [folder_dict.values()], then walks the remaining subdirectories.
    A subdirectory removed at [root] is still in the [dirnames] list that
    [os.walk] descends into afterwards; listing it fails, which [os.walk]
    ignores, and the [os.path.exists(root)] test skips it: nothing happens
    there, so it is simply absent from the result.  Removing a file or a
    subtree only touches that entry, so visiting the entries one by one
    in listing order gives the same tree. *)
Definition keep_file (file_set : gset path) (root : path) (n : string) : bool :=
  in_old root || bool_decide (root ++ [n] ∈ file_set).

Definition keep_dir (fvals : list path) (root : path) (n : string) : bool :=
  in_old root || bool_decide (n = ".old") || bool_decide (root ++ [n] ∈ fvals).

Fixpoint prune_node (file_set : gset path) (fvals : list path) (root : path)
    (e : node) : option node :=
  match e with
  | FileN n => if keep_file file_set root n then Some (FileN n) else None
  | DirN n sub =>
      if keep_dir fvals root n then
        Some (DirN n ((fix prune_list (l : list node) : list node :=
                         match l with
                         | [] => []
                         | x :: xs =>
                             match prune_node file_set fvals (root ++ [n]) x with
                             | Some y => y :: prune_list xs
                             | None => prune_list xs
                             end
                         end) sub))
      else None
  end.

Definition prune (file_set : gset path) (fvals : list path) (root : path)
    (cs : list node) : list node :=
  omap (prune_node file_set fvals root) cs.

(** [onto_local]: [os.walk(self.course_dir)] *)
Definition onto_local (c : course) (course_dir : path) (tree : list node) : list node :=
  prune (file_set c) (folder_values (folder_dict c)) course_dir tree.

(** ** Entries of a tree *)

(** The paths of a tree's entries, with [true] for files and [false] for
    directories, in walk order. *)
Fixpoint entries_node (root : path) (e : node) : list (path * bool) :=
  match e with
  | FileN n => [(root ++ [n], true)]
  | DirN n sub => (root ++ [n], false) :: flat_map (entries_node (root ++ [n])) sub
  end.

Definition entries (root : path) (cs : list node) : list (path * bool) :=
  flat_map (entries_node root) cs.

(** ** Page chains *)

(** [page_chain get_page u ps]: starting from [u], the listing is the pages
    [ps], each one answered and naming the next through its [next] link,
    the last one naming none. *)
Inductive page_chain {A} (get_page : string -> reply (page A)) : string -> list (page A) -> Prop :=
  | chain_last u p :
      u <> "" -> get_page u = Answered p -> default "" (page_next p) = "" ->
      page_chain get_page u [p]
  | chain_next u p ps :
      u <> "" -> get_page u = Answered p ->
      page_chain get_page (default "" (page_next p)) ps ->
      page_chain get_page u (p :: ps).

(** The items of a page's JSON array *)
Definition page_items_of {A} (p : page A) : list A := default [] (page_json p).

(** A page that [do_all_pages] processes: no status [raise_for_status]
    rejects, and a JSON array *)
Definition page_ok {A} (p : page A) : Prop :=
  raises_for_status (page_status p) = false /\ page_json p <> None.

(** A 2xx status *)
Definition http_success (status : Z) : Prop := 200 <= status < 300.

(** ** Resolved paths and fetched bytes *)

(** [os.path.join(file_location, file_name)]: the path [_parse_file]
    first resolves an entry to *)
Definition resolved_path (fd : gmap Z path) (e : entry) : path :=
  match fd !! folder_id e with
  | Some loc => loc ++ [replace_char "/" "-" (display_name e)]
  | None => []
  end.



(** The bytes [download] writes for an entry when it does not raise *)
Definition fetched_data (get_content : string -> reply response) (e : entry) : string :=
  if bool_decide (url e = "") then ""
  else if startswith (url e) "URL:" then shortcut (url e)
  else if startswith (url e) "SubHeader:" then ""
  else match get_content (url e) with
       | Answered r => content r
       | Failed _ => ""
       end.

(** The mtime [download] gives the file it writes into a fresh temporary
    file stamped [tm] *)
Definition fetched_mtime (e : entry) (tm : Z) : Z :=
  if bool_decide (url e = "") || startswith (url e) "URL:" || startswith (url e) "SubHeader:"
  then tm else modified_at e.

(** The lines [download] prints when it does not raise *)
Definition download_out (e : entry) : list line :=
  if bool_decide (url e = "")
  then [Msg ("Warning: " +++ display_name e +++ " ignored due to canvas error")]
  else [].

(** The request [download] makes for an HTTP URL of [e] is answered with
    status 200 and its body read without error *)
Definition download_ok (get_content : string -> reply response) (e : entry) : Prop :=
  url e <> "" -> startswith (url e) "URL:" = false ->
  startswith (url e) "SubHeader:" = false ->
  exists r, get_content (url e) = Answered r /\ status_code r = 200 /\ stream_error r = None.

(** [s.get(u, stream=True)] raises the [requests] exception [kind], or it
    answers 200 and reading the body raises it *)
Definition request_fails (get_content : string -> reply response) (u kind : string) : Prop :=
  get_content u = Failed kind \/
  exists r, get_content u = Answered r /\ status_code r = 200 /\ stream_error r = Some kind.

(** ** Two runs *)




(** ** Counters *)

(** The four counters of a course, as [(downloaded, updated, skipped, errors)] *)
Definition counters (c : course) : nat * nat * nat * nat :=
  (downloaded c, updated c, skipped c, errors c).

Definition counter_sum (c : course) : nat :=
  (downloaded c + updated c + skipped c + errors c)%nat.

(** [c'] has exactly one of the four counters of [c] increased by one *)
Definition one_counter_step (c c' : course) : Prop :=
  let '(d, u, s, e) := counters c in
  counters c' = (S d, u, s, e) \/ counters c' = (d, S u, s, e) \/
  counters c' = (d, u, S s, e) \/ counters c' = (d, u, s, S e).

(** ** Concrete inputs *)

(** A course object with nothing recorded yet *)
Definition course0 : course := mkCourse ∅ ∅ 0 0 0 0 [] None 0 [].

(** A [method_to_run] that records each item it is given *)
Definition record_item (x : string) : M unit := print (Msg x).

(** The 100 items of listing page [k] *)
Definition page_items (k : nat) : list string :=
  map (fun j => String (ascii_of_nat k) (String (ascii_of_nat j) EmptyString)) (seq 0 100).

(** A listing split across three pages of 100 items, with [next] links on
    the first two *)
Definition three_pages (u : string) : reply (page string) :=
  if bool_decide (u = "p1") then Answered (mkPage 200 (Some "p2") (Some (page_items 1)))
  else if bool_decide (u = "p2") then Answered (mkPage 200 (Some "p3") (Some (page_items 2)))
  else Answered (mkPage 200 None (Some (page_items 3))).

(** A single listing page answered with status 300 Multiple Choices and a
    JSON array ([requests] follows only 301, 302, 303, 307 and 308 with a
    [Location] header) *)
Definition multiple_choices_page (u : string) : reply (page string) :=
  Answered (mkPage 300 None (Some ["item"])).

(** [time_fmt] formatting of a timestamp *)
Definition fmt0 (t : Z) : string := "2024".

(** A server that answers 404 for one URL and 200 for every other *)
Definition server (u : string) : reply response :=
  if bool_decide (u = "https://canvas/404") then Answered (mkResponse 404 "" None)
  else Answered (mkResponse 200 ("bytes of " +++ u) None).

(** A course whose folder 1 is the existing, empty directory [Course] *)
Definition course1 : course :=
  mkCourse {[1 := ["Course"]]} ∅ 0 0 0 0 [(["Course"], ODir)] None 100 [].

Definition e_ok : entry := mkEntry 1 "https://canvas/a" "a.pdf" 50.
Definition e_404 : entry := mkEntry 1 "https://canvas/404" "b.pdf" 50.
Definition e_empty : entry := mkEntry 1 "" "c.pdf" 50.
Definition e_link : entry := mkEntry 1 "URL:https://x" "link" 50.

(** A course whose folder [Course] holds a subdirectory [Notes.pdf] *)
Definition course_sub : course :=
  set_files [(["Course"], ODir); (["Course"; "Notes.pdf"], ODir)] course1.

(** A course whose folder holds an older copy of [a.pdf] *)
Definition course_old : course :=
  set_files [(["Course"], ODir); (["Course"; "a.pdf"], OFile (mkFobj "old" 10))] course1.

(** [a.pdf] and [A.pdf] again, modified at 50, with no download URL *)
Definition e_empty_a : entry := mkEntry 1 "" "a.pdf" 50.
Definition e_empty_upper : entry := mkEntry 1 "" "A.pdf" 50.


(** ** More of the file *)

(** The extension of a name: its part from the last ['.'], or nothing *)
Definition ext_of (name : string) : string :=
  let pos := rfind name "." in
  if pos =? -1 then "" else str_drop pos name.

(** A path the pruner may keep: expected, or with a [.old] component *)
Definition kept_dir (fv : list path) (a : path) : Prop := a ∈ fv \/ in_old a = true.

(** A course expecting [C/sub/a.pdf], with folder [C/sub], and a tree
    under [C] holding it beside two unexpected files *)
Definition course_tree : course :=
  mkCourse {[1 := ["C"; "sub"]]} {[["C"; "sub"; "a.pdf"]]} 0 0 0 0 [] None 0 [].

Definition tree0 : list node :=
  [DirN "sub" [FileN "a.pdf"; FileN "old.pdf"]; FileN "x"].

(** A tree under [C] whose unexpected directory [gone] holds a [.old]
    directory with a file *)
Definition tree_old : list node :=
  [DirN "sub" [FileN "a.pdf"]; DirN "gone" [DirN ".old" [FileN "k.pdf"]]].

(** [d'] agrees with [d] outside [p], and a directory at [p] stays one *)
Definition mod_at (p : path) (d d' : disk) : Prop :=
  (forall q, q <> p -> disk_lookup q d' = disk_lookup q d) /\
  (disk_lookup p d = Some ODir -> disk_lookup p d' = Some ODir).

(** The path of [_parse_file]'s case-collision branch *)
Definition collision_path (fmt : Z -> string) (fd : gmap Z path) (e : entry) : path :=
  match fd !! folder_id e with
  | Some loc => join_file loc (add_before_ext (replace_char "/" "-" (display_name e))
                                 (" c" +++ fmt (modified_at e)))
  | None => []
  end.

(** ** Folders: [Course._parse_folder] and [os.makedirs] *)

Module OS.
(** The subclasses of [OSError] that [os.mkdir] and [os.makedirs] raise *)
Inductive error := FileExistsError | FileNotFoundError | NotADirectoryError.
End OS.

(** [os.path.exists]; the empty path is the file-system root *)
Definition path_exists (p : path) (d : disk) : bool :=
  match p with
  | [] => true
  | _ => bool_decide (disk_lookup p d <> None)
  end.

(** [os.mkdir(p)] *)
Definition os_mkdir (p : path) (d : disk) : OS.error + disk :=
  if path_exists p d then inl OS.FileExistsError
  else if isdirb (dirname p) d then inr (disk_write p ODir d)
  else if path_exists (dirname p) d then inl OS.NotADirectoryError
  else inl OS.FileNotFoundError.

(** [os.makedirs(name)] with [exist_ok=False], on the components of [name]
    in reverse order ([tail :: rhead] is [os.path.split(name)]):
<<
    head, tail = path.split(name)
    if head and tail and not path.exists(head):
        try:
            makedirs(head, exist_ok=exist_ok)
        except FileExistsError:
            pass
    mkdir(name, mode)
>> *)
Fixpoint makedirs_rev (rname : list string) (d : disk) : OS.error + disk :=
  match rname with
  | [] => os_mkdir [] d
  | _ :: rhead =>
      let head := rev rhead in
      let created :=
        if negb (bool_decide (head = [])) && negb (path_exists head d) then
          match makedirs_rev rhead d with
          | inl OS.FileExistsError => inr d
          | r => r
          end
        else inr d in
      match created with
      | inl err => inl err
      | inr d' => os_mkdir (rev rname) d'
      end
  end.

Definition makedirs (name : path) (d : disk) : OS.error + disk :=
  makedirs_rev (rev name) d.

(** A folder record as [_parse_folder] reads it: [folder['id']] and
    [folder['full_name']] *)
Record folder := mkFolder { folder_key : Z; full_name : string }.

Definition set_folder_dict (fd : gmap Z path) (c : course) : course :=
  mkCourse fd (file_set c) (skipped c) (updated c) (downloaded c)
    (errors c) (files c) (scratch c) (now c) (out c).

(** [os.path.join(self.course_dir, str(folder['full_name'])[13:])]: the
    directory of a folder, below the course directory without the leading
    [course files/] of its full name *)
Definition folder_dir (course_dir : path) (f : folder) : path :=
  path_join course_dir (str_drop 13 (full_name f)).

(** [Course._parse_folder]; [inl] is the [OSError] that propagates *)
Definition parse_folder (course_dir : path) (f : folder) (c : course) : OS.error + course :=
  let folder_dir := folder_dir course_dir f in
  let c1 := set_folder_dict (<[folder_key f := folder_dir]> (folder_dict c)) c in
  if isdirb folder_dir (files c1) then inr c1
  else match makedirs folder_dir (files c1) with
       | inl err => inl err
       | inr d => inr (set_files d c1)
       end.

(** The folder phase of [sync_local]: [_parse_folder] on every folder
    record of the listing, in order *)
Fixpoint run_folders (course_dir : path) (fs : list folder) (c : course) : OS.error + course :=
  match fs with
  | [] => inr c
  | f :: fs' =>
      match parse_folder course_dir f c with
      | inl err => inl err
      | inr c' => run_folders course_dir fs' c'
      end
  end.

(** ** Module items: [Course._parse_moduleitem] *)

(** A module item as [_parse_moduleitem] reads it: [moduleitem['type']],
    ['url'] (the API URL of the file of a [File] item), ['title'],
    ['html_url'], ['position'] and ['indent'] *)
Record moduleitem := mkItem {
  item_type : string;
  item_url : string;
  title : string;
  html_url : string;
  position : Z;
  indent : Z
}.

(** [s * n] for a string [s]: [n] copies, none when [n <= 0] *)
Fixpoint str_repeat (n : nat) (s : string) : string :=
  match n with
  | O => EmptyString
  | S n' => s +++ str_repeat n' s
  end.

Definition str_mul (n : Z) (s : string) : string := str_repeat (Z.to_nat n) s.

Section ModuleItems.

Context `{Lower}.

Variable fmt : Z -> string.
Variable get_content : string -> reply response.
(** [s.get(moduleitem['url'])] for a [File] item: the status, and the file
    record [r.json()] ([None] when the body does not decode) *)
Variable get_file : string -> reply (Z * option entry).

(** The file record [_parse_moduleitem] builds for an item, before its
    name and folder are set.  [t] is [datetime.now()], written with
    [strftime("%Y-%m-%dT%H:%M:%SZ")] and read back by [_parse_file]: the
    clock in seconds.  The [folder_id] of a built record is set afterwards. *)
Definition item_file (item : moduleitem) (t : Z) : result entry :=
  if bool_decide (item_type item = "File") then
    match get_file (item_url item) with
    | Failed k => Raise (RequestException k)
    | Answered r =>
        if raises_for_status r.1 then Raise (HTTPError r.1)
        else match r.2 with
             | Some file => Ok file
             | None => Raise (RequestException "JSONDecodeError")
             end
    end
  else if bool_decide (item_type item = "SubHeader") then
    Ok (mkEntry 0 ("SubHeader:" +++ title item) (title item) t)
  else
    Ok (mkEntry 0 ("URL:" +++ html_url item) (title item +++ ".url") t).

(** [file['display_name'] = f"{position}{indent*'~'} {display_name}"] and
    [file['folder_id'] = moduleid] *)
Definition placed (item : moduleitem) (moduleid : Z) (file : entry) : entry :=
  mkEntry moduleid (url file)
    (pretty (position item) +++ str_mul (indent item) "~" +++ " " +++ display_name file)
    (modified_at file).

(** [Course._parse_moduleitem] *)
Definition parse_moduleitem (item : moduleitem) (moduleid : Z) : M unit :=
  t <- gets now ;;
  match item_file item t with
  | Ok file => parse_file fmt get_content (placed item moduleid file)
  | Raise e => raise e
  end.

End ModuleItems.

(** ** More concrete inputs *)

(** The state a run ends in, when it does not raise *)
Definition final (r : result (unit * course)) : course :=
  match r with Ok (_, c) => c | Raise _ => course0 end.

Definition final_os (r : OS.error + course) : course :=
  match r with inr c => c | inl _ => course0 end.

(** A file record of a folder the listing does not have *)
Definition e_nofolder : entry := mkEntry 2 "https://canvas/a" "a.pdf" 50.

(** [a.pdf] again, modified at 50, whose download answers 404 *)
Definition e_404a : entry := mkEntry 1 "https://canvas/404" "a.pdf" 50.

(** A course directory [C] holding the regular file [x] *)
Definition course_x : course :=
  set_files [(["C"], ODir); (["C"; "x"], OFile (mkFobj "" 0))] course0.

(** A course directory [C] and nothing else *)
Definition course_c : course := set_files [(["C"], ODir)] course0.

(** The course's root folder, a nested folder, and folder 2 listed again *)
Definition folders3 : list folder :=
  [mkFolder 1 "course files"; mkFolder 2 "course files/sub/inner"; mkFolder 2 "course files/sub2"].

(** A course directory [C] holding [A.pdf] and a directory named like the
    case-collision name of [a.pdf] *)
Definition course_coll : course :=
  set_files [(["C"], ODir); (["C"; "A.pdf"], OFile (mkFobj "x" 10)); (["C"; "a c2024.pdf"], ODir)]
    course0.

(** A module directory [M], folder 7, holding the placeholder of the
    sub-header [1~ Week 1], at clock 100 *)
Definition course_m : course :=
  mkCourse {[7 := ["M"]]} ∅ 0 0 0 0
    [(["M"], ODir); (["M"; "1~ Week 1"], OFile (mkFobj "" 5))] None 100 [].

Definition item_sub : moduleitem := mkItem "SubHeader" "" "Week 1" "" 1 1.
Definition item_link : moduleitem := mkItem "ExternalUrl" "" "Docs" "https://docs" 2 0.

(** A file API that answers 404 *)
Definition no_files (u : string) : reply (Z * option entry) := Answered (404, None).

(** A server whose requests all fail to connect *)
Definition offline (u : string) : reply response := Failed "ConnectionError".

(** A server that answers 200 but whose body breaks off while it is read *)
Definition broken_stream (u : string) : reply response :=
  Answered (mkResponse 200 "partial" (Some "ChunkedEncodingError")).

(** A [time_fmt] with a directory separator in it *)
Definition fmt_slash (t : Z) : string := "2024/10".

(** A course directory [C] holding [A.pdf] *)
Definition course_A : course :=
  set_files [(["C"], ODir); (["C"; "A.pdf"], OFile (mkFobj "x" 10))] course0.

(** A course whose directory [C] is a regular file *)
Definition course_cfile : course :=
  mkCourse {[1 := ["C"; "sub"]]} ∅ 0 0 0 0 [(["C"], OFile (mkFobj "" 0))] None 0 [].
(** * Properties *)

Section Properties.

Context `{L : Lower}.

(** ** Lists and paths *)

Lemma find_first {X} (f : X -> bool) (l : list X) :
  (List.find f l = None /\ forall y, In y l -> f y = false) \/
  (exists pre x post, l = pre ++ x :: post /\ f x = true /\
     (forall y, In y pre -> f y = false) /\ List.find f l = Some x).
Proof.
  induction l as [|a l IH]; simpl.
  - left. split; [reflexivity | tauto].
  - destruct (f a) eqn:Ha.
    + right. exists [], a, l. simpl. repeat split; auto; tauto.
    + destruct IH as [[Hn Hall] | (pre & x & post & -> & Hx & Hpre & Hf)].
      * left. split; [exact Hn|]. intros y [<-|Hy]; auto.
      * right. exists (a :: pre), x, post. simpl. repeat split; auto.
        intros y [<-|Hy]; auto.
Qed.

Lemma dirname_snoc (dir : path) (n : string) : dirname (dir ++ [n]) = dir.
Proof. apply removelast_last. Qed.

Lemma basename_snoc (dir : path) (n : string) : basename (dir ++ [n]) = n.
Proof. apply last_last. Qed.

Lemma child_name_snoc (dir : path) (n : string) : child_name dir (dir ++ [n]) = Some n.
Proof.
  unfold child_name. destruct (dir ++ [n]) eqn:E.
  - destruct dir; discriminate.
  - rewrite <- E, dirname_snoc, basename_snoc. by rewrite bool_decide_true.
Qed.

(** Every entry of a directory, file or subdirectory, is listed. *)
Lemma listdir_entry (dir : path) (d : disk) (n : string) (o : obj) (names : list string) :
  listdir dir d = Some names -> In (dir ++ [n], o) d -> In n names.
Proof.
  unfold listdir. destruct (isdirb dir d); intros [= <-] Hin.
  apply list_elem_of_In, list_elem_of_omap. exists (dir ++ [n], o).
  split; [by apply list_elem_of_In | apply child_name_snoc].
Qed.

(** Every name [os.listdir] returns is the name of an entry of the directory. *)
Lemma listdir_names (dir : path) (d : disk) (names : list string) (n : string) :
  listdir dir d = Some names -> In n names -> exists o, In (dir ++ [n], o) d.
Proof.
  unfold listdir. destruct (isdirb dir d); intros [= <-] Hin.
  apply list_elem_of_In, list_elem_of_omap in Hin as ([q o] & Hq & Hc).
  apply list_elem_of_In in Hq. exists o. unfold child_name in Hc.
  destruct q as [|x q]; [discriminate|].
  case_bool_decide as Hd; [|discriminate]. injection Hc as <-.
  rewrite <- Hd. unfold dirname, basename.
  by rewrite <- (@app_removelast_last _ (x :: q) EmptyString) by discriminate.
Qed.

(** ** The disk *)

Lemma disk_lookup_In (p : path) (o : obj) (d : disk) :
  disk_lookup p d = Some o -> In (p, o) d.
Proof.
  unfold disk_lookup. induction d as [|[q o'] d IH]; simpl; [discriminate|].
  case_bool_decide as Hq; [intros [= ->]; subst; by left | intros Hl; right; by apply IH].
Qed.


Lemma disk_lookup_write_eq (p : path) (o : obj) (d : disk) :
  disk_lookup p (disk_write p o d) = Some o.
Proof.
  unfold disk_lookup, disk_write.
  destruct (List.existsb _ d) eqn:E.
  - induction d as [|[q o'] d IH]; simpl in *; [discriminate|].
    case_bool_decide; simpl; [by rewrite bool_decide_true|].
    rewrite bool_decide_false by done. by apply IH.
  - induction d as [|[q o'] d IH]; simpl in *; [by rewrite bool_decide_true|].
    case_bool_decide; [discriminate|]. by apply IH.
Qed.

Lemma disk_lookup_write_neq (p q : path) (o : obj) (d : disk) :
  q <> p -> disk_lookup q (disk_write p o d) = disk_lookup q d.
Proof.
  intros Hne. unfold disk_lookup, disk_write.
  destruct (List.existsb _ d) eqn:E.
  - clear E. induction d as [|[r o'] d IH]; simpl; [reflexivity|].
    destruct (bool_decide (r = p)) eqn:Er; simpl.
    + apply bool_decide_eq_true in Er. subst r.
      rewrite !bool_decide_false by congruence. exact IH.
    + destruct (bool_decide (r = q)); [reflexivity | exact IH].
  - induction d as [|[r o'] d IH]; simpl in *.
    + by rewrite bool_decide_false by congruence.
    + case_bool_decide; [discriminate|].
      destruct (bool_decide (r = q)); [reflexivity | by apply IH].
Qed.

Lemma disk_lookup_remove_neq (p q : path) (d : disk) :
  q <> p -> disk_lookup q (disk_remove p d) = disk_lookup q d.
Proof.
  intros Hne. unfold disk_lookup, disk_remove.
  induction d as [|[r o'] d IH]; simpl; [reflexivity|].
  destruct (bool_decide (r = p)) eqn:Er; simpl.
  - apply bool_decide_eq_true in Er. subst r. rewrite bool_decide_false by congruence.
    exact IH.
  - destruct (bool_decide (r = q)); [reflexivity | exact IH].
Qed.

Lemma In_disk_write (p q : path) (o o' : obj) (d : disk) :
  In (q, o') (disk_write p o d) -> (q = p /\ o' = o) \/ In (q, o') d.
Proof.
  unfold disk_write. destruct (List.existsb _ d).
  - intros Hin. apply in_map_iff in Hin as ([r o''] & Heq & Hin).
    case_bool_decide; injection Heq as -> ->; [by left | by right].
  - intros Hin. apply in_app_or in Hin as [Hin|[[= -> ->]|[]]]; [by right | by left].
Qed.


(** ** Case-insensitive lookup *)

Lemma getfile_insensitive_eq (p : path) (c : course) (names : list string) :
  listdir (dirname p) (files c) = Some names ->
  getfile_insensitive p c =
  Ok ((fun f => dirname p ++ [f]) <$>
        List.find (fun f => bool_decide (lower f = lower (basename p))) names, c).
Proof. intros Hls. unfold getfile_insensitive, bind, os_listdir, ret. by rewrite Hls. Qed.

Lemma isfile_insensitive_match (p : path) (c : course) (names : list string)
    (n : string) (o : obj) :
  listdir (dirname p) (files c) = Some names ->
  In (dirname p ++ [n], o) (files c) -> lower n = lower (basename p) ->
  isfile_insensitive p c = Ok (true, c).
Proof.
  intros Hls Hin Hlow.
  pose proof (listdir_entry _ _ _ _ _ Hls Hin) as Hn.
  unfold isfile_insensitive, bind, ret. rewrite (getfile_insensitive_eq _ _ _ Hls).
  destruct (List.find (fun f => bool_decide (lower f = lower (basename p))) names) eqn:E.
  - reflexivity.
  - pose proof (find_none _ _ E n Hn) as Hc. simpl in Hc.
    apply bool_decide_eq_false in Hc. congruence.
Qed.

Lemma isfile_insensitive_nomatch (p : path) (c : course) :
  isdirb (dirname p) (files c) = true ->
  (forall n o, In (dirname p ++ [n], o) (files c) -> lower n <> lower (basename p)) ->
  isfile_insensitive p c = Ok (false, c).
Proof.
  intros Hd Hno.
  assert (Hls : listdir (dirname p) (files c) =
                Some (omap (fun '(q, _) => child_name (dirname p) q) (files c)))
    by (unfold listdir; by rewrite Hd).
  unfold isfile_insensitive, bind, ret. rewrite (getfile_insensitive_eq _ _ _ Hls).
  destruct (List.find _ _) as [n|] eqn:E; [|reflexivity].
  apply find_some in E as [Hn Hb]. apply bool_decide_eq_true in Hb.
  destruct (listdir_names _ _ _ _ Hls Hn) as [o Hin]. by destruct (Hno n o Hin).
Qed.

Lemma isfile_insensitive_ok (p : path) (c : course) :
  isdirb (dirname p) (files c) = true ->
  exists b, isfile_insensitive p c = Ok (b, c).
Proof.
  intros Hd. unfold isfile_insensitive, getfile_insensitive, bind, os_listdir, ret, listdir.
  rewrite Hd. eauto.
Qed.

(** C10: [getfile_insensitive] scans every entry that [os.listdir] returns
    for the parent directory, subdirectories included: whenever some entry
    (a file or a directory) has the target name up to letter case,
    [isfile_insensitive] reports a match; and the path returned is the one
    of the first such entry in listing order (none when no entry matches). *)
Theorem getfile_insensitive_first_entry (p : path) (c : course) (names : list string) :
  listdir (dirname p) (files c) = Some names ->
  ((getfile_insensitive p c = Ok (None, c) /\
      forall f, In f names -> lower f <> lower (basename p)) \/
   (exists pre f post, names = pre ++ f :: post /\ lower f = lower (basename p) /\
      (forall g, In g pre -> lower g <> lower (basename p)) /\
      getfile_insensitive p c = Ok (Some (dirname p ++ [f]), c))) /\
  (forall n o, In (dirname p ++ [n], o) (files c) -> lower n = lower (basename p) ->
     isfile_insensitive p c = Ok (true, c)).
Proof.
  intros Hls. pose proof (getfile_insensitive_eq _ _ _ Hls) as Hg.
  split.
  - destruct (find_first (fun f => bool_decide (lower f = lower (basename p))) names)
      as [[Hn Hall] | (pre & f & post & Hnames & Hf & Hpre & Hfind)].
    + left. rewrite Hg, Hn. split; [reflexivity|].
      intros f Hin. specialize (Hall f Hin). by apply bool_decide_eq_false in Hall.
    + right. exists pre, f, post. rewrite Hg, Hfind.
      apply bool_decide_eq_true in Hf. repeat split; auto.
      intros g Hin. specialize (Hpre g Hin). by apply bool_decide_eq_false in Hpre.
  - intros n o Hin Hlow. exact (isfile_insensitive_match p c names n o Hls Hin Hlow).
Qed.

(** ** Strings and path names *)

Lemma string_app_assoc (a b d : string) : (a +++ b) +++ d = a +++ (b +++ d).
Proof. induction a as [|x a IH]; [reflexivity | exact (f_equal (String x) IH)]. Qed.

Lemma string_app_nil_r (a : string) : a +++ "" = a.
Proof. induction a as [|x a IH]; [reflexivity | exact (f_equal (String x) IH)]. Qed.

Lemma string_length_app (a b : string) :
  String.length (a +++ b) = (String.length a + String.length b)%nat.
Proof. induction a as [|x a IH]; [reflexivity | exact (f_equal S IH)]. Qed.

Lemma list_ascii_app (a b : string) :
  String.list_ascii_of_string (a +++ b) =
  String.list_ascii_of_string a ++ String.list_ascii_of_string b.
Proof. induction a as [|x a IH]; simpl; [reflexivity | by rewrite IH]. Qed.

Lemma replace_char_length (a b : ascii) (s : string) :
  String.length (replace_char a b s) = String.length s.
Proof. induction s as [|ch s IH]; simpl; [reflexivity | by rewrite IH]. Qed.

(** After [s.replace(a, b)] no [a] is left. *)
Lemma replace_char_absent (a b : ascii) (s : string) :
  a <> b -> ~ In a (String.list_ascii_of_string (replace_char a b s)).
Proof.
  intros Hab. induction s as [|ch s IH]; simpl; [tauto|].
  intros [Hc|Hc]; [|exact (IH Hc)].
  destruct (Ascii.eqb ch a) eqn:E; [congruence|].
  apply Ascii.eqb_neq in E. congruence.
Qed.

Lemma replace_char_nonempty (a b : ascii) (s : string) :
  s <> "" -> replace_char a b s <> "".
Proof. destruct s; simpl; congruence. Qed.

Lemma startswith_no_slash (s : string) :
  ~ In "/"%char (String.list_ascii_of_string s) -> startswith s "/" = false.
Proof.
  destruct s as [|ch s]; [reflexivity|]. intros Hn. unfold startswith. cbn [String.prefix].
  destruct (ascii_dec "/" ch) as [<-|_]; [simpl in Hn; tauto | reflexivity].
Qed.

Lemma startswith_app_no_slash (a b : string) :
  ~ In "/"%char (String.list_ascii_of_string a) -> startswith b "/" = false ->
  startswith (a +++ b) "/" = false.
Proof.
  destruct a as [|ch a]; [done|]. intros Hn _. unfold startswith.
  change (String ch a +++ b) with (String ch (a +++ b)). cbn [String.prefix].
  destruct (ascii_dec "/" ch) as [<-|_]; [simpl in Hn; tauto | reflexivity].
Qed.

Lemma last_cons_cons {X} (x y : X) (l : list X) : last (x :: y :: l) = last (y :: l).
Proof. reflexivity. Qed.

Lemma endswith_slash_false (s : string) :
  s <> "" -> ~ In "/"%char (String.list_ascii_of_string s) ->
  endswith_slash ("/" +++ s) = false.
Proof.
  intros Hs Hn. unfold endswith_slash. apply bool_decide_false.
  destruct s as [|ch s]; [done|].
  change (String.list_ascii_of_string ("/" +++ String ch s))
    with ("/"%char :: ch :: String.list_ascii_of_string s).
  rewrite last_cons_cons. intros Hl. apply last_Some_elem_of in Hl.
  apply Hn. by apply list_elem_of_In.
Qed.

Lemma split_on_absent (sep : ascii) (s : string) :
  ~ In sep (String.list_ascii_of_string s) -> split_on sep s = [s].
Proof.
  induction s as [|ch s IH]; simpl; [reflexivity|]. intros Hn.
  destruct (Ascii.eqb ch sep) eqn:E; [apply Ascii.eqb_eq in E; tauto|].
  rewrite IH by tauto. reflexivity.
Qed.

Lemma split_on_keeps (sep ch : ascii) (s : string) :
  In ch (String.list_ascii_of_string s) -> ch <> sep ->
  exists w, In w (split_on sep s) /\ In ch (String.list_ascii_of_string w).
Proof.
  induction s as [|a s IH]; simpl; [tauto|]. intros Hin Hne.
  destruct (Ascii.eqb a sep) eqn:E.
  - apply Ascii.eqb_eq in E. subst a. destruct Hin as [->|Hin]; [done|].
    destruct (IH Hin Hne) as (w & Hw & Hc). exists w. simpl. auto.
  - destruct Hin as [->|Hin].
    + destruct (split_on sep s) as [|w ws].
      * exists (String ch ""). simpl. auto.
      * exists (String ch w). simpl. auto.
    + destruct (IH Hin Hne) as (w & Hw & Hc).
      destruct (split_on sep s) as [|w0 ws]; [done|].
      destruct Hw as [<-|Hw].
      * exists (String a w0). simpl. auto.
      * exists w. simpl. auto.
Qed.

Lemma components_single (s : string) :
  s <> "" -> ~ In "/"%char (String.list_ascii_of_string s) -> components s = [s].
Proof.
  intros Hs Hn. unfold components. rewrite split_on_absent by exact Hn.
  rewrite filter_cons_True, filter_nil; [reflexivity|].
  rewrite bool_decide_false by exact Hs. exact I.
Qed.

Lemma components_nonempty (s w : string) : In w (components s) -> w <> "".
Proof.
  unfold components. intros Hin. apply list_elem_of_In, list_elem_of_filter in Hin as [Hw _].
  intros ->. by rewrite bool_decide_true in Hw.
Qed.

Lemma components_ne_nil (s : string) (ch : ascii) :
  In ch (String.list_ascii_of_string s) -> ch <> "/"%char -> components s <> [].
Proof.
  intros Hin Hne. destruct (split_on_keeps "/" ch s Hin Hne) as (w & Hw & Hc).
  assert (Hw' : In w (components s)).
  { unfold components. apply list_elem_of_In, list_elem_of_filter.
    split; [|by apply list_elem_of_In].
    rewrite bool_decide_false; [exact I|]. intros ->. exact Hc. }
  intros E. by rewrite E in Hw'.
Qed.

(** ** Paths *)

Lemma slashed_snoc (dir : path) (n : string) : slashed (dir ++ [n]) = bool_decide (n = "").
Proof.
  unfold slashed. destruct (dir ++ [n]) eqn:E; [destruct dir; discriminate|].
  by rewrite <- E, basename_snoc.
Qed.

Lemma dest_path_not_slashed (p : path) : slashed p = false -> dest_path p = p.
Proof. unfold dest_path. by intros ->. Qed.

Lemma dest_path_snoc (dir : path) (n : string) : n <> "" -> dest_path (dir ++ [n]) = dir ++ [n].
Proof. intros Hn. apply dest_path_not_slashed. rewrite slashed_snoc. by apply bool_decide_false. Qed.

(** A name without ['/'] is joined as one component. *)
Lemma join_file_single (loc : path) (n : string) :
  n <> "" -> ~ In "/"%char (String.list_ascii_of_string n) -> join_file loc n = loc ++ [n].
Proof.
  intros Hn Hs. unfold join_file, path_join.
  rewrite endswith_slash_false, startswith_no_slash, components_single by done.
  apply app_nil_r.
Qed.

(** A relative name with a character other than ['/'] is joined strictly
    below the directory, and so is the path it resolves to. *)
Lemma join_file_below (loc : path) (n : string) (ch : ascii) :
  startswith n "/" = false -> In ch (String.list_ascii_of_string n) -> ch <> "/"%char ->
  (exists rel, rel <> [] /\ join_file loc n = loc ++ rel) /\
  (exists rel, rel <> [] /\ dest_path (join_file loc n) = loc ++ rel).
Proof.
  intros Hst Hin Hne. pose proof (components_ne_nil n ch Hin Hne) as Hcs.
  unfold join_file, path_join. rewrite Hst.
  destruct (endswith_slash ("/" +++ n)).
  - rewrite <- app_assoc. split.
    + exists (components n ++ [""]). split; [destruct (components n); discriminate | reflexivity].
    + exists (components n). split; [exact Hcs|].
      unfold dest_path. rewrite app_assoc, slashed_snoc, bool_decide_true by reflexivity.
      apply dirname_snoc.
  - rewrite app_nil_r. split; [eauto|]. exists (components n). split; [exact Hcs|].
    apply dest_path_not_slashed.
    destruct (exists_last Hcs) as (cs & w & Hw). rewrite Hw, app_assoc, slashed_snoc.
    apply bool_decide_false. apply (components_nonempty n). rewrite Hw.
    apply in_or_app. right. by left.
Qed.

(** ** Errors of system calls *)

Lemma dir_error_cases (p : path) (d : disk) :
  dir_error p d = FileNotFoundError \/ dir_error p d = NotADirectoryError.
Proof.
  unfold dir_error. generalize (@nil string) as pre.
  induction p as [|n p IH]; intros pre; simpl; [auto|]. repeat case_match; auto.
Qed.

Lemma open_error_cases (p : path) (d : disk) (x : exc) :
  open_error p d = Some x ->
  x = IsADirectoryError \/ x = dir_error (dirname (dest_path p)) d.
Proof. unfold open_error. repeat case_match; intros [= <-]; auto. Qed.

(** Opening a named entry of an existing directory fails only on a
    directory. *)
Lemma open_error_snoc (loc : path) (n : string) (d : disk) (x : exc) :
  isdirb loc d = true -> n <> "" -> open_error (loc ++ [n]) d = Some x -> x = IsADirectoryError.
Proof.
  intros Hd Hn. unfold open_error. rewrite dest_path_snoc, dirname_snoc, Hd, slashed_snoc by done.
  rewrite bool_decide_false by done. simpl. case_match; [case_match|]; by intros [= <-].
Qed.

Lemma open_error_none (p : path) (d : disk) :
  isdirb (dirname p) d = true -> slashed p = false -> disk_lookup p d <> Some ODir ->
  open_error p d = None.
Proof.
  intros Hd Hs Hl. unfold open_error. rewrite dest_path_not_slashed, Hd, Hs by done. simpl.
  destruct (disk_lookup p d) as [[]|]; congruence.
Qed.
(** ** [add_before_ext] *)

Lemma rfind_from_absent (ch : ascii) (s : string) (i acc : Z) :
  ~ In ch (String.list_ascii_of_string s) -> rfind_from ch s i acc = acc.
Proof.
  revert i acc. induction s as [|a s IH]; intros i acc Hn; simpl; [reflexivity|].
  simpl in Hn. destruct (Ascii.eqb a ch) eqn:E.
  - apply Ascii.eqb_eq in E. subst. tauto.
  - apply IH. tauto.
Qed.

Lemma rfind_from_last (ch : ascii) (pre post : string) (i acc : Z) :
  ~ In ch (String.list_ascii_of_string post) ->
  rfind_from ch (pre +++ String ch post) i acc = i + Z.of_nat (String.length pre).
Proof.
  revert i acc. induction pre as [|a pre IH]; intros i acc Hn; simpl.
  - rewrite Ascii.eqb_refl, rfind_from_absent by exact Hn. lia.
  - rewrite IH by exact Hn. lia.
Qed.

Lemma substring_prefix (pre s : string) :
  String.substring 0 (String.length pre) (pre +++ s) = pre.
Proof. induction pre as [|a pre IH]; simpl; [by destruct s | by rewrite IH]. Qed.

Lemma substring_all (s : string) : String.substring 0 (String.length s) s = s.
Proof. induction s as [|a s IH]; simpl; [reflexivity | by rewrite IH]. Qed.

Lemma substring_suffix (pre s : string) :
  String.substring (String.length pre) (String.length (pre +++ s) - String.length pre)
    (pre +++ s) = s.
Proof.
  induction pre as [|a pre IH]; simpl.
  - rewrite Nat.sub_0_r. apply substring_all.
  - exact IH.
Qed.

(** [add_before_ext name end_] puts [end_] just before the last ['.'] of
    [name], or at its end when [name] has no ['.']. *)
Lemma add_before_ext_spec (name end_ : string) :
  (~ In "."%char (String.list_ascii_of_string name) -> add_before_ext name end_ = name +++ end_) /\
  (forall pre post, ~ In "."%char (String.list_ascii_of_string post) ->
     name = pre +++ String "." post ->
     add_before_ext name end_ = pre +++ end_ +++ String "." post).
Proof.
  split.
  - intros Hn. unfold add_before_ext, rfind. by rewrite rfind_from_absent.
  - intros pre post Hn ->. unfold add_before_ext, rfind.
    rewrite rfind_from_last by exact Hn.
    replace (0 + Z.of_nat (String.length pre) =? -1) with false
      by (symmetry; apply Z.eqb_neq; lia).
    unfold str_take, str_drop. rewrite Z.add_0_l, Nat2Z.id.
    by rewrite substring_prefix, substring_suffix.
Qed.

(** ** Pagination *)

Lemma for_each_app {A} (h : A -> M unit) (l1 l2 : list A) (c : course) :
  for_each h (l1 ++ l2) c =
  match for_each h l1 c with
  | Ok (_, c') => for_each h l2 c'
  | Raise e => Raise e
  end.
Proof.
  revert c. induction l1 as [|a l1 IH]; intros c; simpl; [reflexivity|].
  unfold bind. destruct (h a c) as [[[] c1]|e]; [apply IH | reflexivity].
Qed.

Lemma do_all_pages_chain {A} (get_page : string -> reply (page A)) (h : A -> M unit)
    (u : string) (ps : list (page A)) :
  page_chain get_page u ps -> Forall page_ok ps ->
  forall fuel c, (length ps < fuel)%nat ->
  do_all_pages get_page fuel u h c = Some (for_each h (concat (map page_items_of ps)) c).
Proof.
  induction 1 as [u p Hu Hp Hnext | u p ps Hu Hp Hch IH]; intros Hok fuel c Hf.
  - destruct fuel as [|fuel]; [lia|]. inversion Hok as [|? ? [Hs Hj] _]; subst.
    cbn [do_all_pages]. rewrite bool_decide_false by exact Hu. rewrite Hp, Hs, Hnext.
    cbn [map concat]. rewrite app_nil_r. unfold page_items_of.
    destruct (page_json p) as [things|]; [|done]. simpl.
    destruct (for_each h things c) as [[[] c']|e]; [|reflexivity].
    destruct fuel; [simpl in Hf; lia|]. reflexivity.
  - destruct fuel as [|fuel]; [lia|]. inversion Hok as [|? ? [Hs Hj] Hrest]; subst.
    cbn [do_all_pages]. rewrite bool_decide_false by exact Hu. rewrite Hp, Hs.
    cbn [map concat]. rewrite for_each_app. unfold page_items_of at 1.
    destruct (page_json p) as [things|]; [|done]. simpl.
    destruct (for_each h things c) as [[[] c']|e]; [|reflexivity].
    apply IH; [exact Hrest | simpl in Hf; lia].
Qed.

Lemma do_all_pages_abort {A} (get_page : string -> reply (page A)) (h : A -> M unit)
    (u : string) (ps : list (page A)) :
  page_chain get_page u ps ->
  forall pre p post, ps = pre ++ p :: post ->
  Forall page_ok pre ->
  raises_for_status (page_status p) = true ->
  forall fuel c, (length ps < fuel)%nat ->
  do_all_pages get_page fuel u h c =
  Some (match for_each h (concat (map page_items_of pre)) c with
        | Ok _ => Raise (HTTPError (page_status p))
        | Raise e => Raise e
        end).
Proof.
  induction 1 as [u q Hu Hq Hnext | u q ps Hu Hq Hch IH];
    intros pre p post Heq Hok Hbad fuel c Hf.
  - destruct pre as [|x pre]; simpl in Heq; injection Heq as <- Hpost.
    + subst. destruct fuel as [|fuel]; [lia|]. cbn [do_all_pages].
      rewrite bool_decide_false by exact Hu. by rewrite Hq, Hbad.
    + destruct pre; discriminate.
  - destruct fuel as [|fuel]; [lia|].
    destruct pre as [|x pre]; simpl in Heq; injection Heq as <- Hps; cbn [do_all_pages].
    + subst. rewrite bool_decide_false by exact Hu. by rewrite Hq, Hbad.
    + subst. inversion Hok as [|? ? [Hs Hj] Hrest]; subst.
      rewrite bool_decide_false by exact Hu. rewrite Hq, Hs.
      cbn [map concat]. rewrite for_each_app. unfold page_items_of at 1.
      destruct (page_json q) as [things|]; [|done]. simpl.
      destruct (for_each h things c) as [[[] c']|e]; [|reflexivity].
      apply (IH pre p post eq_refl Hrest Hbad). simpl in Hf. rewrite length_app in Hf.
      simpl in Hf. rewrite length_app. simpl. lia.
Qed.

(** C5 (amended): for a listing whose pages form a chain of [next] links
    ending at a page without one, [do_all_pages] gives [method_to_run]
    every item of every page exactly once, in page order and array order
    (the run is [for_each] over the concatenated arrays) when every page
    has a status other than 4xx and 5xx and a body that decodes to a JSON
    array; when a page has a 4xx or 5xx status, the run raises [HTTPError]
    once the items of the pages before it are handled, without touching
    that page or any later one. *)
Theorem do_all_pages_in_order {A} (get_page : string -> reply (page A))
    (method_to_run : A -> M unit) (req_url : string) (ps : list (page A)) :
  page_chain get_page req_url ps ->
  (Forall page_ok ps ->
   forall fuel c, (length ps < fuel)%nat ->
   do_all_pages get_page fuel req_url method_to_run c =
   Some (for_each method_to_run (concat (map page_items_of ps)) c)) /\
  (forall pre p post, ps = pre ++ p :: post ->
   Forall page_ok pre ->
   raises_for_status (page_status p) = true ->
   forall fuel c, (length ps < fuel)%nat ->
   do_all_pages get_page fuel req_url method_to_run c =
   Some (match for_each method_to_run (concat (map page_items_of pre)) c with
         | Ok _ => Raise (HTTPError (page_status p))
         | Raise e => Raise e
         end)).
Proof.
  intros Hch. split.
  - intros Hok. exact (do_all_pages_chain get_page method_to_run req_url ps Hch Hok).
  - exact (do_all_pages_abort get_page method_to_run req_url ps Hch).
Qed.

(** ** Pruning *)

Fixpoint node_ind' (P : node -> Prop) (Hf : forall n, P (FileN n))
    (Hd : forall n sub, Forall P sub -> P (DirN n sub)) (e : node) : P e :=
  match e with
  | FileN n => Hf n
  | DirN n sub =>
      Hd n sub ((fix go (l : list node) : Forall P l :=
                   match l with
                   | [] => List.Forall_nil P
                   | x :: xs => @List.Forall_cons _ P x xs (node_ind' P Hf Hd x) (go xs)
                   end) sub)
  end.

Lemma prune_node_dir (fs : gset path) (fv : list path) (root : path) (n : string)
    (sub : list node) :
  prune_node fs fv root (DirN n sub) =
  if keep_dir fv root n then Some (DirN n (prune fs fv (root ++ [n]) sub)) else None.
Proof.
  simpl. destruct (keep_dir fv root n); reflexivity.
Qed.

Lemma in_old_app (r1 r2 : path) : in_old (r1 ++ r2) = in_old r1 || in_old r2.
Proof.
  unfold in_old. apply eq_bool_prop_intro. rewrite orb_True.
  rewrite !bool_decide_spec. apply elem_of_app.
Qed.

Lemma in_old_snoc (root : path) (n : string) :
  in_old (root ++ [n]) = in_old root || bool_decide (n = ".old").
Proof.
  rewrite in_old_app. f_equal. unfold in_old.
  apply eq_bool_prop_intro. rewrite !bool_decide_spec. set_solver.
Qed.

Lemma omap_id {X} (g : X -> option X) (l : list X) :
  Forall (fun x => g x = Some x) l -> omap g l = l.
Proof.
  induction 1 as [|x l Hx _ IH]; [reflexivity|].
  change (omap g (x :: l)) with (match g x with Some y => y :: omap g l | None => omap g l end).
  by rewrite Hx, IH.
Qed.

(** Inside a directory whose path has a [.old] component nothing changes. *)
Lemma prune_node_old (fs : gset path) (fv : list path) (e : node) :
  forall root, in_old root = true -> prune_node fs fv root e = Some e.
Proof.
  induction e as [n | n sub IH] using node_ind'; intros root Hold.
  - simpl. unfold keep_file. by rewrite Hold.
  - rewrite prune_node_dir. unfold keep_dir. rewrite Hold. simpl. do 2 f_equal.
    apply omap_id. eapply Forall_impl; [exact IH|]. intros x Hx. apply Hx.
    rewrite in_old_snoc, Hold. reflexivity.
Qed.

Lemma prune_old (fs : gset path) (fv : list path) (root : path) (cs : list node) :
  in_old root = true -> prune fs fv root cs = cs.
Proof.
  intros Hold. apply omap_id, Forall_forall. intros x _. by apply prune_node_old.
Qed.

Lemma entries_node_prefix (e : node) :
  forall root q b, In (q, b) (entries_node root e) -> exists rel, q = root ++ rel.
Proof.
  induction e as [n | n sub IH] using node_ind'; intros root q b Hin; simpl in Hin.
  - destruct Hin as [[= <- _]|[]]. eauto.
  - destruct Hin as [[= <- _]|Hin]; [eauto|].
    apply in_flat_map in Hin as (x & Hx & Hin).
    rewrite List.Forall_forall in IH. destruct (IH x Hx _ _ _ Hin) as [rel ->].
    exists ([n] ++ rel). by rewrite app_assoc.
Qed.

(** What survives outside [.old] directories is expected. *)
Lemma prune_node_sound (fs : gset path) (fv : list path) (e : node) :
  forall root e', in_old root = false -> prune_node fs fv root e = Some e' ->
  forall q b, In (q, b) (entries_node root e') -> in_old q = false ->
  (b = true -> q ∈ fs) /\ (b = false -> q ∈ fv).
Proof.
  induction e as [n | n sub IH] using node_ind'; intros root e' Hroot Hp q b Hin Hq.
  - simpl in Hp. unfold keep_file in Hp. rewrite Hroot in Hp. simpl in Hp.
    destruct (bool_decide (root ++ [n] ∈ fs)) eqn:Hk; [|discriminate].
    injection Hp as <-. simpl in Hin. destruct Hin as [[= <- <-]|[]].
    apply bool_decide_eq_true in Hk. split; [auto | discriminate].
  - rewrite prune_node_dir in Hp. destruct (keep_dir fv root n) eqn:Hk; [|discriminate].
    injection Hp as <-. simpl in Hin. destruct Hin as [[= <- <-]|Hin].
    + split; [discriminate|]. intros _.
      rewrite in_old_snoc, Hroot in Hq. simpl in Hq.
      unfold keep_dir in Hk. rewrite Hroot, Hq in Hk. simpl in Hk.
      by apply bool_decide_eq_true in Hk.
    + apply in_flat_map in Hin as (e'' & He'' & Hin).
      unfold prune in He''. apply list_elem_of_In, list_elem_of_omap in He''
        as (x & Hx & Hpx).
      destruct (in_old (root ++ [n])) eqn:Hold.
      * destruct (entries_node_prefix _ _ _ _ Hin) as [rel ->].
        rewrite in_old_app, Hold in Hq. discriminate.
      * rewrite List.Forall_forall in IH. apply list_elem_of_In in Hx.
        exact (IH x Hx _ _ Hold Hpx q b Hin Hq).
Qed.

Lemma entries_node_strict_prefix (e : node) :
  forall root q b, In (q, b) (entries_node root e) -> exists rel, rel <> [] /\ q = root ++ rel.
Proof.
  induction e as [n | n sub IH] using node_ind'; intros root q b Hin; simpl in Hin.
  - destruct Hin as [[= <- _]|[]]. exists [n]. split; [discriminate | reflexivity].
  - destruct Hin as [[= <- _]|Hin]; [exists [n]; split; [discriminate | reflexivity]|].
    apply in_flat_map in Hin as (x & Hx & Hin).
    rewrite List.Forall_forall in IH. destruct (IH x Hx _ _ _ Hin) as [rel [_ ->]].
    exists ([n] ++ rel). split; [destruct rel; discriminate | by rewrite app_assoc].
Qed.

Lemma prune_node_idem (fs : gset path) (fv : list path) (e : node) :
  forall root e', prune_node fs fv root e = Some e' -> prune_node fs fv root e' = Some e'.
Proof.
  induction e as [n | n sub IH] using node_ind'; intros root e' Hp.
  - simpl in Hp. destruct (keep_file fs root n) eqn:Hk; [|discriminate].
    injection Hp as <-. simpl. by rewrite Hk.
  - rewrite prune_node_dir in Hp. destruct (keep_dir fv root n) eqn:Hk; [|discriminate].
    injection Hp as <-. rewrite prune_node_dir, Hk. do 2 f_equal.
    unfold prune. apply omap_id, Forall_forall. intros y Hy.
    apply list_elem_of_omap in Hy as (x & Hx & Hpx).
    rewrite Forall_forall in IH. exact (IH x Hx _ _ Hpx).
Qed.

Lemma prune_node_entries (fs : gset path) (fv : list path) (e : node) :
  forall root e' q b, prune_node fs fv root e = Some e' ->
  In (q, b) (entries_node root e') -> In (q, b) (entries_node root e).
Proof.
  induction e as [n | n sub IH] using node_ind'; intros root e' q b Hp Hin.
  - simpl in Hp. destruct (keep_file fs root n); [|discriminate]. by injection Hp as <-.
  - rewrite prune_node_dir in Hp. destruct (keep_dir fv root n); [|discriminate].
    injection Hp as <-. simpl in Hin |- *. destruct Hin as [Hin|Hin]; [by left|right].
    apply in_flat_map in Hin as (y & Hy & Hin).
    apply list_elem_of_In, list_elem_of_omap in Hy as (x & Hx & Hpx).
    apply in_flat_map. exists x. split; [by apply list_elem_of_In|].
    rewrite List.Forall_forall in IH. apply list_elem_of_In in Hx.
    exact (IH x Hx _ _ _ _ Hpx Hin).
Qed.

Lemma in_old_mid (l1 l2 : path) : in_old (l1 ++ ".old" :: l2) = true.
Proof. unfold in_old. apply bool_decide_true, elem_of_app. right. by left. Qed.

Lemma keep_dir_kept (fv : list path) (root : path) (n : string) :
  keep_dir fv root n = true -> kept_dir fv (root ++ [n]).
Proof.
  unfold keep_dir, kept_dir. rewrite in_old_snoc. intros Hk.
  apply orb_true_iff in Hk as [Hk|Hk]; [right; exact Hk|].
  case_bool_decide; [left; done | discriminate].
Qed.

Lemma prune_node_keeps (fs : gset path) (fv : list path) (e : node) :
  forall root q b, In (q, b) (entries_node root e) ->
  (b = true -> q ∈ fs \/ in_old (dirname q) = true) -> (b = false -> kept_dir fv q) ->
  (forall a rel, In (a, false) (entries_node root e) -> rel <> [] -> q = a ++ rel -> kept_dir fv a) ->
  exists e', prune_node fs fv root e = Some e' /\ In (q, b) (entries_node root e').
Proof.
  induction e as [n | n sub IH] using node_ind'; intros root q b Hin Hf Hd Hanc.
  - simpl in Hin. destruct Hin as [[= <- <-]|[]].
    simpl. unfold keep_file. rewrite dirname_snoc in Hf.
    destruct (Hf eq_refl) as [Hq|Hq].
    + rewrite (bool_decide_true _ Hq), orb_true_r. eexists. split; [reflexivity | by left].
    + rewrite Hq. eexists. split; [reflexivity | by left].
  - assert (Hk : keep_dir fv root n = true).
    { assert (Hn : kept_dir fv (root ++ [n])).
      { simpl in Hin. destruct Hin as [[= <- <-]|Hin]; [by apply Hd|].
        apply (Hanc (root ++ [n]) (drop (length (root ++ [n])) q)); [by left| |].
        - apply in_flat_map in Hin as (x & _ & Hin).
          destruct (entries_node_strict_prefix _ _ _ _ Hin) as (rel & Hrel & ->).
          by rewrite drop_app_length.
        - apply in_flat_map in Hin as (x & _ & Hin).
          destruct (entries_node_strict_prefix _ _ _ _ Hin) as (rel & Hrel & ->).
          by rewrite drop_app_length. }
      unfold keep_dir. destruct Hn as [Hn|Hn].
      - by rewrite (bool_decide_true _ Hn), !orb_true_r.
      - rewrite in_old_snoc in Hn. by rewrite Hn. }
    rewrite prune_node_dir, Hk. eexists. split; [reflexivity|].
    simpl in Hin |- *. destruct Hin as [Hin|Hin]; [by left|right].
    apply in_flat_map in Hin as (x & Hx & Hin).
    rewrite List.Forall_forall in IH.
    destruct (IH x Hx _ _ _ Hin Hf Hd) as (x' & Hpx & Hin').
    { intros a rel Ha Hrel Hq. apply (Hanc a rel); [|done|done].
      right. apply in_flat_map. eauto. }
    apply in_flat_map. exists x'. split; [|exact Hin'].
    apply list_elem_of_In, list_elem_of_omap. exists x.
    split; [by apply list_elem_of_In | exact Hpx].
Qed.

(** Every directory on the way to an entry that survives was kept. *)
Lemma prune_node_survivor (fs : gset path) (fv : list path) (e : node) :
  forall root e' q b, prune_node fs fv root e = Some e' -> In (q, b) (entries_node root e') ->
  forall k rest, k <> [] -> q = root ++ k ++ rest -> (rest <> [] \/ b = false) ->
  kept_dir fv (root ++ k).
Proof.
  induction e as [n | n sub IH] using node_ind';
    intros root e' q b Hp Hin k rest Hk Hq Hr.
  - simpl in Hp. destruct (keep_file fs root n); [|discriminate]. injection Hp as <-.
    simpl in Hin. destruct Hin as [[= <- <-]|[]].
    apply app_inv_head in Hq. destruct k as [|x k]; [done|]. simpl in Hq.
    injection Hq as <- Hq. destruct k, rest; try discriminate. by destruct Hr.
  - rewrite prune_node_dir in Hp. destruct (keep_dir fv root n) eqn:Hkd; [|discriminate].
    injection Hp as <-. pose proof (keep_dir_kept _ _ _ Hkd) as Hn.
    destruct k as [|x k]; [done|].
    simpl in Hin. destruct Hin as [[= <- <-]|Hin].
    + apply app_inv_head in Hq. simpl in Hq. injection Hq as <- Hq.
      destruct k; [exact Hn | discriminate].
    + apply in_flat_map in Hin as (y & Hy & Hin).
      apply list_elem_of_In, list_elem_of_omap in Hy as (x' & Hx' & Hpx').
      destruct (entries_node_strict_prefix _ _ _ _ Hin) as (rel & _ & ->).
      rewrite <- app_assoc in Hq. apply app_inv_head in Hq. simpl in Hq.
      injection Hq as <- Hq.
      destruct k as [|y' k]; [exact Hn|].
      rewrite List.Forall_forall in IH. apply list_elem_of_In in Hx'.
      replace (root ++ n :: y' :: k) with ((root ++ [n]) ++ y' :: k) by (by rewrite <- app_assoc).
      apply (IH x' Hx' _ _ _ _ Hpx' Hin (y' :: k) rest); [discriminate | | exact Hr].
      by rewrite Hq, <- app_assoc.
Qed.

(** C3 (amended): after [onto_local], every remaining file whose path has
    no [.old] component is in [file_set] (ExpectedPathSet) and every
    remaining directory whose path has no [.old] component is among
    [folder_dict.values()].  What lies inside a [.old] directory [r/.old]
    (and the directory itself) is kept when [r] is the course directory or
    a directory that is kept: a [.old] directory inside a removed directory
    is removed with it.  When the walked directory's own path has a [.old]
    component (the course directory lies inside a [.old] directory)
    nothing at all is removed.  The walk is a total function: a directory
    removed before [os.walk] reaches it is passed over, never an error. *)
Theorem onto_local_prunes_outside_old (c : course) (course_dir : path) (tree : list node) :
  (forall q b, In (q, b) (entries course_dir (onto_local c course_dir tree)) ->
     in_old q = false ->
     (b = true -> q ∈ file_set c) /\ (b = false -> q ∈ folder_values (folder_dict c))) /\
  (forall r rel b,
     (r = course_dir \/ In (r, false) (entries course_dir (onto_local c course_dir tree))) ->
     In (r ++ ".old" :: rel, b) (entries course_dir tree) -> (rel <> [] \/ b = false) ->
     In (r ++ ".old" :: rel, b) (entries course_dir (onto_local c course_dir tree))) /\
  (in_old course_dir = true -> onto_local c course_dir tree = tree).
Proof.
  unfold onto_local. set (fs := file_set c). set (fv := folder_values (folder_dict c)).
  split; [|split].
  - intros q b Hin Hq. unfold entries in Hin.
    apply in_flat_map in Hin as (e' & He' & Hin).
    unfold prune in He'. apply list_elem_of_In, list_elem_of_omap in He'
      as (x & _ & Hpx).
    destruct (in_old course_dir) eqn:Hold.
    + destruct (entries_node_prefix _ _ _ _ Hin) as [rel ->].
      rewrite in_old_app, Hold in Hq. discriminate.
    + exact (prune_node_sound fs fv x _ _ Hold Hpx q b Hin Hq).
  - intros r rel b Hr Hin Hrb.
    assert (Hpre : forall k m, k <> [] -> r = course_dir ++ k ++ m -> kept_dir fv (course_dir ++ k)).
    { intros k m Hk Hrm. destruct Hr as [-> | Hr].
      - exfalso. apply (f_equal length) in Hrm. rewrite !length_app in Hrm.
        destruct k; [done | simpl in Hrm; lia].
      - unfold entries, prune in Hr. apply in_flat_map in Hr as (y & Hy & Hr).
        apply list_elem_of_In, list_elem_of_omap in Hy as (x' & _ & Hpx').
        exact (prune_node_survivor _ _ x' _ _ _ _ Hpx' Hr k m Hk Hrm (or_intror eq_refl)). }
    unfold entries in Hin. apply in_flat_map in Hin as (x & Hx & Hin).
    destruct (prune_node_keeps fs fv x course_dir (r ++ ".old" :: rel) b Hin)
      as (x' & Hpx & Hin').
    + intros ->. right. destruct Hrb as [Hrel|]; [|discriminate].
      destruct (exists_last Hrel) as (rel0 & w & ->).
      rewrite app_comm_cons, app_assoc, dirname_snoc. apply in_old_mid.
    + intros _. right. apply in_old_mid.
    + intros a rel' Ha Hrel' Hq.
      destruct (entries_node_strict_prefix _ _ _ _ Ha) as (ka & Hka & ->).
      apply app_eq_app in Hq as (k & [[Hr1 Hr2]|[Ha1 Ha2]]).
      * apply (Hpre ka k Hka). by rewrite Hr1, <- app_assoc.
      * destruct k as [|y k].
        -- rewrite app_nil_r in Ha1. apply (Hpre ka []); [exact Hka|]. by rewrite app_nil_r.
        -- simpl in Ha2. injection Ha2 as <- _. right. rewrite Ha1. apply in_old_mid.
    + unfold entries, prune. apply in_flat_map. exists x'. split; [|exact Hin'].
      apply list_elem_of_In, list_elem_of_omap. exists x. split; [by apply list_elem_of_In | exact Hpx].
  - apply prune_old.
Qed.

(** ** Steps of [_parse_file] *)

Lemma isfileb_lookup (p : path) (d : disk) :
  isfileb p d = true -> exists f, disk_lookup p d = Some (OFile f).
Proof. unfold isfileb. destruct (disk_lookup p d) as [[f|]|]; try discriminate. eauto. Qed.

(** The [os.path.isfile] test on an entry with a name *)
Lemma exact_snoc (loc : path) (n : string) (d : disk) :
  n <> "" -> negb (slashed (loc ++ [n])) && isfileb (loc ++ [n]) d = isfileb (loc ++ [n]) d.
Proof. intros Hn. by rewrite slashed_snoc, bool_decide_false. Qed.

Lemma download_http_error (get_content : string -> reply response) (e : entry) (t : dest)
    (c : course) (r : response) :
  url e <> "" -> startswith (url e) "URL:" = false -> startswith (url e) "SubHeader:" = false ->
  get_content (url e) = Answered r -> status_code r <> 200 ->
  try_conn (download get_content e t) c = Ok (Some ("Non-200 status code", display_name e), c).
Proof.
  intros H1 H2 H3 H4 H5. unfold try_conn, download.
  rewrite bool_decide_false by exact H1. rewrite H2, H3, H4.
  replace (status_code r =? 200) with false by (symmetry; apply Z.eqb_neq; exact H5).
  reflexivity.
Qed.

Ltac unfold_parse_file Hloc :=
  unfold parse_file, bind, ret, folder_lookup, isfile, gets; rewrite Hloc;
  cbn -[download try_conn slashed isfileb isfile_insensitive getmtime disk_lookup
        join_file add_before_ext filecmp_cmp os_remove].

Lemma download_counters (get_content : string -> reply response) (e : entry) (t : dest)
    (c : course) (a : unit) (c' : course) :
  download get_content e t c = Ok (a, c') -> counters c' = counters c.
Proof.
  intros H. unfold download, print, modify, write_dest, utime, touch, raise, bind in H.
  repeat (case_match; simplify_eq/=); reflexivity.
Qed.

Lemma try_conn_counters (get_content : string -> reply response) (e : entry) (t : dest)
    (c : course) r (c' : course) :
  try_conn (download get_content e t) c = Ok (r, c') -> counters c' = counters c.
Proof.
  unfold try_conn. destruct (download get_content e t c) as [[[] c1]|ex] eqn:E; intros H.
  - injection H as _ <-. exact (download_counters _ _ _ _ _ _ E).
  - destruct ex; simplify_eq/=. reflexivity.
Qed.

Lemma parse_file_counters (fmt : Z -> string) (get_content : string -> reply response)
    (e : entry) (c c' : course) :
  parse_file fmt get_content e c = Ok (tt, c') -> one_counter_step c c'.
Proof.
  intros H.
  unfold parse_file, isfile_insensitive, getfile_insensitive, os_listdir, getmtime,
    named_temporary_file, remove_scratch, filecmp_cmp, os_remove, copy2_scratch, print,
    add_to_file_set, folder_lookup, isfile, gets, modify, bind, ret in H.
  repeat (case_match; simplify_eq/=);
  repeat match goal with
         | E : try_conn _ _ = Ok _ |- _ => apply try_conn_counters in E
         end;
  unfold one_counter_step, counters in *; simpl in *; simplify_eq/=;
  first [ left; congruence | right; left; congruence
        | right; right; left; congruence | right; right; right; congruence ].
Qed.

Lemma parse_file_folder (fmt : Z -> string) (get_content : string -> reply response)
    (e : entry) (c c' : course) :
  parse_file fmt get_content e c = Ok (tt, c') -> is_Some (folder_dict c !! folder_id e).
Proof.
  unfold parse_file, bind at 1, folder_lookup.
  destruct (folder_dict c !! folder_id e); [eauto | discriminate].
Qed.

Lemma one_counter_step_sum (c c' : course) :
  one_counter_step c c' -> counter_sum c' = S (counter_sum c).
Proof.
  unfold one_counter_step, counter_sum, counters.
  intros [H|[H|[H|H]]]; injection H as -> -> -> ->; lia.
Qed.

(** ** Download errors *)

(** C7: when the content download of an entry is answered with a status
    other than 200 (the entry's folder and its directory exist, and a local
    copy, if any, is older than the remote file), [_parse_file] catches the
    [ConnectionError]: it prints the error's arguments (the message and the
    display name), adds one to [errors] and to no other counter, leaves the
    disk and ExpectedPathSet ([file_set]) as they were, and the run goes on
    with the next entry. *)
Theorem parse_file_download_error (fmt : Z -> string) (get_content : string -> reply response)
    (e : entry) (c : course) (loc : path) (r : response) :
  folder_dict c !! folder_id e = Some loc ->
  isdirb loc (files c) = true ->
  url e <> "" -> startswith (url e) "URL:" = false -> startswith (url e) "SubHeader:" = false ->
  get_content (url e) = Answered r -> status_code r <> 200 ->
  (forall f, disk_lookup (loc ++ [replace_char "/" "-" (display_name e)]) (files c) = Some (OFile f) ->
     mtime f < modified_at e) ->
  exists c', parse_file fmt get_content e c = Ok (tt, c') /\
    errors c' = S (errors c) /\ downloaded c' = downloaded c /\ updated c' = updated c /\
    skipped c' = skipped c /\ file_set c' = file_set c /\ files c' = files c /\
    out c' = out c ++ [Args "Non-200 status code" (display_name e)] /\
    forall es, run_files fmt get_content (e :: es) c = run_files fmt get_content es c'.
Proof.
  intros Hloc Hdir H1 H2 H3 H4 H5 Hold.
  set (p := loc ++ [replace_char "/" "-" (display_name e)]) in *.
  assert (Hpe : parse_file fmt get_content e c = Ok (tt, inc_errors (set_out (out c ++ [Args "Non-200 status code" (display_name e)]) c)) \/
                parse_file fmt get_content e c = Ok (tt, inc_errors (set_out (out c ++ [Args "Non-200 status code" (display_name e)]) (set_scratch (Some (mkFobj "" (now c))) c)))).
  { unfold_parse_file Hloc. fold p.
    destruct (negb (slashed p) && isfileb p (files c)) eqn:Hx; cbn -[download try_conn getmtime].
    - apply andb_true_iff in Hx as [_ Hf].
      destruct (isfileb_lookup _ _ Hf) as [f Hl]. unfold getmtime. rewrite Hl. cbn -[download try_conn].
      rewrite (proj2 (Z.ltb_lt _ _) (Hold f Hl)). cbn -[download try_conn].
      rewrite (download_http_error _ _ _ _ r) by assumption. right. reflexivity.
    - assert (Hd : isdirb (dirname p) (files c) = true) by (unfold p; by rewrite dirname_snoc).
      destruct (isfile_insensitive_ok p c Hd) as [b Hb]. rewrite Hb. cbn -[download try_conn].
      destruct b; cbn -[download try_conn].
      + rewrite (download_http_error _ _ _ _ r) by assumption. left. reflexivity.
      + rewrite bool_decide_false by exact H1. cbn -[download try_conn].
        rewrite (download_http_error _ _ _ _ r) by assumption. left. reflexivity. }
  destruct Hpe as [Hpe|Hpe]; (eexists; split; [exact Hpe|]); simpl; repeat split;
    intros es; simpl; unfold bind at 1; rewrite Hpe; reflexivity.
Qed.

(** ** Counters *)

(** C9: every [_parse_file] call that returns (it raises [KeyError] when
    the entry's [folder_id] is not in [folder_dict], and file-system errors
    such as a missing folder directory propagate and end the run) adds one
    to exactly one of [downloaded], [updated], [skipped] and [errors] and
    leaves the other three as they were; so a file phase over [n] entries
    that completes raises the sum of the four counters by [n]. *)
Theorem parse_file_one_counter (fmt : Z -> string) (get_content : string -> reply response) :
  (forall e c c', parse_file fmt get_content e c = Ok (tt, c') ->
     is_Some (folder_dict c !! folder_id e) /\ one_counter_step c c') /\
  (forall es c c', run_files fmt get_content es c = Ok (tt, c') ->
     counter_sum c' = (counter_sum c + length es)%nat).
Proof.
  split.
  - intros e c c' H. split; [exact (parse_file_folder _ _ _ _ _ H) | exact (parse_file_counters _ _ _ _ _ H)].
  - induction es as [|e es IH]; intros c c' H; simpl in H.
    + injection H as <-. simpl. lia.
    + unfold bind at 1 in H. destruct (parse_file fmt get_content e c) as [[[] c1]|ex] eqn:E;
        [|discriminate].
      rewrite (IH _ _ H), (one_counter_step_sum _ _ (parse_file_counters _ _ _ _ _ E)).
      simpl. lia.
Qed.

(** ** [download] *)

Lemma download_scratch (get_content : string -> reply response) (e : entry) (c : course) :
  download_ok get_content e -> scratch c = Some (mkFobj "" (now c)) ->
  download get_content e Scratch c =
  Ok (tt, set_out (out c ++ download_out e)
            (set_scratch (Some (mkFobj (fetched_data get_content e) (fetched_mtime e (now c)))) c)).
Proof.
  intros Hok Hs. unfold download, download_out, fetched_data, fetched_mtime.
  destruct (bool_decide (url e = "")) eqn:Hu.
  - unfold print, modify. destruct c as [? ? ? ? ? ? ? sc ? ?]. cbn in Hs |- *. rewrite Hs. reflexivity.
  - simpl. rewrite app_nil_r. destruct (startswith (url e) "URL:") eqn:Hurl; simpl.
    + unfold write_dest. destruct c; reflexivity.
    + destruct (startswith (url e) "SubHeader:") eqn:Hsub; simpl.
      * unfold touch. rewrite Hs. destruct c; reflexivity.
      * apply bool_decide_eq_false in Hu. destruct (Hok Hu Hurl Hsub) as (r & Hr & H200 & Hse).
        rewrite Hr, H200. simpl. unfold bind, write_dest. simpl. rewrite Hse.
        unfold utime. simpl. destruct c; reflexivity.
Qed.

(** A download with a URL into a path of an existing directory, neither a
    directory nor written with a trailing ['/'] *)
Lemma download_local (get_content : string -> reply response) (e : entry) (p : path) (c : course) :
  url e <> "" -> download_ok get_content e ->
  isdirb (dirname p) (files c) = true -> slashed p = false -> disk_lookup p (files c) <> Some ODir ->
  exists d' f', download get_content e (Local p) c = Ok (tt, set_files d' c) /\
    disk_lookup p d' = Some (OFile f') /\ mtime f' = fetched_mtime e (now c) /\
    (disk_lookup p (files c) = None \/ startswith (url e) "SubHeader:" = false ->
       data f' = fetched_data get_content e) /\
    (forall q, q <> p -> disk_lookup q d' = disk_lookup q (files c)) /\
    (forall q o, In (q, o) d' -> (q = p /\ exists f, o = OFile f) \/ In (q, o) (files c)).
Proof.
  intros Hu Hok Hd Hs Hnd. pose proof (open_error_none p (files c) Hd Hs Hnd) as Ho.
  pose proof (dest_path_not_slashed p Hs) as Hdp.
  unfold download, fetched_data, fetched_mtime.
  rewrite !bool_decide_false by exact Hu. simpl.
  destruct (startswith (url e) "URL:") eqn:Hurl; simpl.
  - unfold write_dest. rewrite Ho, Hdp.
    do 2 eexists. split; [reflexivity|]. split; [apply disk_lookup_write_eq|].
    split; [reflexivity|]. split; [reflexivity|].
    split; [intros q Hq; by apply disk_lookup_write_neq|].
    intros q o Hin. apply In_disk_write in Hin as [[-> ->]|Hin]; eauto.
  - destruct (startswith (url e) "SubHeader:") eqn:Hsub; simpl.
    + unfold touch. rewrite Hdp.
      destruct (disk_lookup p (files c)) as [[g|]|] eqn:Hl; [| done |].
      * do 2 eexists. split; [reflexivity|]. split; [apply disk_lookup_write_eq|].
        split; [reflexivity|]. split; [intros [H|H]; discriminate|].
        split; [intros q Hq; by apply disk_lookup_write_neq|].
        intros q o Hin. apply In_disk_write in Hin as [[-> ->]|Hin]; eauto.
      * rewrite Hd. do 2 eexists. split; [reflexivity|]. split; [apply disk_lookup_write_eq|].
        split; [reflexivity|]. split; [reflexivity|].
        split; [intros q Hq; by apply disk_lookup_write_neq|].
        intros q o Hin. apply In_disk_write in Hin as [[-> ->]|Hin]; eauto.
    + destruct (Hok Hu Hurl Hsub) as (r & Hr & H200 & Hse).
      rewrite Hr, H200. simpl. unfold bind, write_dest. rewrite Ho, Hdp. simpl. rewrite Hse.
      unfold utime. rewrite Hdp. simpl. rewrite disk_lookup_write_eq. simpl.
      do 2 eexists. split; [reflexivity|]. split; [apply disk_lookup_write_eq|].
      split; [reflexivity|]. split; [reflexivity|].
      split; [intros q Hq; by rewrite !disk_lookup_write_neq|].
      intros q o Hin. apply In_disk_write in Hin as [[-> ->]|Hin]; [eauto|].
      apply In_disk_write in Hin as [[-> ->]|Hin]; eauto.
Qed.

Lemma download_local_new (get_content : string -> reply response) (e : entry) (p : path) (c : course) :
  url e <> "" -> download_ok get_content e ->
  isdirb (dirname p) (files c) = true -> slashed p = false -> disk_lookup p (files c) = None ->
  exists d', download get_content e (Local p) c = Ok (tt, set_files d' c) /\
    disk_lookup p d' = Some (OFile (mkFobj (fetched_data get_content e) (fetched_mtime e (now c)))) /\
    (forall q, q <> p -> disk_lookup q d' = disk_lookup q (files c)) /\
    (forall q o, In (q, o) d' -> (q = p /\ exists f, o = OFile f) \/ In (q, o) (files c)).
Proof.
  intros Hu Hok Hd Hs Hn.
  destruct (download_local get_content e p c Hu Hok Hd Hs ltac:(by rewrite Hn))
    as (d' & [dat tm] & Hdl & Hq & Hm & Hdat & Hfr & Hin).
  exists d'. split; [exact Hdl|]. split; [|auto].
  rewrite Hq. simpl in Hm, Hdat. rewrite Hm, Hdat by (left; exact Hn). reflexivity.
Qed.

Lemma try_conn_ok (m : M unit) (c c' : course) :
  m c = Ok (tt, c') -> try_conn m c = Ok (None, c').
Proof. intros H. unfold try_conn. by rewrite H. Qed.

(** ** The branches of [_parse_file] *)

Lemma parse_file_current (fmt : Z -> string) (get_content : string -> reply response)
    (e : entry) (c : course) (loc : path) (f : fobj) :
  folder_dict c !! folder_id e = Some loc -> display_name e <> "" ->
  disk_lookup (loc ++ [replace_char "/" "-" (display_name e)]) (files c) = Some (OFile f) ->
  modified_at e <= mtime f ->
  parse_file fmt get_content e c =
  Ok (tt, set_file_set ({[loc ++ [replace_char "/" "-" (display_name e)]]} ∪ file_set c)
            (inc_skipped c)).
Proof.
  intros Hloc Hne Hl Hm.
  unfold_parse_file Hloc.
  rewrite exact_snoc by (by apply replace_char_nonempty).
  set (p := loc ++ [replace_char "/" "-" (display_name e)]) in *.
  assert (Hf : isfileb p (files c) = true) by (unfold isfileb; by rewrite Hl).
  rewrite Hf. cbn -[download try_conn getmtime].
  unfold getmtime. rewrite Hl. cbn -[download try_conn].
  rewrite (proj2 (Z.ltb_ge _ _) Hm). reflexivity.
Qed.

Lemma parse_file_newer (fmt : Z -> string) (get_content : string -> reply response)
    (e : entry) (c : course) (loc : path) (f : fobj) :
  folder_dict c !! folder_id e = Some loc -> display_name e <> "" ->
  disk_lookup (loc ++ [replace_char "/" "-" (display_name e)]) (files c) = Some (OFile f) ->
  mtime f < modified_at e -> download_ok get_content e ->
  let p := loc ++ [replace_char "/" "-" (display_name e)] in
  let s := mkFobj (fetched_data get_content e) (fetched_mtime e (now c)) in
  parse_file fmt get_content e c =
  Ok (tt, if filecmp f s then
            mkCourse (folder_dict c) ({[p]} ∪ file_set c) (S (skipped c)) (updated c)
              (downloaded c) (errors c) (files c) None (now c) (out c ++ download_out e)
          else
            mkCourse (folder_dict c) ({[p]} ∪ file_set c) (skipped c) (S (updated c))
              (downloaded c) (errors c) (disk_write p (OFile s) (disk_remove p (files c)))
              None (now c) (out c ++ download_out e)).
Proof.
  intros Hloc Hne Hl Hm Hok p s.
  unfold_parse_file Hloc.
  rewrite exact_snoc by (by apply replace_char_nonempty).
  fold p in Hl |- *.
  assert (Hf : isfileb p (files c) = true) by (unfold isfileb; by rewrite Hl).
  rewrite Hf. cbn -[download try_conn getmtime].
  unfold getmtime. rewrite Hl. cbn -[download try_conn].
  rewrite (proj2 (Z.ltb_lt _ _) Hm). cbn -[download try_conn].
  rewrite (try_conn_ok _ _ _ (download_scratch get_content e (set_scratch (Some (mkFobj "" (now c))) c) Hok eq_refl)).
  unfold filecmp_cmp. cbn -[download try_conn disk_lookup]. rewrite Hl. fold s.
  destruct (filecmp f s); cbn -[download try_conn disk_lookup]; [reflexivity|].
  unfold os_remove. cbn -[download try_conn disk_lookup]. rewrite Hl. reflexivity.
Qed.

Lemma nomatch_lookup_None (loc : path) (name : string) (d : disk) :
  (forall n o, In (loc ++ [n], o) d -> lower n <> lower name) ->
  disk_lookup (loc ++ [name]) d = None.
Proof.
  intros Hno. destruct (disk_lookup (loc ++ [name]) d) as [o|] eqn:E; [|reflexivity].
  apply disk_lookup_In in E. by destruct (Hno name o E).
Qed.

Lemma parse_file_fresh (fmt : Z -> string) (get_content : string -> reply response)
    (e : entry) (c : course) (loc : path) :
  folder_dict c !! folder_id e = Some loc -> isdirb loc (files c) = true ->
  (forall n o, In (loc ++ [n], o) (files c) ->
     lower n <> lower (replace_char "/" "-" (display_name e))) ->
  let p := loc ++ [replace_char "/" "-" (display_name e)] in
  (url e = "" -> parse_file fmt get_content e c =
     Ok (tt, set_file_set ({[p]} ∪ file_set c) (inc_skipped c))) /\
  (url e <> "" ->
   parse_file fmt get_content e c =
   match try_conn (download get_content e (Local p)) c with
   | Ok (r, c1) =>
       Ok (tt, match r with
               | Some (a, b) => inc_errors (set_out (out c1 ++ [Args a b]) c1)
               | None => set_file_set ({[p]} ∪ file_set c1) (inc_downloaded c1)
               end)
   | Raise x => Raise x
   end).
Proof.
  intros Hloc Hd Hno p.
  assert (Hf : isfileb p (files c) = false)
    by (unfold isfileb, p; by rewrite nomatch_lookup_None).
  assert (Hi : isfile_insensitive p c = Ok (false, c)).
  { apply isfile_insensitive_nomatch; unfold p; rewrite dirname_snoc; [exact Hd|].
    rewrite basename_snoc. exact Hno. }
  split.
  - intros Hu. unfold_parse_file Hloc. fold p. rewrite Hf, andb_false_r.
    cbn -[download try_conn disk_lookup isfile_insensitive]. rewrite Hi.
    cbn -[download try_conn disk_lookup]. rewrite Hu. reflexivity.
  - intros Hu. unfold_parse_file Hloc. fold p. rewrite Hf, andb_false_r.
    cbn -[download try_conn disk_lookup isfile_insensitive]. rewrite Hi.
    cbn -[download try_conn disk_lookup]. rewrite bool_decide_false by exact Hu.
    cbn -[download try_conn disk_lookup].
    destruct (try_conn (download get_content e (Local p)) c) as [[[[a b]|] c1]|x]; reflexivity.
Qed.

Lemma parse_file_collision (fmt : Z -> string) (get_content : string -> reply response)
    (e : entry) (c : course) (loc : path) (n : string) (o : obj) :
  folder_dict c !! folder_id e = Some loc -> isdirb loc (files c) = true ->
  isfileb (loc ++ [replace_char "/" "-" (display_name e)]) (files c) = false ->
  In (loc ++ [n], o) (files c) -> lower n = lower (replace_char "/" "-" (display_name e)) ->
  let q := collision_path fmt (folder_dict c) e in
  parse_file fmt get_content e c =
  match try_conn (download get_content e (Local q)) c with
  | Ok (r, c1) =>
      Ok (tt, match r with
              | Some (a, b) => inc_errors (set_out (out c1 ++ [Args a b]) c1)
              | None => set_file_set ({[q]} ∪ file_set c1) (inc_downloaded c1)
              end)
  | Raise x => Raise x
  end.
Proof.
  intros Hloc Hd Hf Hin Hlow q.
  set (p := loc ++ [replace_char "/" "-" (display_name e)]) in *.
  assert (Hls : listdir (dirname p) (files c) =
                Some (omap (fun '(q, _) => child_name (dirname p) q) (files c)))
    by (unfold listdir; unfold p; rewrite dirname_snoc, Hd; reflexivity).
  assert (Hi : isfile_insensitive p c = Ok (true, c)).
  { apply (isfile_insensitive_match p c _ n o Hls); unfold p;
      rewrite ?dirname_snoc, ?basename_snoc; assumption. }
  assert (Hq : q = join_file loc (add_before_ext (replace_char "/" "-" (display_name e))
                                    (" c" +++ fmt (modified_at e))))
    by (unfold q, collision_path; by rewrite Hloc).
  rewrite Hq. unfold_parse_file Hloc. fold p. rewrite Hf, andb_false_r.
  cbn -[download try_conn disk_lookup isfile_insensitive]. rewrite Hi.
  cbn -[download try_conn disk_lookup].
  destruct (try_conn _ c) as [[[[a b]|] c1]|x]; reflexivity.
Qed.

(** ** Comparison of an updated file *)

Lemma filecmp_exact (a b : fobj) :
  mtime a <> mtime b -> filecmp a b = bool_decide (data a = data b).
Proof.
  intros H. unfold filecmp. rewrite (proj2 (Z.eqb_neq _ _) H), andb_false_r.
  destruct (Nat.eqb_spec (String.length (data a)) (String.length (data b))) as [Hl|Hl];
    simpl; [reflexivity|].
  rewrite bool_decide_false; [reflexivity|]. intros Heq. apply Hl. by rewrite Heq.
Qed.

Lemma filecmp_same_data (a b : fobj) : data a = data b -> filecmp a b = true.
Proof.
  intros H. unfold filecmp. rewrite H, Nat.eqb_refl. simpl.
  destruct (mtime a =? mtime b); [reflexivity|]. by rewrite bool_decide_true.
Qed.

Lemma filecmp_length (a b : fobj) :
  String.length (data a) <> String.length (data b) -> filecmp a b = false.
Proof. intros H. unfold filecmp. by rewrite (proj2 (Nat.eqb_neq _ _) H). Qed.

(** Against an empty file the shallow comparison decides by bytes too. *)
Lemma filecmp_empty (a b : fobj) :
  data b = "" -> filecmp a b = bool_decide (data a = data b).
Proof.
  intros Hb. destruct (decide (data a = "")) as [Ha|Ha].
  - rewrite filecmp_same_data by congruence. by rewrite bool_decide_true by congruence.
  - rewrite filecmp_length; [by rewrite bool_decide_false by congruence|].
    rewrite Hb. destruct (data a); [done|]. discriminate.
Qed.


Lemma fetched_mtime_http (e : entry) (tm : Z) :
  url e <> "" -> startswith (url e) "URL:" = false -> startswith (url e) "SubHeader:" = false ->
  fetched_mtime e tm = modified_at e.
Proof.
  intros H1 H2 H3. unfold fetched_mtime. by rewrite bool_decide_false, H2, H3.
Qed.

(** The bytes [download] writes for an entry without an HTTP download are
    empty, or a [URL:] shortcut. *)
Lemma fetched_data_empty (get_content : string -> reply response) (e : entry) :
  url e = "" \/ startswith (url e) "SubHeader:" = true ->
  startswith (url e) "URL:" = false \/ url e = "" -> fetched_data get_content e = "".
Proof.
  intros [Hu|Hs] Hl; unfold fetched_data.
  - by rewrite bool_decide_true.
  - case_bool_decide; [reflexivity|]. destruct Hl as [Hl|Hl]; [|done]. by rewrite Hl, Hs.
Qed.

Lemma startswith_url_sub (u : string) :
  startswith u "URL:" = true -> startswith u "SubHeader:" = false.
Proof.
  destruct u as [|a u]; [discriminate|]. unfold startswith. cbn [String.prefix].
  destruct (ascii_dec "U" a) as [<-|Hne]; [|discriminate]. intros _. reflexivity.
Qed.

(** In the update branch the comparison of [_parse_file] decides by the
    bytes, given that a [URL:] entry is not modified after the clock. *)
Lemma filecmp_fetched (get_content : string -> reply response) (e : entry) (f : fobj) (tm : Z) :
  mtime f < modified_at e -> (startswith (url e) "URL:" = true -> modified_at e <= tm) ->
  filecmp f (mkFobj (fetched_data get_content e) (fetched_mtime e tm)) =
  bool_decide (data f = fetched_data get_content e).
Proof.
  intros Hm Hurl.
  destruct (decide (url e = "")) as [Hu|Hu].
  { apply filecmp_empty. simpl. apply fetched_data_empty; auto. }
  destruct (startswith (url e) "URL:") eqn:Hl.
  - apply filecmp_exact. simpl. unfold fetched_mtime. rewrite Hl, orb_true_r. simpl.
    specialize (Hurl eq_refl). lia.
  - destruct (startswith (url e) "SubHeader:") eqn:Hs.
    + apply filecmp_empty. simpl. apply fetched_data_empty; auto.
    + apply filecmp_exact. simpl. rewrite fetched_mtime_http by assumption. lia.
Qed.

(** C1: for an entry whose resolved path holds a regular file older than
    the remote [modified_at], and whose download into the temporary file
    does not fail, [_parse_file] fetches the entry into the temporary file
    and the comparison that follows decides by the bytes: equal bytes count
    as skipped and leave the disk as it was; other bytes count as updated
    and the path then holds the fetched bytes.  [filecmp.cmp] is shallow,
    but the fetched file never has the local file's size and mtime with
    other bytes: an HTTP download is stamped with [modified_at], later than
    the local mtime; a [SubHeader:] placeholder or an entry without URL
    leaves an empty file; and a [URL:] shortcut is stamped with the clock,
    which is not before its [modified_at] ([_parse_moduleitem] builds those
    entries with the current time as [modified_at]).  Either way nothing is
    downloaded or counted as an error and the path is added to
    ExpectedPathSet. *)
Theorem parse_file_newer_byte_exact (fmt : Z -> string) (get_content : string -> reply response)
    (e : entry) (c : course) (loc : path) (f : fobj) :
  folder_dict c !! folder_id e = Some loc ->
  display_name e <> "" ->
  disk_lookup (loc ++ [replace_char "/" "-" (display_name e)]) (files c) = Some (OFile f) ->
  mtime f < modified_at e ->
  download_ok get_content e ->
  (startswith (url e) "URL:" = true -> modified_at e <= now c) ->
  exists c', parse_file fmt get_content e c = Ok (tt, c') /\
    downloaded c' = downloaded c /\ errors c' = errors c /\
    loc ++ [replace_char "/" "-" (display_name e)] ∈ file_set c' /\
    (data f = fetched_data get_content e ->
       skipped c' = S (skipped c) /\ updated c' = updated c /\ files c' = files c) /\
    (data f <> fetched_data get_content e ->
       updated c' = S (updated c) /\ skipped c' = skipped c /\
       disk_lookup (loc ++ [replace_char "/" "-" (display_name e)]) (files c') =
       Some (OFile (mkFobj (fetched_data get_content e) (fetched_mtime e (now c))))).
Proof.
  intros Hloc Hne Hl Hm Hok Hurl.
  pose proof (parse_file_newer fmt get_content e c loc f Hloc Hne Hl Hm Hok) as Hp. simpl in Hp.
  rewrite filecmp_fetched in Hp by assumption.
  eexists. split; [exact Hp|].
  case_bool_decide as Hd; simpl; (split; [reflexivity|]); (split; [reflexivity|]);
    (split; [set_solver|]); split; intros Hd'; try contradiction.
  - repeat split.
  - repeat split. apply disk_lookup_write_eq.
Qed.

(** ** Entries without a download URL *)

(** C2: an entry whose [url] is empty is never counted as an error, and
    [download] prints its warning whenever it is called.  An older regular
    file at the resolved path (with bytes) is replaced by an empty file and
    the entry is counted as updated; on a case collision the entry is
    counted as downloaded, and the collision path, where nothing is
    written, is added to ExpectedPathSet; when the resolved path is new and
    no name of the folder matches it up to case, the entry is counted as
    skipped without a warning.  Each time a path is added to
    ExpectedPathSet. *)
Theorem parse_file_empty_url (fmt : Z -> string) (get_content : string -> reply response)
    (e : entry) (c : course) (loc : path) :
  url e = "" -> folder_dict c !! folder_id e = Some loc ->
  let name := replace_char "/" "-" (display_name e) in
  let p := loc ++ [name] in
  let w := Msg ("Warning: " +++ display_name e +++ " ignored due to canvas error") in
  (forall c', parse_file fmt get_content e c = Ok (tt, c') -> errors c' = errors c) /\
  (forall f, display_name e <> "" -> disk_lookup p (files c) = Some (OFile f) ->
   mtime f < modified_at e -> data f <> "" ->
   parse_file fmt get_content e c =
   Ok (tt, mkCourse (folder_dict c) ({[p]} ∪ file_set c) (skipped c) (S (updated c))
             (downloaded c) (errors c)
             (disk_write p (OFile (mkFobj "" (now c))) (disk_remove p (files c)))
             None (now c) (out c ++ [w]))) /\
  (forall n o, isdirb loc (files c) = true -> isfileb p (files c) = false ->
   In (loc ++ [n], o) (files c) -> lower n = lower name ->
   parse_file fmt get_content e c =
   Ok (tt, set_file_set ({[collision_path fmt (folder_dict c) e]} ∪ file_set c)
             (inc_downloaded (set_out (out c ++ [w]) c)))) /\
  (isdirb loc (files c) = true -> (forall n o, In (loc ++ [n], o) (files c) -> lower n <> lower name) ->
   parse_file fmt get_content e c = Ok (tt, set_file_set ({[p]} ∪ file_set c) (inc_skipped c))).
Proof.
  intros Hu Hloc name p w. split; [|split; [|split]].
  - intros c' H. destruct e as [fid u dn tm]; simpl in *; subst u.
    unfold parse_file, isfile_insensitive, getfile_insensitive, os_listdir, getmtime,
      named_temporary_file, remove_scratch, filecmp_cmp, os_remove, copy2_scratch, print,
      add_to_file_set, folder_lookup, isfile, gets, download, try_conn, modify, bind, ret in H.
    simpl in H. rewrite Hloc in H.
    repeat (case_match; simplify_eq/=); auto.
  - intros f Hne Hl Hm Hd.
    assert (Hok : download_ok get_content e) by (intros H; contradiction).
    rewrite (parse_file_newer fmt get_content e c loc f Hloc Hne Hl Hm Hok). simpl.
    assert (Hfd : fetched_data get_content e = "") by (unfold fetched_data; by rewrite bool_decide_true).
    assert (Hfm : fetched_mtime e (now c) = now c) by (unfold fetched_mtime; by rewrite bool_decide_true).
    rewrite Hfd, Hfm, filecmp_length.
    2:{ simpl. destruct (data f); [done|]. discriminate. }
    unfold download_out. rewrite bool_decide_true by exact Hu. reflexivity.
  - intros n o Hd Hf Hin Hlow.
    rewrite (parse_file_collision fmt get_content e c loc n o Hloc Hd Hf Hin Hlow).
    unfold try_conn, download. rewrite bool_decide_true by exact Hu. reflexivity.
  - intros Hd Hno. exact (proj1 (parse_file_fresh fmt get_content e c loc Hloc Hd Hno) Hu).
Qed.

(** ** Modification times of written files *)

(** C8 (amended): a [download] that does not raise and has a URL leaves at
    its destination (a path that does not name a directory, or the
    temporary file) a regular file whose mtime is the remote [modified_at]
    for an HTTP download and the current time for a [URL:] shortcut or a
    [SubHeader:] placeholder; with an empty URL nothing is written; and
    [shutil.copy2] of the temporary file over a path keeps the temporary
    file's mtime. *)
Theorem download_written_mtime (get_content : string -> reply response) (e : entry) (t : dest)
    (c c' : course) :
  download get_content e t c = Ok (tt, c') ->
  (url e = "" -> files c' = files c /\ scratch c' = scratch c) /\
  (url e <> "" -> (forall p, t = Local p -> disk_lookup (dest_path p) (files c) <> Some ODir) ->
   exists f, get_dest t c' = Ok (Some f, c') /\
     mtime f = (if startswith (url e) "URL:" || startswith (url e) "SubHeader:"
                then now c else modified_at e)) /\
  (forall p c0 c0' f, scratch c0 = Some f -> copy2_scratch p c0 = Ok (tt, c0') ->
   disk_lookup p (files c0') = Some (OFile f)).
Proof.
  intros H. split; [|split].
  - intros Hu. unfold download in H. rewrite bool_decide_true in H by exact Hu.
    unfold print, modify in H. injection H as <-. split; reflexivity.
  - intros Hu Hnd. unfold download in H. rewrite bool_decide_false in H by exact Hu.
    destruct (startswith (url e) "URL:") eqn:Hurl; simpl.
    + destruct t as [p|]; unfold write_dest in H.
      * destruct (open_error p (files c)); [discriminate|].
        injection H as <-. eexists. unfold get_dest, gets; simpl.
        rewrite disk_lookup_write_eq. split; reflexivity.
      * injection H as <-. eexists. split; reflexivity.
    + destruct (startswith (url e) "SubHeader:") eqn:Hsub; simpl.
      * destruct t as [p|]; unfold touch in H.
        -- destruct (disk_lookup (dest_path p) (files c)) as [[g|]|] eqn:Hl;
             [| by destruct (Hnd p eq_refl) |].
           ++ injection H as <-. eexists. unfold get_dest, gets; simpl.
              rewrite disk_lookup_write_eq. split; reflexivity.
           ++ destruct (isdirb (dirname (dest_path p)) (files c)); [|discriminate].
              injection H as <-. eexists. unfold get_dest, gets; simpl.
              rewrite disk_lookup_write_eq. split; reflexivity.
        -- destruct (scratch c) as [g|]; injection H as <-; eexists; split; reflexivity.
      * destruct (get_content (url e)) as [r|k]; [|discriminate].
        destruct (status_code r =? 200); [|discriminate].
        unfold bind, write_dest, utime in H. destruct t as [p|].
        -- destruct (open_error p (files c)); [discriminate|]. simpl in H.
           destruct (stream_error r); [discriminate|]. cbn [files set_files] in H.
           rewrite disk_lookup_write_eq in H. injection H as <-.
           eexists. unfold get_dest, gets; simpl.
           rewrite disk_lookup_write_eq. split; reflexivity.
        -- simpl in H. destruct (stream_error r); [discriminate|].
           injection H as <-. eexists. split; reflexivity.
  - intros p c0 c0' f Hs Hc. unfold copy2_scratch in Hc. rewrite Hs in Hc.
    injection Hc as <-. apply disk_lookup_write_eq.
Qed.

(** ** Case collisions *)

Lemma last_dot_split (s : string) :
  In "."%char (String.list_ascii_of_string s) ->
  exists pre post, ~ In "."%char (String.list_ascii_of_string post) /\ s = pre +++ String "." post.
Proof.
  induction s as [|ch s IH]; simpl; [tauto|]. intros Hin.
  destruct (in_dec ascii_dec "."%char (String.list_ascii_of_string s)) as [Hs|Hs].
  - destruct (IH Hs) as (pre & post & Hp & ->). exists (String ch pre), post. split; [exact Hp | reflexivity].
  - destruct Hin as [->|Hin]; [|contradiction]. exists "", s. split; [exact Hs | reflexivity].
Qed.

(** [add_before_ext] cuts the name in two and puts the text between. *)
Lemma add_before_ext_between (name end_ : string) :
  exists a b, name = a +++ b /\ add_before_ext name end_ = a +++ end_ +++ b.
Proof.
  destruct (in_dec ascii_dec "."%char (String.list_ascii_of_string name)) as [Hd|Hd].
  - destruct (last_dot_split name Hd) as (pre & post & Hp & Heq).
    exists pre, (String "." post). split; [exact Heq|].
    exact (proj2 (add_before_ext_spec name end_) pre post Hp Heq).
  - exists name, "". rewrite (proj1 (add_before_ext_spec name end_) Hd).
    split; [by rewrite string_app_nil_r|]. by rewrite string_app_nil_r.
Qed.

(** The case-collision name of a name without ['/']: it does not start
    with ['/'], it holds a space, and it holds no ['/'] when the formatted
    time has none. *)
Lemma collision_name_props (name stamp : string) :
  ~ In "/"%char (String.list_ascii_of_string name) ->
  let cname := add_before_ext name (" c" +++ stamp) in
  startswith cname "/" = false /\ In " "%char (String.list_ascii_of_string cname) /\
  (~ In "/"%char (String.list_ascii_of_string stamp) ->
   ~ In "/"%char (String.list_ascii_of_string cname)).
Proof.
  intros Hn cname. destruct (add_before_ext_between name (" c" +++ stamp)) as (a & b & Hab & Hc).
  unfold cname. rewrite Hc. rewrite Hab, list_ascii_app in Hn.
  split; [|split].
  - apply startswith_app_no_slash; [intros H; apply Hn, in_or_app; by left|]. reflexivity.
  - rewrite !list_ascii_app. apply in_or_app. right. simpl. by left.
  - intros Hs. rewrite !list_ascii_app, !in_app_iff. rewrite in_app_iff in Hn. simpl.
    intuition discriminate.
Qed.

(** ** A second run *)

















Lemma ext_of_split (pre post : string) :
  ~ In "."%char (String.list_ascii_of_string post) ->
  ext_of (pre +++ String "." post) = String "." post.
Proof.
  intros Hn. unfold ext_of, rfind. rewrite rfind_from_last by exact Hn.
  replace (0 + Z.of_nat (String.length pre) =? -1) with false
    by (symmetry; apply Z.eqb_neq; lia).
  unfold str_drop. rewrite Z.add_0_l, Nat2Z.id. apply substring_suffix.
Qed.

(** [add_before_ext name end_] keeps the extension of a name that has a
    ['.'] (the part from its last ['.']), whatever [end_] holds, and adds
    exactly the length of [end_]: the collision-renamed file keeps its
    type. *)
Theorem add_before_ext_keeps_extension (name end_ : string) :
  In "."%char (String.list_ascii_of_string name) ->
  ext_of (add_before_ext name end_) = ext_of name /\
  String.length (add_before_ext name end_) = (String.length name + String.length end_)%nat.
Proof.
  intros Hin. destruct (last_dot_split name Hin) as (pre & post & Hn & ->).
  rewrite (proj2 (add_before_ext_spec _ end_) pre post Hn eq_refl).
  rewrite <- string_app_assoc, !ext_of_split by exact Hn.
  rewrite !string_length_app. simpl. split; [reflexivity | lia].
Qed.

(** The text [download] writes for a [URL:] entry is the shortcut file
    naming exactly the URL that follows the [URL:] prefix. *)
Lemma shortcut_url (u : string) :
  shortcut ("URL:" +++ u) =
  "[InternetShortcut]" +++ nl +++ "URL=" +++ u +++ nl.
Proof.
  unfold shortcut. do 3 f_equal.
  change (String.substring 4 (String.length ("URL:" +++ u) - 4) ("URL:" +++ u))
    with (String.substring (String.length "URL:") (String.length ("URL:" +++ u) - String.length "URL:") ("URL:" +++ u)).
  by rewrite substring_suffix.
Qed.

(** [onto_local] is idempotent: walking the tree it leaves a second time,
    with the same [file_set] and [folder_dict], deletes nothing. *)
Theorem onto_local_idempotent (c : course) (course_dir : path) (tree : list node) :
  onto_local c course_dir (onto_local c course_dir tree) = onto_local c course_dir tree.
Proof.
  unfold onto_local, prune. apply omap_id, Forall_forall. intros y Hy.
  apply list_elem_of_omap in Hy as (x & _ & Hpx). exact (prune_node_idem _ _ x _ _ Hpx).
Qed.

(** [onto_local] only deletes: every file or directory left after the walk
    was in the tree before it, at the same path. *)
Theorem onto_local_only_deletes (c : course) (course_dir : path) (tree : list node) (q : path)
    (b : bool) :
  In (q, b) (entries course_dir (onto_local c course_dir tree)) ->
  In (q, b) (entries course_dir tree).
Proof.
  unfold entries, onto_local, prune. intros Hin.
  apply in_flat_map in Hin as (y & Hy & Hin).
  apply list_elem_of_In, list_elem_of_omap in Hy as (x & Hx & Hpx).
  apply in_flat_map. exists x. split; [by apply list_elem_of_In|].
  exact (prune_node_entries _ _ x _ _ _ _ Hpx Hin).
Qed.

(** [onto_local] keeps every file of ExpectedPathSet ([file_set]) and every
    directory among [folder_dict.values()] (or with a [.old] component)
    when every directory above it, below the course directory, is among
    [folder_dict.values()] or has a [.old] component. *)
Theorem onto_local_keeps_expected (c : course) (course_dir : path) (tree : list node)
    (q : path) (b : bool) :
  In (q, b) (entries course_dir tree) ->
  (b = true -> q ∈ file_set c) ->
  (b = false -> kept_dir (folder_values (folder_dict c)) q) ->
  (forall a rel, In (a, false) (entries course_dir tree) -> rel <> [] -> q = a ++ rel ->
     kept_dir (folder_values (folder_dict c)) a) ->
  In (q, b) (entries course_dir (onto_local c course_dir tree)).
Proof.
  unfold entries, onto_local, prune. intros Hin Hf Hd Hanc.
  apply in_flat_map in Hin as (x & Hx & Hin).
  destruct (prune_node_keeps (file_set c) (folder_values (folder_dict c)) x course_dir q b Hin
              (fun H => or_introl (Hf H)) Hd)
    as (x' & Hpx & Hin').
  { intros a rel Ha. apply Hanc. apply in_flat_map. eauto. }
  apply in_flat_map. exists x'. split; [|exact Hin'].
  apply list_elem_of_In, list_elem_of_omap. exists x. split; [by apply list_elem_of_In | exact Hpx].
Qed.


(** ** What [_parse_file] touches *)

Lemma mod_at_refl (p : path) (d : disk) : mod_at p d d.
Proof. split; auto. Qed.

Lemma mod_at_trans (p : path) (d1 d2 d3 : disk) :
  mod_at p d1 d2 -> mod_at p d2 d3 -> mod_at p d1 d3.
Proof. intros [H1 H1'] [H2 H2']. split; [intros q Hq; by rewrite H2, H1 | auto]. Qed.

Lemma mod_at_write (p : path) (o : obj) (d : disk) :
  disk_lookup p d <> Some ODir -> mod_at p d (disk_write p o d).
Proof. intros Hp. split; [intros q Hq; by apply disk_lookup_write_neq | done]. Qed.

Lemma mod_at_replace (p : path) (o : obj) (d : disk) :
  disk_lookup p d <> Some ODir -> mod_at p d (disk_write p o (disk_remove p d)).
Proof.
  intros Hp. split; [|done].
  intros q Hq. by rewrite disk_lookup_write_neq, disk_lookup_remove_neq.
Qed.

Lemma mod_at_dir (p q : path) (d d' : disk) :
  mod_at p d d' -> disk_lookup q d = Some ODir -> disk_lookup q d' = Some ODir.
Proof.
  intros [Hne Hp] Hq. destruct (decide (q = p)) as [->|Hqp]; [auto | by rewrite Hne].
Qed.

Lemma open_error_none_not_dir (p : path) (d : disk) :
  open_error p d = None -> disk_lookup (dest_path p) d <> Some ODir.
Proof.
  unfold open_error. destruct (isdirb _ _); [|discriminate]. destruct (slashed p); [discriminate|].
  simpl. destruct (disk_lookup (dest_path p) d) as [[]|]; congruence.
Qed.

Ltac same3 := split; [reflexivity|]; split; [reflexivity|]; split; [reflexivity|].

Lemma download_mod (get_content : string -> reply response) (e : entry) (t : dest) (c c' : course) a :
  download get_content e t c = Ok (a, c') ->
  folder_dict c' = folder_dict c /\ file_set c' = file_set c /\ now c' = now c /\
  match t with
  | Local p => mod_at (dest_path p) (files c) (files c')
  | Scratch => files c' = files c /\ (scratch c <> None -> scratch c' <> None)
  end.
Proof.
  intros H. unfold download in H.
  destruct (bool_decide (url e = "")).
  { unfold print, modify in H. injection H as _ <-.
    destruct t; simpl; same3; [apply mod_at_refl | split; auto]. }
  destruct (startswith (url e) "URL:").
  { destruct t as [p|]; unfold write_dest in H.
    - destruct (open_error p (files c)) eqn:E; [discriminate|]. injection H as _ <-. simpl.
      same3. apply mod_at_write. by apply open_error_none_not_dir.
    - injection H as _ <-. simpl. same3. split; [reflexivity | intros _; discriminate]. }
  destruct (startswith (url e) "SubHeader:").
  { destruct t as [p|]; unfold touch in H.
    - destruct (disk_lookup (dest_path p) (files c)) as [[g|]|] eqn:El.
      + injection H as _ <-. simpl. same3. apply mod_at_write. congruence.
      + injection H as _ <-. same3. apply mod_at_refl.
      + destruct (isdirb _ _); [|discriminate]. injection H as _ <-. simpl.
        same3. apply mod_at_write. congruence.
    - destruct (scratch c); injection H as _ <-; simpl; (same3; split; [reflexivity | intros _; discriminate]). }
  destruct (get_content (url e)) as [r|k]; [|discriminate].
  destruct (status_code r =? 200); [|discriminate].
  unfold bind, write_dest in H. destruct t as [p|].
  - destruct (open_error p (files c)) eqn:E; [discriminate|]. apply open_error_none_not_dir in E.
    simpl in H. destruct (stream_error r); [discriminate|]. unfold utime in H.
    cbn [files set_files] in H. rewrite disk_lookup_write_eq in H. injection H as _ <-. simpl.
    same3. eapply mod_at_trans; apply mod_at_write; [exact E|].
    rewrite disk_lookup_write_eq. discriminate.
  - simpl in H. destruct (stream_error r); [discriminate|]. injection H as _ <-. simpl.
    same3. split; [reflexivity | intros _; discriminate].
Qed.

Lemma try_conn_mod (get_content : string -> reply response) (e : entry) (t : dest) (c c' : course) r :
  try_conn (download get_content e t) c = Ok (r, c') ->
  folder_dict c' = folder_dict c /\ file_set c' = file_set c /\ now c' = now c /\
  match t with
  | Local p => mod_at (dest_path p) (files c) (files c')
  | Scratch => files c' = files c /\ (scratch c <> None -> scratch c' <> None)
  end.
Proof.
  unfold try_conn. destruct (download get_content e t c) as [[[] c1]|ex] eqn:E; intros H.
  - injection H as _ <-. exact (download_mod _ _ _ _ _ _ E).
  - destruct ex; simplify_eq/=. repeat split; [..|destruct t; [apply mod_at_refl | auto]].
Qed.

Lemma try_conn_some (m : M unit) (c c' : course) (ab : string * string) :
  try_conn m c = Ok (Some ab, c') -> c' = c.
Proof.
  unfold try_conn. destruct (m c) as [[[] c1]|[]]; intros H; simplify_eq/=; reflexivity.
Qed.

Lemma isfile_insensitive_state (p : path) (c : course) b c' :
  isfile_insensitive p c = Ok (b, c') -> c' = c.
Proof.
  unfold isfile_insensitive, getfile_insensitive, bind, os_listdir, ret.
  destruct (listdir (dirname p) (files c)); intros H; simplify_eq/=; reflexivity.
Qed.

Lemma isfile_insensitive_raise (p : path) (c : course) x :
  isfile_insensitive p c = Raise x ->
  isdirb (dirname p) (files c) = false /\ x = dir_error (dirname p) (files c).
Proof.
  unfold isfile_insensitive, getfile_insensitive, bind, os_listdir, ret, listdir.
  destruct (isdirb (dirname p) (files c)); intros H; simplify_eq/=; auto.
Qed.

Lemma isfileb_slashed (p : path) (d : disk) :
  negb (slashed p) && isfileb p d = true ->
  slashed p = false /\ exists f, disk_lookup p d = Some (OFile f).
Proof.
  intros H. apply andb_true_iff in H as [H1 H2]. apply negb_true_iff in H1.
  split; [exact H1 | exact (isfileb_lookup _ _ H2)].
Qed.

Ltac unfold_parse_file_in Hloc H :=
  unfold parse_file, bind, ret, folder_lookup, isfile, gets in H; rewrite Hloc in H;
  cbn -[download try_conn slashed isfileb isfile_insensitive getmtime disk_lookup
        join_file add_before_ext filecmp_cmp os_remove copy2_scratch] in H.

Ltac simpl_pf H :=
  cbn -[download try_conn slashed isfileb isfile_insensitive getmtime disk_lookup
        join_file add_before_ext filecmp_cmp os_remove copy2_scratch] in H.

(** One call of [_parse_file] that returns keeps [folder_dict], changes the
    disk only at the path written through its resolved path or its
    case-collision path, and adds at most one of the two to [file_set]. *)
Lemma parse_file_mod (fmt : Z -> string) (get_content : string -> reply response)
    (e : entry) (c c' : course) :
  parse_file fmt get_content e c = Ok (tt, c') ->
  folder_dict c' = folder_dict c /\
  (mod_at (dest_path (resolved_path (folder_dict c) e)) (files c) (files c') \/
   mod_at (dest_path (collision_path fmt (folder_dict c) e)) (files c) (files c')) /\
  (file_set c' = file_set c \/
   file_set c' = {[resolved_path (folder_dict c) e]} ∪ file_set c \/
   file_set c' = {[collision_path fmt (folder_dict c) e]} ∪ file_set c).
Proof.
  intros H. unfold resolved_path, collision_path.
  destruct (folder_dict c !! folder_id e) as [loc|] eqn:Hloc.
  2:{ unfold parse_file, bind at 1, folder_lookup in H. rewrite Hloc in H. discriminate. }
  unfold_parse_file_in Hloc H.
  set (p := loc ++ [replace_char "/" "-" (display_name e)]) in *.
  set (q := join_file loc (add_before_ext (replace_char "/" "-" (display_name e))
                             (" c" +++ fmt (modified_at e)))) in *.
  destruct (negb (slashed p) && isfileb p (files c)) eqn:Hx; simpl_pf H.
  - destruct (isfileb_slashed _ _ Hx) as [Hs [f Hl]].
    unfold getmtime in H. rewrite Hl in H. simpl_pf H.
    destruct (mtime f <? modified_at e); simpl_pf H.
    + match type of H with context [try_conn ?m ?s] =>
        destruct (try_conn m s) as [[[[a b]|] c1]|y] eqn:Et end; simpl_pf H; [| |discriminate].
      * apply try_conn_some in Et. subst c1. injection H as <-. simpl.
        split; [reflexivity|]. split; [left; apply mod_at_refl | by left].
      * destruct (try_conn_mod _ _ _ _ _ _ Et) as (Hfd1 & Hfs1 & _ & Hf1 & Hsc1).
        simpl in Hfd1, Hfs1, Hf1, Hsc1.
        unfold filecmp_cmp in H. rewrite Hf1, Hl in H.
        destruct (scratch c1) as [s|] eqn:Esc; [|by destruct Hsc1]. simpl_pf H.
        destruct (filecmp f s); simpl_pf H.
        -- injection H as <-. simpl. split; [exact Hfd1|].
           split; [left; rewrite Hf1; apply mod_at_refl | right; left; by rewrite Hfs1].
        -- unfold os_remove in H. cbn [files inc_updated] in H. rewrite Hf1, Hl in H. simpl_pf H.
           unfold copy2_scratch in H. cbn [scratch set_files inc_updated] in H. rewrite Esc in H.
           simpl_pf H. injection H as <-. simpl. split; [exact Hfd1|].
           split; [left | right; left; by rewrite Hfs1].
           rewrite dest_path_not_slashed by exact Hs. apply mod_at_replace. congruence.
    + injection H as <-. simpl. split; [reflexivity|]. split; [left; apply mod_at_refl | by right; left].
  - destruct (isfile_insensitive p c) as [[b c0]|y] eqn:Ei; simpl_pf H; [|discriminate].
    apply isfile_insensitive_state in Ei. subst c0.
    destruct b; simpl_pf H.
    + match type of H with context [try_conn ?m ?s] =>
        destruct (try_conn m s) as [[[[a b]|] c1]|y] eqn:Et end; simpl_pf H; [| |discriminate].
      * apply try_conn_some in Et. subst c1. injection H as <-. simpl.
        split; [reflexivity|]. split; [left; apply mod_at_refl | by left].
      * destruct (try_conn_mod _ _ _ _ _ _ Et) as (Hfd1 & Hfs1 & _ & Hm).
        injection H as <-. simpl. split; [exact Hfd1|].
        split; [right; exact Hm | right; right; by rewrite Hfs1].
    + destruct (bool_decide (url e = "")); simpl_pf H.
      * injection H as <-. simpl. split; [reflexivity|]. split; [left; apply mod_at_refl | by right; left].
      * match type of H with context [try_conn ?m ?s] =>
          destruct (try_conn m s) as [[[[a b]|] c1]|y] eqn:Et end; simpl_pf H; [| |discriminate].
        -- apply try_conn_some in Et. subst c1. injection H as <-. simpl.
           split; [reflexivity|]. split; [left; apply mod_at_refl | by left].
        -- destruct (try_conn_mod _ _ _ _ _ _ Et) as (Hfd1 & Hfs1 & _ & Hm).
           injection H as <-. simpl. split; [exact Hfd1|].
           split; [left; exact Hm | right; left; by rewrite Hfs1].
Qed.

(** The file phase of a run ([run_files]) keeps [folder_dict], never removes
    or replaces a directory, and changes the disk only at the paths that
    some entry's resolved path or case-collision path is written through. *)
Theorem run_files_frame (fmt : Z -> string) (get_content : string -> reply response)
    (es : list entry) (c c' : course) :
  run_files fmt get_content es c = Ok (tt, c') ->
  folder_dict c' = folder_dict c /\
  (forall q, disk_lookup q (files c) = Some ODir -> disk_lookup q (files c') = Some ODir) /\
  (forall q, (forall e, In e es -> q <> dest_path (resolved_path (folder_dict c) e) /\
                                   q <> dest_path (collision_path fmt (folder_dict c) e)) ->
     disk_lookup q (files c') = disk_lookup q (files c)).
Proof.
  revert c. induction es as [|e es IH]; intros c H; simpl in H.
  - injection H as <-. auto.
  - unfold bind at 1 in H.
    destruct (parse_file fmt get_content e c) as [[[] c1]|x] eqn:Hp; [|discriminate].
    destruct (parse_file_mod _ _ _ _ _ Hp) as (Hfd1 & Hmod & _).
    destruct (IH c1 H) as (Hfd2 & Hdir2 & Hfr2).
    split; [congruence|]. split.
    + intros q Hq. apply Hdir2. destruct Hmod as [Hm|Hm]; exact (mod_at_dir _ _ _ _ Hm Hq).
    + intros q Hq. rewrite Hfr2.
      * destruct (Hq e (or_introl eq_refl)) as [H1 H2].
        destruct Hmod as [[Hm _]|[Hm _]]; by apply Hm.
      * intros x Hx. rewrite Hfd1. apply Hq. by right.
Qed.

(** ExpectedPathSet ([file_set]) only grows during the file phase, and
    every path it gains is the resolved path or the case-collision path of
    one of the entries. *)
Theorem run_files_file_set (fmt : Z -> string) (get_content : string -> reply response)
    (es : list entry) (c c' : course) :
  run_files fmt get_content es c = Ok (tt, c') ->
  file_set c ⊆ file_set c' /\
  (forall q, q ∈ file_set c' -> q ∈ file_set c \/
     exists e, In e es /\ (q = resolved_path (folder_dict c) e \/
                           q = collision_path fmt (folder_dict c) e)).
Proof.
  revert c. induction es as [|e es IH]; intros c H; simpl in H.
  - injection H as <-. split; [done|]. auto.
  - unfold bind at 1 in H.
    destruct (parse_file fmt get_content e c) as [[[] c1]|x] eqn:Hp; [|discriminate].
    destruct (parse_file_mod _ _ _ _ _ Hp) as (Hfd1 & _ & Hfs).
    destruct (IH c1 H) as (Hsub & Hnew). rewrite Hfd1 in Hnew.
    split.
    + destruct Hfs as [Hfs|[Hfs|Hfs]]; rewrite Hfs in Hsub; set_solver.
    + intros q Hq. destruct (Hnew q Hq) as [Hq1|(x & Hx & Hxq)].
      * destruct Hfs as [Hfs|[Hfs|Hfs]]; rewrite Hfs in Hq1; [by left|..].
        all: apply elem_of_union in Hq1 as [Hq1|Hq1]; [|by left].
        all: apply elem_of_singleton in Hq1; right; exists e; split; [by left | auto].
      * right. exists x. split; [by right | exact Hxq].
Qed.

(** ** Exceptions of the file phase *)

Lemma download_raise (get_content : string -> reply response) (e : entry) (t : dest) (c : course) x :
  download get_content e t c = Raise x ->
  (exists a b, x = ConnectionError a b) \/
  (exists p, t = Local p /\ open_error p (files c) = Some x) \/
  (exists kind, request_fails get_content (url e) kind /\ x = RequestException kind).
Proof.
  intros H. unfold download in H.
  destruct (bool_decide (url e = "")).
  { unfold print, modify in H. discriminate. }
  destruct (startswith (url e) "URL:").
  { destruct t as [p|]; unfold write_dest in H; [|discriminate].
    destruct (open_error p (files c)) eqn:E; [|discriminate]. injection H as <-.
    right; left. eauto. }
  destruct (startswith (url e) "SubHeader:").
  { destruct t as [p|]; unfold touch in H; [|destruct (scratch c); discriminate].
    right; left. exists p. split; [reflexivity|]. unfold open_error.
    destruct (disk_lookup (dest_path p) (files c)) as [[g|]|] eqn:El; try discriminate.
    destruct (isdirb (dirname (dest_path p)) (files c)); [discriminate|].
    injection H as <-. reflexivity. }
  destruct (get_content (url e)) as [r|k] eqn:Eg.
  2:{ unfold raise in H. injection H as <-. right; right. exists k. split; [left; exact Eg | reflexivity]. }
  destruct (status_code r =? 200) eqn:Es.
  2:{ unfold raise in H. injection H as <-. left. eauto. }
  unfold bind, write_dest in H. destruct t as [p|].
  - destruct (open_error p (files c)) eqn:E.
    + injection H as <-. right; left. eauto.
    + simpl in H. destruct (stream_error r) as [k|] eqn:Ese.
      * injection H as <-. right; right. exists k. split; [|reflexivity].
        right. exists r. split; [exact Eg|]. split; [by apply Z.eqb_eq | exact Ese].
      * unfold utime in H. cbn [files set_files] in H. rewrite disk_lookup_write_eq in H. discriminate.
  - simpl in H. destruct (stream_error r) as [k|] eqn:Ese.
    + injection H as <-. right; right. exists k. split; [|reflexivity].
      right. exists r. split; [exact Eg|]. split; [by apply Z.eqb_eq | exact Ese].
    + unfold utime in H. simpl in H. discriminate.
Qed.

Lemma try_conn_raise (get_content : string -> reply response) (e : entry) (t : dest) (c : course) x :
  try_conn (download get_content e t) c = Raise x ->
  (exists p, t = Local p /\ open_error p (files c) = Some x) \/
  (exists kind, request_fails get_content (url e) kind /\ x = RequestException kind).
Proof.
  unfold try_conn. destruct (download get_content e t c) as [[[] c1]|ex] eqn:E; intros H;
    [discriminate|].
  destruct (download_raise _ _ _ _ _ E) as [(a & b & ->)|Hr]; [discriminate|].
  destruct ex; try discriminate; injection H as <-; exact Hr.
Qed.

(** One call of [_parse_file] raises a [KeyError] when the entry's folder
    is not in [folder_dict], the error of [os.listdir] when the folder is
    not a directory, the error of [open] on the resolved path or the
    case-collision path, or an exception of [requests]; never the
    [ConnectionError] of a non-200 status. *)
Lemma parse_file_raise (fmt : Z -> string) (get_content : string -> reply response)
    (e : entry) (c : course) x :
  parse_file fmt get_content e c = Raise x ->
  (folder_dict c !! folder_id e = None /\ x = KeyError) \/
  (exists loc, folder_dict c !! folder_id e = Some loc /\ isdirb loc (files c) = false /\
     x = dir_error loc (files c)) \/
  (open_error (resolved_path (folder_dict c) e) (files c) = Some x \/
   open_error (collision_path fmt (folder_dict c) e) (files c) = Some x) \/
  (exists kind, request_fails get_content (url e) kind /\ x = RequestException kind).
Proof.
  intros H. unfold resolved_path, collision_path.
  destruct (folder_dict c !! folder_id e) as [loc|] eqn:Hloc.
  2:{ unfold parse_file, bind at 1, folder_lookup in H. rewrite Hloc in H.
      injection H as <-. left. auto. }
  right. unfold_parse_file_in Hloc H.
  set (p := loc ++ [replace_char "/" "-" (display_name e)]) in *.
  set (q := join_file loc (add_before_ext (replace_char "/" "-" (display_name e))
                             (" c" +++ fmt (modified_at e)))) in *.
  destruct (negb (slashed p) && isfileb p (files c)) eqn:Hx; simpl_pf H.
  - destruct (isfileb_slashed _ _ Hx) as [Hs [f Hl]].
    unfold getmtime in H. rewrite Hl in H. simpl_pf H.
    destruct (mtime f <? modified_at e); simpl_pf H; [|discriminate].
    match type of H with context [try_conn ?m ?s] =>
      destruct (try_conn m s) as [[[[a b]|] c1]|y] eqn:Et end; simpl_pf H.
    + discriminate.
    + destruct (try_conn_mod _ _ _ _ _ _ Et) as (Hfd1 & Hfs1 & _ & Hf1 & Hsc1).
      simpl in Hf1, Hsc1.
      unfold filecmp_cmp in H. rewrite Hf1, Hl in H.
      destruct (scratch c1) as [s|] eqn:Esc; [|by destruct Hsc1]. simpl_pf H.
      destruct (filecmp f s); simpl_pf H; [discriminate|].
      unfold os_remove in H. cbn [files inc_updated] in H. rewrite Hf1, Hl in H. simpl_pf H.
      unfold copy2_scratch in H. cbn [scratch set_files inc_updated] in H. rewrite Esc in H.
      simpl_pf H. discriminate.
    + injection H as <-. right; right.
      destruct (try_conn_raise _ _ _ _ _ Et) as [(p' & Hp' & _)|Hr]; [discriminate | exact Hr].
  - destruct (isfile_insensitive p c) as [[b c0]|y] eqn:Ei; simpl_pf H.
    2:{ injection H as <-. apply isfile_insensitive_raise in Ei as [Hd ->].
        left. exists loc. unfold p in Hd |- *. rewrite dirname_snoc in Hd |- *. auto. }
    apply isfile_insensitive_state in Ei. subst c0.
    destruct b; simpl_pf H.
    + match type of H with context [try_conn ?m ?s] =>
        destruct (try_conn m s) as [[[[a b]|] c1]|y] eqn:Et end; simpl_pf H; try discriminate.
      injection H as <-. right.
      destruct (try_conn_raise _ _ _ _ _ Et) as [(p' & [= <-] & Ho)|Hr]; [left; right; exact Ho | right; exact Hr].
    + destruct (bool_decide (url e = "")); simpl_pf H; [discriminate|].
      match type of H with context [try_conn ?m ?s] =>
        destruct (try_conn m s) as [[[[a b]|] c1]|y] eqn:Et end; simpl_pf H; try discriminate.
      injection H as <-. right.
      destruct (try_conn_raise _ _ _ _ _ Et) as [(p' & [= <-] & Ho)|Hr]; [left; left; exact Ho | right; exact Hr].
Qed.

Lemma run_files_raise_split (fmt : Z -> string) (get_content : string -> reply response)
    (es : list entry) (c : course) x :
  run_files fmt get_content es c = Raise x ->
  exists pre e post cm, es = pre ++ e :: post /\
    run_files fmt get_content pre c = Ok (tt, cm) /\
    parse_file fmt get_content e cm = Raise x.
Proof.
  revert c. induction es as [|e es IH]; intros c H; simpl in H; [discriminate|].
  unfold bind at 1 in H.
  destruct (parse_file fmt get_content e c) as [[[] c1]|y] eqn:Hp.
  - destruct (IH c1 H) as (pre & e' & post & cm & -> & Hpre & He').
    exists (e :: pre), e', post, cm. split; [reflexivity|]. split; [|exact He'].
    simpl. unfold bind at 1. by rewrite Hp.
  - injection H as ->. exists [], e, es, c. split; [reflexivity|]. split; [reflexivity|exact Hp].
Qed.

Lemma run_files_dirs (fmt : Z -> string) (get_content : string -> reply response)
    (es : list entry) (c c' : course) :
  run_files fmt get_content es c = Ok (tt, c') ->
  folder_dict c' = folder_dict c /\
  (forall q, isdirb q (files c) = true -> isdirb q (files c') = true).
Proof.
  revert c. induction es as [|e es IH]; intros c H; simpl in H.
  - injection H as <-. auto.
  - unfold bind at 1 in H.
    destruct (parse_file fmt get_content e c) as [[[] c1]|x] eqn:Hp; [|discriminate].
    destruct (parse_file_mod _ _ _ _ _ Hp) as (Hfd1 & Hmod & _).
    destruct (IH c1 H) as (Hfd2 & Hdir2).
    split; [congruence|]. intros q Hq. apply Hdir2.
    destruct q as [|n q]; [done|]. unfold isdirb in *.
    destruct (disk_lookup (n :: q) (files c)) as [[]|] eqn:El; try discriminate.
    destruct Hmod as [Hm|Hm]; by rewrite (mod_at_dir _ _ _ _ Hm El).
Qed.

(** When the file phase raises, the exception comes from one entry, met in
    the state the entries before it left: a [KeyError] when its folder is
    not in [folder_dict]; the error [os.listdir] reports
    ([FileNotFoundError] or [NotADirectoryError]) when its folder is not a
    directory; the error [open] reports for its resolved path or its
    case-collision path ([IsADirectoryError] on a directory or a name
    ending in ['/'], or the error of a missing parent); or an exception of
    [requests] (a failed request, or a body that breaks off while it is
    read), which [except ConnectionError] does not catch.  The
    [ConnectionError] of a non-200 status never ends the run. *)
Theorem run_files_raise (fmt : Z -> string) (get_content : string -> reply response)
    (es : list entry) (c : course) x :
  run_files fmt get_content es c = Raise x ->
  exists pre e post cm, es = pre ++ e :: post /\
    run_files fmt get_content pre c = Ok (tt, cm) /\
    parse_file fmt get_content e cm = Raise x /\
    (forall a b, x <> ConnectionError a b) /\
    ((folder_dict cm !! folder_id e = None /\ x = KeyError) \/
     (exists loc, folder_dict cm !! folder_id e = Some loc /\ isdirb loc (files cm) = false /\
        (x = FileNotFoundError \/ x = NotADirectoryError)) \/
     (exists p, (p = resolved_path (folder_dict cm) e \/ p = collision_path fmt (folder_dict cm) e) /\
        open_error p (files cm) = Some x /\
        (x = IsADirectoryError \/ x = FileNotFoundError \/ x = NotADirectoryError)) \/
     (exists kind, request_fails get_content (url e) kind /\ x = RequestException kind)).
Proof.
  intros H. destruct (run_files_raise_split _ _ _ _ _ H) as (pre & e & post & cm & Hes & Hpre & He).
  exists pre, e, post, cm. split; [exact Hes|]. split; [exact Hpre|]. split; [exact He|].
  assert (Hcases :
    (folder_dict cm !! folder_id e = None /\ x = KeyError) \/
    (exists loc, folder_dict cm !! folder_id e = Some loc /\ isdirb loc (files cm) = false /\
       (x = FileNotFoundError \/ x = NotADirectoryError)) \/
    (exists p, (p = resolved_path (folder_dict cm) e \/ p = collision_path fmt (folder_dict cm) e) /\
       open_error p (files cm) = Some x /\
       (x = IsADirectoryError \/ x = FileNotFoundError \/ x = NotADirectoryError)) \/
    (exists kind, request_fails get_content (url e) kind /\ x = RequestException kind)).
  { destruct (parse_file_raise _ _ _ _ _ He) as [Hk|[(loc & Hl & Hd & ->)|[Ho|Hr]]].
    - by left.
    - right; left. exists loc. split; [exact Hl|]. split; [exact Hd|]. apply dir_error_cases.
    - right; right; left.
      destruct Ho as [Ho|Ho]; [exists (resolved_path (folder_dict cm) e) | exists (collision_path fmt (folder_dict cm) e)];
        (split; [by (left + right)|]); (split; [exact Ho|]);
        (destruct (open_error_cases _ _ _ Ho) as [->| ->]; [by left | right; apply dir_error_cases]).
    - by right; right; right. }
  split; [|exact Hcases].
  intros a b ->.
  destruct Hcases as [[? Hx]|[(? & ? & ? & [Hx|Hx])|[(? & ? & ? & [Hx|[Hx|Hx]])|(? & ? & Hx)]]];
    discriminate.
Qed.

(** ** The temporary file of the update branch *)

(** [tempfile.NamedTemporaryFile(delete=False)] in the update branch: when
    the download into the temporary file is answered with a status other
    than 200, the handler of [ConnectionError] returns with [errors]
    increased, the disk and ExpectedPathSet as they were, and the empty
    temporary file left behind; when the download succeeds, the comparison
    runs, the temporary file is removed and [errors] is unchanged. *)
Theorem parse_file_temp_file (fmt : Z -> string) (get_content : string -> reply response)
    (e : entry) (c : course) (loc : path) (f : fobj) :
  folder_dict c !! folder_id e = Some loc -> display_name e <> "" ->
  disk_lookup (loc ++ [replace_char "/" "-" (display_name e)]) (files c) = Some (OFile f) ->
  mtime f < modified_at e ->
  (forall r, url e <> "" -> startswith (url e) "URL:" = false ->
   startswith (url e) "SubHeader:" = false ->
   get_content (url e) = Answered r -> status_code r <> 200 ->
   exists c', parse_file fmt get_content e c = Ok (tt, c') /\
     errors c' = S (errors c) /\ scratch c' = Some (mkFobj "" (now c)) /\
     files c' = files c /\ file_set c' = file_set c) /\
  (download_ok get_content e ->
   exists c', parse_file fmt get_content e c = Ok (tt, c') /\
     errors c' = errors c /\ scratch c' = None).
Proof.
  intros Hloc Hne Hl Hm. split.
  - intros r H1 H2 H3 H4 H5.
    assert (Hpe : parse_file fmt get_content e c =
      Ok (tt, inc_errors (set_out (out c ++ [Args "Non-200 status code" (display_name e)])
                           (set_scratch (Some (mkFobj "" (now c))) c)))).
    { unfold_parse_file Hloc.
      rewrite exact_snoc by (by apply replace_char_nonempty).
      set (p := loc ++ [replace_char "/" "-" (display_name e)]) in *.
      assert (Hf : isfileb p (files c) = true) by (unfold isfileb; by rewrite Hl).
      rewrite Hf. cbn -[download try_conn getmtime].
      unfold getmtime. rewrite Hl. cbn -[download try_conn].
      rewrite (proj2 (Z.ltb_lt _ _) Hm). cbn -[download try_conn].
      rewrite (download_http_error _ _ _ _ r) by assumption. reflexivity. }
    eexists. split; [exact Hpe|]. simpl. auto.
  - intros Hok. rewrite (parse_file_newer fmt get_content e c loc f Hloc Hne Hl Hm Hok). simpl.
    destruct (filecmp _ _); eexists; (split; [reflexivity|]); simpl; auto.
Qed.
(** ** [os.makedirs] and the folder phase *)

Lemma snoc_ne (h : path) (x : string) : h ++ [x] <> [].
Proof. destruct h; discriminate. Qed.

Lemma path_exists_ne (p : path) (d : disk) :
  p <> [] -> path_exists p d = bool_decide (disk_lookup p d <> None).
Proof. destruct p; [done | reflexivity]. Qed.

Lemma isdirb_ne (p : path) (d : disk) :
  p <> [] -> isdirb p d = match disk_lookup p d with Some ODir => true | _ => false end.
Proof. destruct p; [done | reflexivity]. Qed.

Lemma prefix_snoc_strict (q h : path) (x : string) :
  q `prefix_of` h -> q `prefix_of` h ++ [x] /\ q <> h ++ [x].
Proof.
  intros [k ->]. split; [exists (k ++ [x]); by rewrite app_assoc|].
  intros Heq. apply (f_equal length) in Heq. rewrite !length_app in Heq. simpl in Heq. lia.
Qed.

Lemma makedirs_rev_spec (rn : list string) (d : disk) :
  rn <> [] ->
  match makedirs_rev rn d with
  | inr d' =>
      path_exists (rev rn) d = false /\ isdirb (rev rn) d' = true /\
      (forall q o, disk_lookup q d = Some o -> disk_lookup q d' = Some o) /\
      (forall q o, disk_lookup q d' = Some o ->
         disk_lookup q d = Some o \/ (o = ODir /\ q <> [] /\ q `prefix_of` rev rn))
  | inl e =>
      (e = OS.FileExistsError /\ path_exists (rev rn) d = true) \/
      (e = OS.NotADirectoryError /\
       exists q, q <> [] /\ q `prefix_of` rev rn /\ q <> rev rn /\ isfileb q d = true)
  end.
Proof.
  revert d. induction rn as [|x rh IH]; intros d Hne; [done|]. clear Hne.
  cbn [makedirs_rev rev].
  assert (Hmk : forall d'', isdirb (rev rh) d'' = true ->
    (forall q o, disk_lookup q d = Some o -> disk_lookup q d'' = Some o) ->
    (forall q o, disk_lookup q d'' = Some o ->
         disk_lookup q d = Some o \/ (o = ODir /\ q <> [] /\ q `prefix_of` rev rh)) ->
    match os_mkdir (rev rh ++ [x]) d'' with
    | inr d' =>
      path_exists (rev rh ++ [x]) d = false /\ isdirb (rev rh ++ [x]) d' = true /\
      (forall q o, disk_lookup q d = Some o -> disk_lookup q d' = Some o) /\
      (forall q o, disk_lookup q d' = Some o ->
         disk_lookup q d = Some o \/ (o = ODir /\ q <> [] /\ q `prefix_of` rev rh ++ [x]))
    | inl e =>
      (e = OS.FileExistsError /\ path_exists (rev rh ++ [x]) d = true) \/
      (e = OS.NotADirectoryError /\
       exists q, q <> [] /\ q `prefix_of` rev rh ++ [x] /\ q <> rev rh ++ [x] /\ isfileb q d = true)
    end).
  { intros d'' Hdir Hpres Hnew.
    assert (Hsame : disk_lookup (rev rh ++ [x]) d'' = disk_lookup (rev rh ++ [x]) d).
    { destruct (disk_lookup (rev rh ++ [x]) d'') as [o|] eqn:E1.
      - destruct (Hnew _ _ E1) as [->|(_ & _ & Hp)]; [done|].
        exfalso. destruct Hp as [k Hk]. apply (f_equal length) in Hk.
        rewrite !length_app in Hk. simpl in Hk. lia.
      - destruct (disk_lookup (rev rh ++ [x]) d) as [o|] eqn:E2; [|done].
        apply Hpres in E2. congruence. }
    unfold os_mkdir. rewrite dirname_snoc, Hdir.
    rewrite !(path_exists_ne (rev rh ++ [x])) by apply snoc_ne. rewrite Hsame.
    destruct (disk_lookup (rev rh ++ [x]) d) as [o|] eqn:El.
    { rewrite bool_decide_true by discriminate. by left. }
    rewrite bool_decide_false by (intros Hn; by apply Hn).
    split; [done|]. split.
    { rewrite isdirb_ne by apply snoc_ne. by rewrite disk_lookup_write_eq. }
    split.
    - intros q o Hq. destruct (decide (q = rev rh ++ [x])) as [->|Hqn]; [congruence|].
      rewrite disk_lookup_write_neq by done. by apply Hpres.
    - intros q o Hq. destruct (decide (q = rev rh ++ [x])) as [->|Hqn].
      + rewrite disk_lookup_write_eq in Hq. injection Hq as <-. right.
        split; [done|]. split; [apply snoc_ne | reflexivity].
      + rewrite disk_lookup_write_neq in Hq by done.
        destruct (Hnew _ _ Hq) as [H1|(Ho & Hq0 & Hp)]; [by left|].
        right. split; [done|]. split; [done|]. by apply prefix_snoc_strict. }
  destruct (bool_decide (rev rh = [])) eqn:Eh.
  - apply bool_decide_eq_true in Eh. simpl.
    apply Hmk; [by rewrite Eh | done | by left].
  - apply bool_decide_eq_false in Eh. simpl.
    destruct (path_exists (rev rh) d) eqn:Ex; simpl.
    + rewrite (path_exists_ne (rev rh)) in Ex by done.
      destruct (disk_lookup (rev rh) d) as [[f|]|] eqn:El.
      * unfold os_mkdir. rewrite dirname_snoc.
        rewrite isdirb_ne by done. rewrite (path_exists_ne (rev rh)) by done. rewrite El.
        rewrite (bool_decide_true (Some (OFile f) <> None)) by discriminate.
        destruct (path_exists (rev rh ++ [x]) d); [by left|].
        right. split; [done|].
        exists (rev rh). split; [done|]. split; [by exists [x]|].
        split; [|unfold isfileb; by rewrite El].
        intros Heq. apply (f_equal length) in Heq. rewrite length_app in Heq. simpl in Heq. lia.
      * apply Hmk; [rewrite isdirb_ne by done; by rewrite El | done | by left].
      * apply bool_decide_eq_true in Ex. done.
    + assert (Hrh : rh <> []) by (intros ->; done).
      specialize (IH d Hrh).
      destruct (makedirs_rev rh d) as [e|d''].
      * destruct IH as [[-> Hex]|[-> (q & Hq0 & Hp & Hqn & Hf)]].
        -- congruence.
        -- right. split; [done|]. exists q. split; [done|].
           destruct (prefix_snoc_strict q (rev rh) x Hp). split; [done|]. split; done.
      * destruct IH as (_ & Hdir & Hpres & Hnew). by apply Hmk.
Qed.

Lemma makedirs_spec (name : path) (d : disk) :
  name <> [] ->
  match makedirs name d with
  | inr d' =>
      path_exists name d = false /\ isdirb name d' = true /\
      (forall q o, disk_lookup q d = Some o -> disk_lookup q d' = Some o) /\
      (forall q o, disk_lookup q d' = Some o ->
         disk_lookup q d = Some o \/ (o = ODir /\ q <> [] /\ q `prefix_of` name))
  | inl e =>
      (e = OS.FileExistsError /\ path_exists name d = true) \/
      (e = OS.NotADirectoryError /\
       exists q, q <> [] /\ q `prefix_of` name /\ q <> name /\ isfileb q d = true)
  end.
Proof.
  intros Hne. unfold makedirs.
  pose proof (makedirs_rev_spec (rev name) d) as H. rewrite rev_involutive in H.
  apply H. intros Hr. apply Hne. apply (f_equal (@rev string)) in Hr.
  by rewrite rev_involutive in Hr.
Qed.

Lemma isdirb_keep (p : path) (d d' : disk) :
  (forall q o, disk_lookup q d = Some o -> disk_lookup q d' = Some o) ->
  isdirb p d = true -> isdirb p d' = true.
Proof.
  intros Hk. destruct p as [|n p]; [done|]. unfold isdirb.
  destruct (disk_lookup (n :: p) d) as [[]|] eqn:El; try discriminate.
  by rewrite (Hk _ _ El).
Qed.

Lemma parse_folder_spec (course_dir : path) (f : folder) (c c' : course) :
  parse_folder course_dir f c = inr c' ->
  c' = set_files (files c')
         (set_folder_dict (<[folder_key f := folder_dir course_dir f]> (folder_dict c)) c) /\
  isdirb (folder_dir course_dir f) (files c') = true /\
  (forall q o, disk_lookup q (files c) = Some o -> disk_lookup q (files c') = Some o) /\
  (forall q o, disk_lookup q (files c') = Some o ->
     disk_lookup q (files c) = Some o \/
     (o = ODir /\ q <> [] /\ q `prefix_of` folder_dir course_dir f)).
Proof.
  unfold parse_folder. cbn [files set_folder_dict].
  destruct (isdirb (folder_dir course_dir f) (files c)) eqn:Ed.
  - intros H. injection H as <-. cbn [files set_folder_dict].
    split; [by destruct c|]. split; [done|]. split; [auto|]. auto.
  - assert (Hne : folder_dir course_dir f <> []) by (intros Hn; by rewrite Hn in Ed).
    pose proof (makedirs_spec (folder_dir course_dir f) (files c) Hne) as Hs.
    destruct (makedirs (folder_dir course_dir f) (files c)) as [e|d]; [discriminate|].
    intros H. injection H as <-. cbn [files set_files].
    destruct Hs as (_ & Hdir & Hpres & Hnew).
    split; [by destruct c|]. auto.
Qed.

Lemma run_folders_spec (course_dir : path) (fs : list folder) (c c' : course) :
  run_folders course_dir fs c = inr c' ->
  c' = set_files (files c') (set_folder_dict (folder_dict c') c) /\
  (forall q o, disk_lookup q (files c) = Some o -> disk_lookup q (files c') = Some o) /\
  (forall k, Forall (fun g => folder_key g <> k) fs -> folder_dict c' !! k = folder_dict c !! k).
Proof.
  revert c. induction fs as [|f fs IH]; intros c H; simpl in H.
  - injection H as <-. split; [by destruct c|]. split; [auto|]. auto.
  - destruct (parse_folder course_dir f c) as [e|c1] eqn:Hp; [discriminate|].
    destruct (parse_folder_spec _ _ _ _ Hp) as (Hc1 & _ & Hpres1 & _).
    destruct (IH c1 H) as (Hc' & Hpres2 & Hkeys).
    split.
    + rewrite Hc' at 1. rewrite Hc1. by destruct c.
    + split; [auto|]. intros k Hk. apply Forall_cons in Hk as [Hk1 Hk2].
      rewrite (Hkeys k Hk2), Hc1. cbn [folder_dict set_files set_folder_dict].
      by rewrite lookup_insert_ne.
Qed.

Lemma last_with_key (fs : list folder) (k : Z) :
  Exists (fun h => folder_key h = k) fs ->
  exists pre g post, fs = pre ++ g :: post /\ folder_key g = k /\
    Forall (fun h => folder_key h <> k) post.
Proof.
  induction fs as [|h fs IH]; intros Hin; [by apply Exists_nil in Hin|].
  destruct (decide (Exists (fun h => folder_key h = k) fs)) as [Hex|Hnex].
  - destruct (IH Hex) as (pre & g & post & -> & Hk & Hpost).
    exists (h :: pre), g, post. auto.
  - apply Exists_cons in Hin as [Hh|Hin]; [|done].
    exists [], h, fs. split; [done|]. split; [done|].
    apply Forall_forall. intros x Hx Heq. apply Hnex, Exists_exists. eauto.
Qed.

Lemma run_folders_last (course_dir : path) (fs : list folder) (c c' : course) :
  run_folders course_dir fs c = inr c' ->
  forall pre f post, fs = pre ++ f :: post ->
    Forall (fun g => folder_key g <> folder_key f) post ->
    folder_dict c' !! folder_key f = Some (folder_dir course_dir f) /\
    isdirb (folder_dir course_dir f) (files c') = true.
Proof.
  revert c. induction fs as [|h fs IH]; intros c H pre f post Hfs Hpost.
  - by destruct pre.
  - simpl in H. destruct (parse_folder course_dir h c) as [e|c1] eqn:Hp; [discriminate|].
    destruct (parse_folder_spec _ _ _ _ Hp) as (Hc1 & Hdir1 & _).
    destruct pre as [|h' pre]; simpl in Hfs; injection Hfs as <- Hfs.
    + subst fs. destruct (run_folders_spec _ _ _ _ H) as (_ & Hpres & Hkeys).
      rewrite (Hkeys _ Hpost), Hc1. cbn [folder_dict set_files set_folder_dict].
      rewrite lookup_insert_eq. split; [done|]. exact (isdirb_keep _ _ _ Hpres Hdir1).
    + exact (IH c1 H pre f post Hfs Hpost).
Qed.

(** ** The folder phase *)

(** [_parse_folder] raises only when the folder's directory cannot be
    created: [FileExistsError] when a regular file has its path, or
    [NotADirectoryError] when a regular file has the path of one of its
    ancestors.  It never raises [FileNotFoundError]: missing ancestors are
    created. *)
Theorem parse_folder_fails (course_dir : path) (f : folder) (c : course) (e : OS.error) :
  parse_folder course_dir f c = inl e ->
  (e = OS.FileExistsError /\ isfileb (folder_dir course_dir f) (files c) = true) \/
  (e = OS.NotADirectoryError /\
   exists q, q <> [] /\ q `prefix_of` folder_dir course_dir f /\ q <> folder_dir course_dir f /\
     isfileb q (files c) = true).
Proof.
  unfold parse_folder. cbn [files set_folder_dict].
  destruct (isdirb (folder_dir course_dir f) (files c)) eqn:Ed; [discriminate|].
  assert (Hne : folder_dir course_dir f <> []) by (intros Hn; by rewrite Hn in Ed).
  pose proof (makedirs_spec (folder_dir course_dir f) (files c) Hne) as Hs.
  destruct (makedirs (folder_dir course_dir f) (files c)) as [e'|d]; [|discriminate].
  intros H. injection H as <-. destruct Hs as [[-> Hex]|Hs]; [left|by right].
  split; [done|]. rewrite path_exists_ne in Hex by done. rewrite isdirb_ne in Ed by done.
  unfold isfileb. apply bool_decide_eq_true in Hex.
  destruct (disk_lookup (folder_dir course_dir f) (files c)) as [[]|]; done.
Qed.

(** After the folder phase, the directory of every folder record exists;
    nothing that was on the disk before is removed or changed; every new
    disk entry is a directory on the path of some folder; and only
    [folder_dict] and the disk have changed. *)
Theorem run_folders_ok (course_dir : path) (fs : list folder) (c c' : course) :
  run_folders course_dir fs c = inr c' ->
  c' = set_files (files c') (set_folder_dict (folder_dict c') c) /\
  (forall f, In f fs -> isdirb (folder_dir course_dir f) (files c') = true) /\
  (forall q o, disk_lookup q (files c) = Some o -> disk_lookup q (files c') = Some o) /\
  (forall q o, disk_lookup q (files c') = Some o ->
     disk_lookup q (files c) = Some o \/
     (o = ODir /\ q <> [] /\ exists f, In f fs /\ q `prefix_of` folder_dir course_dir f)).
Proof.
  intros H. destruct (run_folders_spec _ _ _ _ H) as (Hc' & Hpres & _).
  split; [exact Hc'|]. split; [|split; [exact Hpres|]].
  - revert c H Hc' Hpres. induction fs as [|h fs IH]; intros c H Hc' Hpres f Hf; [done|].
    simpl in H. destruct (parse_folder course_dir h c) as [e|c1] eqn:Hp; [discriminate|].
    destruct (parse_folder_spec _ _ _ _ Hp) as (_ & Hdir1 & _).
    destruct (run_folders_spec _ _ _ _ H) as (Hc2 & Hpres2 & _).
    destruct Hf as [<-|Hf]; [exact (isdirb_keep _ _ _ Hpres2 Hdir1)|].
    exact (IH c1 H Hc2 Hpres2 f Hf).
  - clear Hc' Hpres. revert c H. induction fs as [|h fs IH]; intros c H q o Hq.
    + simpl in H. injection H as <-. by left.
    + simpl in H. destruct (parse_folder course_dir h c) as [e|c1] eqn:Hp; [discriminate|].
      destruct (parse_folder_spec _ _ _ _ Hp) as (_ & _ & _ & Hnew1).
      destruct (IH c1 H q o Hq) as [Hq1|(Ho & Hq0 & g & Hg & Hgp)].
      * destruct (Hnew1 q o Hq1) as [Hq2|(Ho & Hq0 & Hp')]; [by left|].
        right. split; [done|]. split; [done|]. exists h. split; [by left|done].
      * right. split; [done|]. split; [done|]. exists g. split; [by right|done].
Qed.

(** [folder_dict] after the folder phase: a folder id listed several times
    maps to the directory of its last folder record; an id not listed keeps
    its earlier value. *)
Theorem run_folders_dict (course_dir : path) (fs : list folder) (c c' : course) :
  run_folders course_dir fs c = inr c' ->
  (forall pre f post, fs = pre ++ f :: post ->
     Forall (fun g => folder_key g <> folder_key f) post ->
     folder_dict c' !! folder_key f = Some (folder_dir course_dir f)) /\
  (forall k, Forall (fun g => folder_key g <> k) fs -> folder_dict c' !! k = folder_dict c !! k).
Proof.
  intros H. split.
  - intros pre f post Hfs Hpost. exact (proj1 (run_folders_last _ _ _ _ H pre f post Hfs Hpost)).
  - exact (proj2 (proj2 (run_folders_spec _ _ _ _ H))).
Qed.

(** ** The folder phase, then the file phase *)

(** When the folder phase of a files course succeeds, every file record
    names a folder of the listing and has a non-empty name, every request
    succeeds, and [time_fmt] puts no ['/'] in a name, the file phase can
    raise only [IsADirectoryError]: never [KeyError] for an unknown folder,
    nor [FileNotFoundError] or [NotADirectoryError] for a missing folder
    directory. *)
Theorem sync_files_raise (fmt : Z -> string) (get_content : string -> reply response)
    (course_dir : path) (fs : list folder) (es : list entry) (c c1 : course) x :
  run_folders course_dir fs c = inr c1 ->
  (forall e, In e es -> Exists (fun f => folder_key f = folder_id e) fs) ->
  (forall e, In e es -> display_name e <> "") ->
  (forall e kind, In e es -> ~ request_fails get_content (url e) kind) ->
  (forall t, ~ In "/"%char (String.list_ascii_of_string (fmt t))) ->
  run_files fmt get_content es c1 = Raise x ->
  x = IsADirectoryError.
Proof.
  intros Hf Hcov Hne Hreq Hfmt Hr.
  destruct (run_files_raise_split _ _ _ _ _ Hr) as (pre & e & post & cm & Hes & Hpre & He).
  destruct (run_files_dirs _ _ _ _ _ Hpre) as (Hfd & Hdirs).
  assert (Hin : In e es) by (rewrite Hes; apply in_or_app; by right; left).
  destruct (last_with_key fs (folder_id e) (Hcov e Hin)) as (fpre & g & fpost & Hfs & Hk & Hpost).
  rewrite <- Hk in Hpost.
  destruct (run_folders_last _ _ _ _ Hf fpre g fpost Hfs Hpost) as (Hlk & Hdir).
  rewrite Hk in Hlk. rewrite <- Hfd in Hlk. apply Hdirs in Hdir.
  set (name := replace_char "/" "-" (display_name e)).
  assert (Hn : name <> "") by (apply replace_char_nonempty; auto).
  assert (Hns : ~ In "/"%char (String.list_ascii_of_string name))
    by (apply replace_char_absent; discriminate).
  destruct (parse_file_raise _ _ _ _ _ He) as [[Hn' _]|[(loc & Hl & Hd & _)|[[Ho|Ho]|(kind & Hk' & _)]]].
  - rewrite Hlk in Hn'. discriminate.
  - rewrite Hlk in Hl. injection Hl as <-. rewrite Hdir in Hd. discriminate.
  - unfold resolved_path in Ho. rewrite Hlk in Ho. exact (open_error_snoc _ _ _ _ Hdir Hn Ho).
  - unfold collision_path in Ho. rewrite Hlk in Ho. fold name in Ho.
    destruct (collision_name_props name (fmt (modified_at e)) Hns) as (_ & Hsp & Hcs).
    set (cname := add_before_ext name (" c" +++ fmt (modified_at e))) in *.
    assert (Hcn : cname <> "") by (intros E; rewrite E in Hsp; exact Hsp).
    rewrite (join_file_single _ _ Hcn (Hcs (Hfmt _))) in Ho.
    exact (open_error_snoc _ _ _ _ Hdir Hcn Ho).
  - exfalso. exact (Hreq e kind Hin Hk').
Qed.

(** ** Module items *)

Lemma startswith_app (p t : string) : startswith (p +++ t) p = true.
Proof.
  unfold startswith. induction p as [|a p IH]; [destruct t; reflexivity|].
  change (String a p +++ t) with (String a (p +++ t)). cbn [String.prefix].
  destruct (ascii_dec a a); [exact IH | congruence].
Qed.

(** The name a module item is given has a space, so it is never empty. *)
Lemma placed_name_space (item : moduleitem) (moduleid : Z) (file : entry) :
  In " "%char (String.list_ascii_of_string (display_name (placed item moduleid file))).
Proof. cbn [placed display_name]. rewrite !list_ascii_app, !in_app_iff. simpl. tauto. Qed.

Lemma placed_name_nonempty (item : moduleitem) (moduleid : Z) (file : entry) :
  display_name (placed item moduleid file) <> "".
Proof. intros E. pose proof (placed_name_space item moduleid file) as H. rewrite E in H. exact H. Qed.

(** A [SubHeader] item stands for an empty placeholder file named after its
    position, indent and title.  When that file exists, the item is counted
    skipped and the disk is left as it is if the file is empty or not older
    than the clock; a non-empty older file is replaced by an empty one and
    counted updated.  Either way the path joins ExpectedPathSet. *)
Theorem subheader_item (fmt : Z -> string) (get_content : string -> reply response)
    (get_file : string -> reply (Z * option entry)) (item : moduleitem) (moduleid : Z) (c : course)
    (loc : path) (f : fobj) :
  item_type item = "SubHeader" ->
  folder_dict c !! moduleid = Some loc ->
  let p := loc ++ [replace_char "/" "-"
                     (pretty (position item) +++ str_mul (indent item) "~" +++ " " +++ title item)] in
  disk_lookup p (files c) = Some (OFile f) ->
  exists c', parse_moduleitem fmt get_content get_file item moduleid c = Ok (tt, c') /\
    file_set c' = {[p]} ∪ file_set c /\ downloaded c' = downloaded c /\ errors c' = errors c /\
    if bool_decide (data f = "") || (now c <=? mtime f)
    then files c' = files c /\ skipped c' = S (skipped c) /\ updated c' = updated c
    else disk_lookup p (files c') = Some (OFile (mkFobj "" (now c))) /\
         updated c' = S (updated c) /\ skipped c' = skipped c.
Proof.
  intros Ht Hloc p Hl.
  unfold parse_moduleitem, item_file, bind at 1, gets.
  rewrite Ht, bool_decide_false by discriminate. rewrite bool_decide_true by reflexivity.
  set (e := placed item moduleid (mkEntry 0 ("SubHeader:" +++ title item) (title item) (now c))).
  assert (Hloc' : folder_dict c !! folder_id e = Some loc) by exact Hloc.
  assert (Hne : display_name e <> "") by apply placed_name_nonempty.
  change (disk_lookup (loc ++ [replace_char "/" "-" (display_name e)]) (files c) = Some (OFile f)) in Hl.
  destruct (Z.le_gt_cases (now c) (mtime f)) as [Hle|Hlt].
  - rewrite (parse_file_current fmt get_content e c loc f Hloc' Hne Hl Hle).
    eexists. split; [reflexivity|]. cbn. split; [reflexivity|]. split; [reflexivity|].
    split; [reflexivity|]. rewrite (proj2 (Z.leb_le _ _) Hle), orb_true_r. auto.
  - assert (Hsub : startswith (url e) "SubHeader:" = true) by apply startswith_app.
    assert (Hurl : startswith (url e) "URL:" = false) by reflexivity.
    assert (Hu : bool_decide (url e = "") = false)
      by (apply bool_decide_false; cbv [e placed url]; discriminate).
    assert (Hok : download_ok get_content e) by (intros _ _ Hs; congruence).
    pose proof (parse_file_newer fmt get_content e c loc f Hloc' Hne Hl Hlt Hok) as Hn.
    cbv zeta in Hn. rewrite Hn.
    assert (Hs : mkFobj (fetched_data get_content e) (fetched_mtime e (now c)) = mkFobj "" (now c))
      by (unfold fetched_data, fetched_mtime; rewrite Hu, Hurl, Hsub; reflexivity).
    rewrite Hs. rewrite filecmp_exact by (cbn; lia).
    rewrite (proj2 (Z.leb_gt _ _) Hlt), orb_false_r. cbn [data].
    destruct (bool_decide (data f = "")) eqn:Hd.
    + eexists. split; [reflexivity|]. cbn. repeat split.
    + eexists. split; [reflexivity|]. cbn. split; [reflexivity|]. split; [reflexivity|].
      split; [reflexivity|]. split; [apply disk_lookup_write_eq|auto].
Qed.

(** An item that is neither a [File] nor a [SubHeader] becomes an Internet
    shortcut [<position><indent '~'s> <title>.url].  When no entry of the
    module's folder has that name up to case ([str.lower]), the shortcut is
    written, stamped with the clock, naming exactly the item's [html_url];
    nothing else on the disk changes, and it is counted downloaded and
    expected. *)
Theorem url_item_new (fmt : Z -> string) (get_content : string -> reply response)
    (get_file : string -> reply (Z * option entry)) (item : moduleitem) (moduleid : Z) (c : course)
    (loc : path) :
  item_type item <> "File" -> item_type item <> "SubHeader" ->
  folder_dict c !! moduleid = Some loc -> isdirb loc (files c) = true ->
  let name := replace_char "/" "-" (pretty (position item) +++ str_mul (indent item) "~" +++ " "
                                     +++ (title item +++ ".url")) in
  (forall n o, In (loc ++ [n], o) (files c) -> lower n <> lower name) ->
  exists c', parse_moduleitem fmt get_content get_file item moduleid c = Ok (tt, c') /\
    disk_lookup (loc ++ [name]) (files c') =
      Some (OFile (mkFobj ("[InternetShortcut]" +++ nl +++ "URL=" +++ html_url item +++ nl) (now c))) /\
    (forall q, q <> loc ++ [name] -> disk_lookup q (files c') = disk_lookup q (files c)) /\
    downloaded c' = S (downloaded c) /\ loc ++ [name] ∈ file_set c'.
Proof.
  intros Ht1 Ht2 Hloc Hd name Hno.
  unfold parse_moduleitem, item_file, bind at 1, gets.
  rewrite !bool_decide_false by assumption.
  set (e := placed item moduleid (mkEntry 0 ("URL:" +++ html_url item) (title item +++ ".url") (now c))).
  assert (Hloc' : folder_dict c !! folder_id e = Some loc) by exact Hloc.
  assert (Hne : display_name e <> "") by apply placed_name_nonempty.
  assert (Hu : url e <> "") by (cbv [e placed url]; discriminate).
  assert (Hurl : startswith (url e) "URL:" = true) by apply startswith_app.
  assert (Hok : download_ok get_content e) by (intros _ Hs _; congruence).
  destruct (parse_file_fresh fmt get_content e c loc Hloc' Hd Hno) as [_ Hfresh].
  assert (Hn : disk_lookup (loc ++ [name]) (files c) = None) by (apply nomatch_lookup_None; exact Hno).
  assert (Hnn : name <> "") by (apply replace_char_nonempty; exact Hne).
  assert (Hdn : isdirb (dirname (loc ++ [name])) (files c) = true) by (by rewrite dirname_snoc).
  assert (Hsl : slashed (loc ++ [name]) = false) by (rewrite slashed_snoc; by apply bool_decide_false).
  destruct (download_local_new get_content e (loc ++ [name]) c Hu Hok Hdn Hsl Hn)
    as (d' & Hdl & Hl & Hfr & _).
  rewrite (Hfresh Hu).
  replace (loc ++ [replace_char "/" "-" (display_name e)]) with (loc ++ [name]) by reflexivity.
  rewrite (try_conn_ok _ _ _ Hdl).
  eexists. split; [reflexivity|]. cbn [files set_file_set inc_downloaded set_files downloaded file_set].
  split; [|split; [exact Hfr|split; [reflexivity|set_solver]]].
  rewrite Hl. unfold fetched_data, fetched_mtime.
  rewrite bool_decide_false by exact Hu. rewrite Hurl. cbn [orb].
  change (url e) with ("URL:" +++ html_url item). rewrite shortcut_url. reflexivity.
Qed.

(** Whatever its type, a module item changes the disk only at paths
    strictly below its module's directory, adds to ExpectedPathSet only
    such paths, and leaves [folder_dict] as it is; when [time_fmt] puts no
    ['/'] in a name, those paths are directly inside the module's
    directory. *)
Theorem module_item_in_folder (fmt : Z -> string) (get_content : string -> reply response)
    (get_file : string -> reply (Z * option entry)) (item : moduleitem) (moduleid : Z) (c c' : course) :
  parse_moduleitem fmt get_content get_file item moduleid c = Ok (tt, c') ->
  exists loc, folder_dict c !! moduleid = Some loc /\ folder_dict c' = folder_dict c /\
    (forall q, (forall rel, rel <> [] -> q <> loc ++ rel) ->
       disk_lookup q (files c') = disk_lookup q (files c)) /\
    (forall q, q ∈ file_set c' -> q ∈ file_set c \/ exists rel, rel <> [] /\ q = loc ++ rel) /\
    ((forall t, ~ In "/"%char (String.list_ascii_of_string (fmt t))) ->
     (forall q, dirname q <> loc -> disk_lookup q (files c') = disk_lookup q (files c)) /\
     (forall q, q ∈ file_set c' -> q ∈ file_set c \/ dirname q = loc)).
Proof.
  unfold parse_moduleitem, bind at 1, gets.
  destruct (item_file get_file item (now c)) as [file|x]; [|discriminate].
  set (e := placed item moduleid file). intros H.
  destruct (folder_dict c !! moduleid) as [loc|] eqn:Hloc.
  2: { unfold parse_file, bind, folder_lookup in H. cbn in H. rewrite Hloc in H. discriminate. }
  exists loc. split; [done|].
  destruct (parse_file_mod _ _ _ _ _ H) as (Hfd & Hmod & Hfs).
  unfold resolved_path, collision_path in Hmod, Hfs. cbn [e placed folder_id] in Hmod, Hfs.
  rewrite Hloc in Hmod, Hfs. fold e in Hmod, Hfs.
  set (name := replace_char "/" "-" (display_name e)) in *.
  assert (Hnn : name <> "") by (apply replace_char_nonempty, placed_name_nonempty).
  assert (Hns : ~ In "/"%char (String.list_ascii_of_string name))
    by (apply replace_char_absent; discriminate).
  destruct (collision_name_props name (fmt (modified_at e)) Hns) as (Hst & Hsp & Hcs).
  set (cname := add_before_ext name (" c" +++ fmt (modified_at e))) in *.
  destruct (join_file_below loc cname " " Hst Hsp ltac:(discriminate))
    as [(rel1 & Hr1 & Hj1) (rel2 & Hr2 & Hj2)].
  rewrite (dest_path_snoc _ _ Hnn) in Hmod. rewrite Hj2 in Hmod. rewrite Hj1 in Hfs.
  split; [exact Hfd|]. split; [|split; [|intros Hfmt; split]].
  - intros q Hq. destruct Hmod as [[Hm _]|[Hm _]]; apply Hm; apply Hq; [discriminate | exact Hr2].
  - intros q Hq. destruct Hfs as [Hfs|[Hfs|Hfs]]; rewrite Hfs in Hq; [by left|..];
      apply elem_of_union in Hq as [Hq|Hq]; try (by left);
      apply elem_of_singleton in Hq; subst q; right; eexists; (split; [|reflexivity]);
      [discriminate | exact Hr1].
  - intros q Hq. assert (Hcn : cname <> "") by (intros E; rewrite E in Hsp; exact Hsp).
    pose proof (join_file_single loc cname Hcn (Hcs (Hfmt _))) as Hj.
    rewrite Hj1 in Hj. apply app_inv_head in Hj. subst rel1.
    destruct Hmod as [[Hm _]|[Hm _]]; apply Hm; intros ->; apply Hq.
    + apply dirname_snoc.
    + rewrite Hj1 in Hj2.
      unfold dest_path in Hj2. rewrite slashed_snoc, bool_decide_false in Hj2 by exact Hcn.
      rewrite <- Hj2. apply dirname_snoc.
  - intros q Hq. assert (Hcn : cname <> "") by (intros E; rewrite E in Hsp; exact Hsp).
    pose proof (join_file_single loc cname Hcn (Hcs (Hfmt _))) as Hj.
    rewrite Hj1 in Hj. apply app_inv_head in Hj. subst rel1.
    destruct Hfs as [Hfs|[Hfs|Hfs]]; rewrite Hfs in Hq; [by left|..];
      apply elem_of_union in Hq as [Hq|Hq]; try (by left);
      apply elem_of_singleton in Hq; subst q; right; apply dirname_snoc.
Qed.

End Properties.

(** * Witnesses and counterexamples *)

(** The runs below take [str.lower] on ASCII names. *)
#[local] Existing Instance ascii_lower.

(** ** Case-insensitive lookup *)

Lemma getfile_insensitive_first_entry_witness :
  isfileb ["Course"; "notes.pdf"] (files course_sub) = false /\
  isfile_insensitive ["Course"; "notes.pdf"] course_sub = Ok (true, course_sub).
Proof.
  split; [reflexivity|].
  exact (proj2 (getfile_insensitive_first_entry ["Course"; "notes.pdf"] course_sub
                  ["Notes.pdf"] eq_refl) "Notes.pdf" ODir (or_intror (or_introl eq_refl)) eq_refl).
Defined.

(** ** Pagination *)

Lemma do_all_pages_in_order_witness :
  let ps := [mkPage 200 (Some "p2") (Some (page_items 1));
             mkPage 200 (Some "p3") (Some (page_items 2));
             mkPage 200 None (Some (page_items 3))] in
  page_chain three_pages "p1" ps /\
  match do_all_pages three_pages 4 "p1" record_item course0 with
  | Some (Ok (_, c')) =>
      out c' = map Msg (page_items 1 ++ page_items 2 ++ page_items 3) /\
      length (out c') = 300%nat
  | _ => False
  end.
Proof.
  intros ps.
  assert (Hch : page_chain three_pages "p1" ps).
  { apply chain_next; [discriminate | reflexivity |].
    apply chain_next; [discriminate | reflexivity |].
    apply chain_last; [discriminate | reflexivity | reflexivity]. }
  split; [exact Hch|].
  rewrite (proj1 (do_all_pages_in_order three_pages record_item "p1" ps Hch)).
  - vm_compute. split; reflexivity.
  - repeat apply List.Forall_cons; try apply List.Forall_nil; (split; [reflexivity | discriminate]).
  - simpl. lia.
Defined.

(** A 300 answer is no success, yet its page is handled as one. *)
Lemma do_all_pages_accepts_300 :
  ~ http_success 300 /\
  do_all_pages multiple_choices_page 2 "u" record_item course0 =
  Some (Ok (tt, set_out [Msg "item"] course0)).
Proof. split; [unfold http_success; lia | vm_compute; reflexivity]. Qed.

(** ** Pruning *)

(** A [.old] directory inside a removed directory goes with it; and under
    a course directory below [.old] nothing is removed, expected or not. *)
Lemma onto_local_removes_old_below_removed_dir :
  bool_decide ((["C"; "gone"; ".old"; "k.pdf"], true) ∈ entries ["C"] tree_old) = true /\
  bool_decide ((["C"; "gone"; ".old"; "k.pdf"], true) ∈
                 entries ["C"] (onto_local course_tree ["C"] tree_old)) = false /\
  onto_local course0 [".old"; "canvas"; "Course"] [FileN "stale.pdf"] = [FileN "stale.pdf"] /\
  [".old"; "canvas"; "Course"; "stale.pdf"] ∉ file_set course0.
Proof.
  split; [vm_compute; reflexivity|]. split; [vm_compute; reflexivity|].
  split; [reflexivity | set_solver].
Qed.

Lemma onto_local_only_deletes_witness :
  In (["C"; "sub"; "a.pdf"], true) (entries ["C"] (onto_local course_tree ["C"] tree0)) /\
  In (["C"; "sub"; "a.pdf"], true) (entries ["C"] tree0).
Proof.
  assert (H : In (["C"; "sub"; "a.pdf"], true) (entries ["C"] (onto_local course_tree ["C"] tree0)))
    by (apply list_elem_of_In, (bool_decide_unpack _); vm_compute; exact I).
  split; [exact H | exact (onto_local_only_deletes course_tree ["C"] tree0 _ _ H)].
Defined.

Lemma onto_local_keeps_expected_witness :
  In (["C"; "sub"; "a.pdf"], true) (entries ["C"] (onto_local course_tree ["C"] tree0)).
Proof.
  apply (onto_local_keeps_expected course_tree ["C"] tree0 ["C"; "sub"; "a.pdf"] true).
  - simpl. tauto.
  - intros _. apply (bool_decide_unpack _). vm_compute. exact I.
  - discriminate.
  - intros a rel Hin Hrel Hq. simpl in Hin.
    destruct Hin as [[= <-]|[Hin|[Hin|[Hin|[]]]]]; try discriminate.
    left. apply (bool_decide_unpack _). vm_compute. exact I.
Defined.

(** ** One entry *)

Lemma parse_file_download_error_witness :
  exists c', parse_file fmt0 server e_404 course1 = Ok (tt, c') /\
    errors c' = 1%nat /\ file_set c' = ∅ /\ files c' = files course1 /\
    out c' = [Args "Non-200 status code" "b.pdf"].
Proof.
  destruct (parse_file_download_error fmt0 server e_404 course1 ["Course"] (mkResponse 404 "" None))
    as (c' & Hp & He & _ & _ & _ & Hfs & Hfi & Ho & _);
    [reflexivity | reflexivity | intros Hc; vm_compute in Hc; discriminate
    | reflexivity | reflexivity | vm_compute; reflexivity | intros Hc; vm_compute in Hc; discriminate
    | intros f Hf; vm_compute in Hf; discriminate |].
  exists c'. split; [exact Hp|]. split; [by rewrite He|]. split; [by rewrite Hfs|].
  split; [exact Hfi|]. by rewrite Ho.
Defined.

Lemma parse_file_one_counter_witness :
  exists c', run_files fmt0 server [e_ok; e_404; e_empty] course1 = Ok (tt, c') /\
    counter_sum c' = 3%nat /\ counters c' = (1, 0, 1, 1)%nat.
Proof.
  destruct (run_files fmt0 server [e_ok; e_404; e_empty] course1) as [[[] c']|ex] eqn:H;
    [|vm_compute in H; discriminate].
  exists c'. split; [reflexivity|]. split.
  - rewrite (proj2 (parse_file_one_counter fmt0 server) _ _ _ H). reflexivity.
  - vm_compute in H. injection H as <-. reflexivity.
Defined.

Lemma parse_file_newer_byte_exact_witness :
  exists c', parse_file fmt0 server e_ok course_old = Ok (tt, c') /\
    updated c' = 1%nat /\
    disk_lookup ["Course"; "a.pdf"] (files c') =
    Some (OFile (mkFobj "bytes of https://canvas/a" 50)).
Proof.
  destruct (parse_file_newer_byte_exact fmt0 server e_ok course_old ["Course"] (mkFobj "old" 10))
    as (c' & Hp & _ & _ & _ & _ & Hdiff);
    [reflexivity | intros Hc; vm_compute in Hc; discriminate | vm_compute; reflexivity
    | vm_compute; reflexivity
    | intros _ _ _; eexists; split; [vm_compute; reflexivity | split; reflexivity]
    | intros Hc; vm_compute in Hc; discriminate |].
  destruct Hdiff as (Hu & _ & Hl); [intros Hc; vm_compute in Hc; discriminate|].
  change (["Course"] ++ [replace_char "/" "-" (display_name e_ok)]) with ["Course"; "a.pdf"] in Hl.
  exists c'. split; [exact Hp|]. split; [by rewrite Hu|]. rewrite Hl. vm_compute. reflexivity.
Defined.

Lemma parse_file_empty_url_witness :
  exists c', parse_file fmt0 server e_empty course1 = Ok (tt, c') /\
    errors c' = 0%nat /\ c' = set_file_set {[["Course"; "c.pdf"]]} (inc_skipped course1).
Proof.
  pose proof (parse_file_empty_url fmt0 server e_empty course1 ["Course"] eq_refl eq_refl) as H.
  cbv zeta in H. destruct H as (He & _ & _ & Hskip).
  assert (Hd : isdirb ["Course"] (files course1) = true) by reflexivity.
  assert (Hn : forall n o, In (["Course"] ++ [n], o) (files course1) ->
                 lower n <> lower (replace_char "/" "-" (display_name e_empty)))
    by (intros n o [Hin|[]]; apply (f_equal fst) in Hin; simpl in Hin; discriminate).
  rewrite (Hskip Hd Hn).
  eexists. split; [reflexivity|]. split; [reflexivity|]. f_equal; try set_solver.
Defined.

(** An entry without URL: never an error; on an older local file the file
    is emptied and counted updated; on a case collision it is counted
    downloaded and a path that is not on the disk becomes expected; with
    nothing on the disk it is counted skipped without a warning. *)
Lemma parse_file_empty_url_divergence :
  match parse_file fmt0 server e_empty_a course_old with
  | Ok (_, c') => errors c' = 0%nat /\ updated c' = 1%nat /\
                  bool_decide (["Course"; "a.pdf"] ∈ file_set c') = true /\
                  disk_lookup ["Course"; "a.pdf"] (files c') = Some (OFile (mkFobj "" 100))
  | Raise _ => False
  end /\
  match parse_file fmt0 server e_empty_upper course_old with
  | Ok (_, c') => errors c' = 0%nat /\ downloaded c' = 1%nat /\
                  bool_decide (["Course"; "A c2024.pdf"] ∈ file_set c') = true /\
                  disk_lookup ["Course"; "A c2024.pdf"] (files c') = None
  | Raise _ => False
  end /\
  match parse_file fmt0 server e_empty course1 with
  | Ok (_, c') => errors c' = 0%nat /\ skipped c' = 1%nat /\ out c' = [] /\
                  bool_decide (["Course"; "c.pdf"] ∈ file_set c') = true
  | Raise _ => False
  end.
Proof. vm_compute. repeat split. Qed.

Lemma download_written_mtime_witness :
  exists f, get_dest (Local ["Course"; "a.pdf"])
              (final (download server e_ok (Local ["Course"; "a.pdf"]) course1)) =
            Ok (Some f, final (download server e_ok (Local ["Course"; "a.pdf"]) course1)) /\
    mtime f = 50.
Proof.
  assert (H : download server e_ok (Local ["Course"; "a.pdf"]) course1 =
              Ok (tt, final (download server e_ok (Local ["Course"; "a.pdf"]) course1)))
    by (vm_compute; reflexivity).
  destruct (proj1 (proj2 (download_written_mtime server e_ok (Local ["Course"; "a.pdf"]) course1 _ H))
             ltac:(intros Hc; vm_compute in Hc; discriminate)
             ltac:(intros p [= <-]; vm_compute; discriminate))
    as (f & Hg & Hm).
  exists f. split; [exact Hg|]. rewrite Hm. reflexivity.
Defined.

(** A [URL:] shortcut is stamped with the clock, not with [modified_at]. *)
Lemma download_url_stub_stamped_now :
  match download server e_link (Local ["Course"; "link"]) course1 with
  | Ok (_, c') => disk_lookup ["Course"; "link"] (files c') =
                  Some (OFile (mkFobj (shortcut "URL:https://x") 100))
  | Raise _ => False
  end /\
  modified_at e_link <> 100.
Proof. split; [vm_compute; reflexivity | intros Hc; vm_compute in Hc; discriminate]. Qed.



(** ** Two runs *)



(** ** Extensions *)

Lemma add_before_ext_keeps_extension_witness :
  In "."%char (String.list_ascii_of_string "notes.v2.pdf") /\
  ext_of (add_before_ext "notes.v2.pdf" " c2024.01") = ext_of "notes.v2.pdf" /\
  String.length (add_before_ext "notes.v2.pdf" " c2024.01") =
    (String.length "notes.v2.pdf" + String.length " c2024.01")%nat.
Proof.
  assert (H : In "."%char (String.list_ascii_of_string "notes.v2.pdf")) by (simpl; tauto).
  split; [exact H | exact (add_before_ext_keeps_extension "notes.v2.pdf" " c2024.01" H)].
Defined.

(** ** The file phase *)

Lemma run_files_frame_witness :
  let c' := final (run_files fmt0 server [e_ok; e_404; e_empty] course1) in
  run_files fmt0 server [e_ok; e_404; e_empty] course1 = Ok (tt, c') /\
  folder_dict c' = folder_dict course1 /\
  (forall q, disk_lookup q (files course1) = Some ODir -> disk_lookup q (files c') = Some ODir) /\
  (forall q, (forall e, In e [e_ok; e_404; e_empty] ->
                q <> dest_path (resolved_path (folder_dict course1) e) /\
                q <> dest_path (collision_path fmt0 (folder_dict course1) e)) ->
     disk_lookup q (files c') = disk_lookup q (files course1)).
Proof.
  intros c'.
  assert (H : run_files fmt0 server [e_ok; e_404; e_empty] course1 =
              Ok (tt, final (run_files fmt0 server [e_ok; e_404; e_empty] course1)))
    by (vm_compute; reflexivity).
  split; [exact H | exact (run_files_frame fmt0 server _ _ _ H)].
Defined.

Lemma run_files_file_set_witness :
  let c' := final (run_files fmt0 server [e_ok; e_404; e_empty] course1) in
  run_files fmt0 server [e_ok; e_404; e_empty] course1 = Ok (tt, c') /\
  file_set course1 ⊆ file_set c' /\
  (forall q, q ∈ file_set c' -> q ∈ file_set course1 \/
     exists e, In e [e_ok; e_404; e_empty] /\ (q = resolved_path (folder_dict course1) e \/
                                             q = collision_path fmt0 (folder_dict course1) e)).
Proof.
  intros c'.
  assert (H : run_files fmt0 server [e_ok; e_404; e_empty] course1 =
              Ok (tt, final (run_files fmt0 server [e_ok; e_404; e_empty] course1)))
    by (vm_compute; reflexivity).
  split; [exact H | exact (run_files_file_set fmt0 server _ _ _ H)].
Defined.

Lemma run_files_raise_witness :
  run_files fmt0 server [e_ok; e_nofolder] course1 = Raise KeyError /\
  exists pre e post cm, [e_ok; e_nofolder] = pre ++ e :: post /\
    run_files fmt0 server pre course1 = Ok (tt, cm) /\
    parse_file fmt0 server e cm = Raise KeyError /\
    (forall a b, KeyError <> ConnectionError a b) /\
    ((folder_dict cm !! folder_id e = None /\ KeyError = KeyError) \/
     (exists loc, folder_dict cm !! folder_id e = Some loc /\ isdirb loc (files cm) = false /\
        (KeyError = FileNotFoundError \/ KeyError = NotADirectoryError)) \/
     (exists p, (p = resolved_path (folder_dict cm) e \/ p = collision_path fmt0 (folder_dict cm) e) /\
        open_error p (files cm) = Some KeyError /\
        (KeyError = IsADirectoryError \/ KeyError = FileNotFoundError \/ KeyError = NotADirectoryError)) \/
     (exists kind, request_fails server (url e) kind /\ KeyError = RequestException kind)).
Proof.
  assert (H : run_files fmt0 server [e_ok; e_nofolder] course1 = Raise KeyError)
    by (vm_compute; reflexivity).
  split; [exact H | exact (run_files_raise fmt0 server _ _ _ H)].
Defined.

Lemma parse_file_temp_file_witness :
  exists c', parse_file fmt0 server e_404a course_old = Ok (tt, c') /\
    errors c' = 1%nat /\ scratch c' = Some (mkFobj "" 100) /\ files c' = files course_old.
Proof.
  destruct (proj1 (parse_file_temp_file fmt0 server e_404a course_old ["Course"] (mkFobj "old" 10)
                     eq_refl ltac:(intros Hc; vm_compute in Hc; discriminate)
                     ltac:(vm_compute; reflexivity) ltac:(vm_compute; reflexivity))
              (mkResponse 404 "" None) ltac:(intros Hc; vm_compute in Hc; discriminate)
              ltac:(vm_compute; reflexivity) ltac:(vm_compute; reflexivity)
              ltac:(vm_compute; reflexivity) ltac:(intros Hc; vm_compute in Hc; discriminate))
    as (c' & Hp & He & Hs & Hf & _).
  exists c'. split; [exact Hp|]. split; [by rewrite He|]. split; [by rewrite Hs|]. exact Hf.
Defined.

(** ** The folder phase *)

Lemma parse_folder_fails_witness :
  parse_folder ["C"] (mkFolder 5 "course files/x/y") course_x = inl OS.NotADirectoryError /\
  ((OS.NotADirectoryError = OS.FileExistsError /\
    isfileb (folder_dir ["C"] (mkFolder 5 "course files/x/y")) (files course_x) = true) \/
   (OS.NotADirectoryError = OS.NotADirectoryError /\
    exists q, q <> [] /\ q `prefix_of` folder_dir ["C"] (mkFolder 5 "course files/x/y") /\
      q <> folder_dir ["C"] (mkFolder 5 "course files/x/y") /\ isfileb q (files course_x) = true)).
Proof.
  assert (H : parse_folder ["C"] (mkFolder 5 "course files/x/y") course_x = inl OS.NotADirectoryError)
    by (vm_compute; reflexivity).
  split; [exact H | exact (parse_folder_fails _ _ _ _ H)].
Defined.

Lemma run_folders_ok_witness :
  let c' := final_os (run_folders ["C"] folders3 course_c) in
  run_folders ["C"] folders3 course_c = inr c' /\
  c' = set_files (files c') (set_folder_dict (folder_dict c') course_c) /\
  (forall f, In f folders3 -> isdirb (folder_dir ["C"] f) (files c') = true) /\
  (forall q o, disk_lookup q (files course_c) = Some o -> disk_lookup q (files c') = Some o) /\
  (forall q o, disk_lookup q (files c') = Some o ->
     disk_lookup q (files course_c) = Some o \/
     (o = ODir /\ q <> [] /\ exists f, In f folders3 /\ q `prefix_of` folder_dir ["C"] f)).
Proof.
  intros c'.
  assert (H : run_folders ["C"] folders3 course_c = inr (final_os (run_folders ["C"] folders3 course_c)))
    by (vm_compute; reflexivity).
  split; [exact H | exact (run_folders_ok _ _ _ _ H)].
Defined.

Lemma run_folders_dict_witness :
  let c' := final_os (run_folders ["C"] folders3 course_c) in
  run_folders ["C"] folders3 course_c = inr c' /\
  (forall pre f post, folders3 = pre ++ f :: post ->
     Forall (fun g => folder_key g <> folder_key f) post ->
     folder_dict c' !! folder_key f = Some (folder_dir ["C"] f)) /\
  (forall k, Forall (fun g => folder_key g <> k) folders3 -> folder_dict c' !! k = folder_dict course_c !! k).
Proof.
  intros c'.
  assert (H : run_folders ["C"] folders3 course_c = inr (final_os (run_folders ["C"] folders3 course_c)))
    by (vm_compute; reflexivity).
  split; [exact H | exact (run_folders_dict _ _ _ _ H)].
Defined.

Lemma sync_files_raise_witness :
  let c1 := final_os (run_folders ["C"] [mkFolder 1 "course files"] course_coll) in
  run_folders ["C"] [mkFolder 1 "course files"] course_coll = inr c1 /\
  run_files fmt0 server [e_ok] c1 = Raise IsADirectoryError /\
  IsADirectoryError = IsADirectoryError.
Proof.
  intros c1.
  assert (H1 : run_folders ["C"] [mkFolder 1 "course files"] course_coll =
               inr (final_os (run_folders ["C"] [mkFolder 1 "course files"] course_coll)))
    by (vm_compute; reflexivity).
  assert (H2 : run_files fmt0 server [e_ok]
                 (final_os (run_folders ["C"] [mkFolder 1 "course files"] course_coll)) =
               Raise IsADirectoryError)
    by (vm_compute; reflexivity).
  assert (Hcov : forall e, In e [e_ok] ->
            Exists (fun f => folder_key f = folder_id e) [mkFolder 1 "course files"])
    by (intros e [<-|[]]; apply Exists_cons_hd; reflexivity).
  assert (Hne : forall e, In e [e_ok] -> display_name e <> "")
    by (intros e [<-|[]] Hc; vm_compute in Hc; discriminate).
  assert (Hreq : forall e kind, In e [e_ok] -> ~ request_fails server (url e) kind).
  { intros e kind [<-|[]] [Hf|(r & Hr & _ & Hs)].
    - vm_compute in Hf. discriminate.
    - vm_compute in Hr. injection Hr as <-. vm_compute in Hs. discriminate. }
  assert (Hfmt : forall t, ~ In "/"%char (String.list_ascii_of_string (fmt0 t)))
    by (intros t Hin; simpl in Hin; intuition discriminate).
  split; [exact H1|]. split; [exact H2|].
  exact (sync_files_raise fmt0 server ["C"] _ [e_ok] _ _ _ H1 Hcov Hne Hreq Hfmt H2).
Defined.

(** ** Module items *)

Lemma subheader_item_witness :
  let p := ["M"] ++ [replace_char "/" "-" (pretty (position item_sub) +++
             str_mul (indent item_sub) "~" +++ " " +++ title item_sub)] in
  exists c', parse_moduleitem fmt0 server no_files item_sub 7 course_m = Ok (tt, c') /\
    file_set c' = {[p]} ∪ file_set course_m /\ downloaded c' = downloaded course_m /\
    errors c' = errors course_m /\
    if bool_decide (data (mkFobj "" 5) = "") || (now course_m <=? mtime (mkFobj "" 5))
    then files c' = files course_m /\ skipped c' = S (skipped course_m) /\
         updated c' = updated course_m
    else disk_lookup p (files c') = Some (OFile (mkFobj "" (now course_m))) /\
         updated c' = S (updated course_m) /\ skipped c' = skipped course_m.
Proof.
  apply (subheader_item fmt0 server no_files item_sub 7 course_m ["M"] (mkFobj "" 5));
    vm_compute; reflexivity.
Defined.

Lemma url_item_new_witness :
  let name := replace_char "/" "-" (pretty (position item_link) +++ str_mul (indent item_link) "~"
                +++ " " +++ (title item_link +++ ".url")) in
  exists c', parse_moduleitem fmt0 server no_files item_link 7 course_m = Ok (tt, c') /\
    disk_lookup (["M"] ++ [name]) (files c') =
      Some (OFile (mkFobj ("[InternetShortcut]" +++ nl +++ "URL=" +++ html_url item_link +++ nl)
                    (now course_m))) /\
    (forall q, q <> ["M"] ++ [name] -> disk_lookup q (files c') = disk_lookup q (files course_m)) /\
    downloaded c' = S (downloaded course_m) /\ ["M"] ++ [name] ∈ file_set c'.
Proof.
  apply (url_item_new fmt0 server no_files item_link 7 course_m ["M"]).
  - discriminate.
  - discriminate.
  - vm_compute. reflexivity.
  - vm_compute. reflexivity.
  - intros n o Hin. destruct Hin as [Hin|[Hin|[]]]; simplify_eq/=; vm_compute; discriminate.
Defined.

Lemma module_item_in_folder_witness :
  let c' := final (parse_moduleitem fmt0 server no_files item_link 7 course_m) in
  parse_moduleitem fmt0 server no_files item_link 7 course_m = Ok (tt, c') /\
  exists loc, folder_dict course_m !! 7 = Some loc /\ folder_dict c' = folder_dict course_m /\
    (forall q, (forall rel, rel <> [] -> q <> loc ++ rel) ->
       disk_lookup q (files c') = disk_lookup q (files course_m)) /\
    (forall q, q ∈ file_set c' -> q ∈ file_set course_m \/ exists rel, rel <> [] /\ q = loc ++ rel) /\
    ((forall t, ~ In "/"%char (String.list_ascii_of_string (fmt0 t))) ->
     (forall q, dirname q <> loc -> disk_lookup q (files c') = disk_lookup q (files course_m)) /\
     (forall q, q ∈ file_set c' -> q ∈ file_set course_m \/ dirname q = loc)).
Proof.
  intros c'.
  assert (H : parse_moduleitem fmt0 server no_files item_link 7 course_m =
              Ok (tt, final (parse_moduleitem fmt0 server no_files item_link 7 course_m)))
    by (vm_compute; reflexivity).
  split; [exact H | exact (module_item_in_folder _ _ _ _ _ _ _ H)].
Defined.
